(** * Trade recording bot: ledger layout resolution, zone classification
      and fill reconciliation

    A shallow embedding of [src/main.py].  Python text is a [string] of
    bytes (UTF-8), Python floats are exact rationals [Q], 1-based grid
    coordinates are [nat], a worksheet is a finite map from coordinates to
    cell values, and code that talks to the worksheet runs in a small
    state-and-exception monad whose state carries the sheet and the trace
    of cell updates and log lines.

    What the embedding leaves to its surroundings:
    - [strptime], [strftime], [isoformat] and the printing of numbers are
      library code; the program is parametrised by them ([PyLib]).
    - White space and letter case are those of ASCII; digits are the ASCII
      digits.
    - Floats are exact rationals: no rounding, no NaN, no infinities.
    - A cell is addressed by its [(row, col)], where the program builds an
      A1 address; [col_to_a1], which gives the letters of that address, is
      modelled on its own.
    - Opening the spreadsheet, the local backup, the HTTP transport and the
      notification channel are outside; the order history is a function
      from page numbers to rows whose fields are already parsed.
    - The polling loop and the state file are outside; the text of an
      incoming message, the clock and the environment variables come in
      as arguments, and the two-decimal printing of amounts in the replies
      is library code ([MoneyFormat]).
    - Of the log lines, the ones the ledger writer emits per event are
      kept, with the fill identifier (or symbol) they carry.
    - Column and row numbers are positive wherever the program produces
      them; [cell_at] answers the empty text at a zero coordinate, where
      Python would index from the end. *)

From Stdlib Require Import QArith Qround.
From Stdlib Require Import Ascii String DecimalString.
From stdpp Require Import base option list gmap sets strings sorting.

Open Scope string_scope.

(** ** Text primitives *)

Module Text.

(** [str.isspace] restricted to the ASCII range: tab, line feed, vertical
    tab, form feed, carriage return, the four separators 0x1c-0x1f and the
    space.  The same class is what [\s] matches in [re]. *)
Definition is_space (a : ascii) : bool :=
  let n := nat_of_ascii a in
  (((9 <=? n) && (n <=? 13)) || ((28 <=? n) && (n <=? 32)))%nat.

Definition is_upper (a : ascii) : bool :=
  let n := nat_of_ascii a in ((65 <=? n) && (n <=? 90))%nat.

Definition is_lower (a : ascii) : bool :=
  let n := nat_of_ascii a in ((97 <=? n) && (n <=? 122))%nat.

Definition is_digit (a : ascii) : bool :=
  let n := nat_of_ascii a in ((48 <=? n) && (n <=? 57))%nat.

Definition lower_ascii (a : ascii) : ascii :=
  if is_upper a then ascii_of_nat (nat_of_ascii a + 32) else a.

Definition upper_ascii (a : ascii) : ascii :=
  if is_lower a then ascii_of_nat (nat_of_ascii a - 32) else a.

Fixpoint map_chars (f : ascii -> ascii) (s : string) : string :=
  match s with
  | EmptyString => EmptyString
  | String a s' => String (f a) (map_chars f s')
  end.

(** [s.lower()] and [s.upper()]; bytes outside ASCII are left alone. *)
Definition lower (s : string) : string := map_chars lower_ascii s.
Definition upper (s : string) : string := map_chars upper_ascii s.

Fixpoint lstrip (s : string) : string :=
  match s with
  | EmptyString => EmptyString
  | String a s' => if is_space a then lstrip s' else s
  end.

Fixpoint rstrip (s : string) : string :=
  match s with
  | EmptyString => EmptyString
  | String a s' =>
      match rstrip s' with
      | EmptyString => if is_space a then EmptyString else String a EmptyString
      | r => String a r
      end
  end.

(** [s.strip()] *)
Definition strip (s : string) : string := rstrip (lstrip s).

(** [re.sub(r"\s+", "", s)] *)
Fixpoint remove_spaces (s : string) : string :=
  match s with
  | EmptyString => EmptyString
  | String a s' => if is_space a then remove_spaces s' else String a (remove_spaces s')
  end.

(** [s.replace(",", "")] and friends: drop every occurrence of one byte. *)
Fixpoint remove_char (x : ascii) (s : string) : string :=
  match s with
  | EmptyString => EmptyString
  | String a s' => if Ascii.eqb a x then remove_char x s' else String a (remove_char x s')
  end.

(** [sub in s] *)
Fixpoint contains (sub s : string) : bool :=
  String.prefix sub s ||
  match s with
  | EmptyString => false
  | String _ s' => contains sub s'
  end.

(** [s.split(sep)[-1]] for a one-byte separator: the text after the last
    separator, or all of [s] when there is none. *)
Fixpoint after_last (sep : ascii) (s : string) : string :=
  match s with
  | EmptyString => EmptyString
  | String a s' =>
      if contains (String sep EmptyString) s' then after_last sep s'
      else if Ascii.eqb a sep then s' else s
  end.

End Text.

(** ** Label matcher *)

Definition _norm_label (text : string) : string :=
  Text.remove_spaces (Text.lower (Text.strip text)).

Definition _is_date_label (text : string) : bool :=
  let n := _norm_label text in
  Text.contains "날짜" n || Text.contains "체결일자" n.

Definition _is_loc_avg_label (text : string) : bool :=
  let n := _norm_label text in
  Text.contains "loc평단" n || (Text.contains "loc" n && Text.contains "평단" n).

Definition _is_loc_high_label (text : string) : bool :=
  let n := _norm_label text in
  Text.contains "loc고가" n || (Text.contains "loc" n && Text.contains "고가" n).

Definition _is_total_qty_label (text : string) : bool :=
  let n := _norm_label text in
  Text.contains "총수량" n.

(** ** Exceptions and outcomes *)

Inductive exn : Type :=
| ValueError (msg : string).

(** What a call does: return a value, raise, or (for the one unbounded
    loop of the program) fail to come back within the fuel given. *)
Inductive outcome (A : Type) : Type :=
| Ok (a : A)
| Raise (e : exn)
| Diverge.

Arguments Ok {A} a.
Arguments Raise {A} e.
Arguments Diverge {A}.

(** ** Grid snapshots *)

(** [ws.get_all_values()]: rows of cell text, possibly ragged. *)
Abbreviation Grid := (list (list string)).

(** The text at 1-based [(r, c)]; the empty text outside the grid. *)
Definition cell_at (values : Grid) (r c : nat) : string :=
  match r, c with
  | S r', S c' => nth c' (nth r' values []) ""
  | _, _ => ""
  end.

(** [range(a, b)] *)
Definition py_range (a b : nat) : list nat := seq a (b - a).

(** A [for] loop whose body may [return]: the first iteration that
    returns decides. *)
Fixpoint first_some {A B : Type} (f : A -> option B) (l : list A) : option B :=
  match l with
  | [] => None
  | x :: l' =>
      match f x with
      | Some b => Some b
      | None => first_some f l'
      end
  end.

(** [x is None] *)
Definition is_none {A : Type} (o : option A) : bool :=
  match o with None => true | Some _ => false end.

(** ** Anchor resolver *)

(** [(header_row, date_col, loc_avg_col, loc_high_col)] *)
Record Anchor : Type := mkAnchor {
  header_row : nat;
  date_col : nat;
  loc_avg_col : nat;
  loc_high_col : nat
}.

(** The four locals of the date-first window search. *)
Record WindowState : Type := mkWindowState {
  loc_avg : option nat;
  loc_high : option nat;
  loc_avg_row : nat;
  loc_high_row : nat
}.

(** Body of the innermost loop of phase 1, at window cell [(rr, cc)]. *)
Definition scan_cell (values : Grid) (rr : nat) (st : WindowState) (cc : nat) : WindowState :=
  let cell := cell_at values rr cc in
  let st1 :=
    if is_none (loc_avg st) && _is_loc_avg_label cell
    then mkWindowState (Some cc) (loc_high st) rr (loc_high_row st)
    else st in
  if is_none (loc_high st1) && _is_loc_high_label cell
  then mkWindowState (loc_avg st1) (Some cc) (loc_avg_row st1) rr
  else st1.

(** [max(len(r) for r in values)] *)
Definition max_col (values : Grid) : nat := max_list (map (@List.length string) values).

Definition window_cols (values : Grid) (c : nat) : list nat :=
  py_range (c + 1) (Nat.min (c + 14) (max_col values) + 1).

Definition window_rows (values : Grid) (r : nat) : list nat :=
  py_range r (Nat.min (r + 2) (List.length values) + 1).

(** The [for rr in ...] loop of phase 1: scan one row of the window, then
    return as soon as both labels have been seen. *)
Fixpoint scan_window_rows (values : Grid) (r c : nat) (rrs : list nat)
    (st : WindowState) : option Anchor :=
  match rrs with
  | [] => None
  | rr :: rest =>
      let st' := fold_left (scan_cell values rr) (window_cols values c) st in
      match loc_avg st', loc_high st' with
      | Some a, Some b =>
          Some (mkAnchor (Nat.max r (Nat.max (loc_avg_row st') (loc_high_row st'))) c a b)
      | _, _ => scan_window_rows values r c rest st'
      end
  end.

(** What phase 1 does at a date-label match [(r, c)]. *)
Definition scan_window (values : Grid) (r c : nat) : option Anchor :=
  scan_window_rows values r c (window_rows values r) (mkWindowState None None r r).

(** Phase 1: the date label first, the two zone labels around it. *)
Definition date_first_scan (values : Grid) : option Anchor :=
  first_some (fun r =>
    let row := nth (r - 1) values [] in
    first_some (fun c =>
      if _is_date_label (cell_at values r c) then scan_window values r c else None)
      (py_range 1 (List.length row + 1)))
    (py_range 1 (List.length values + 1)).

(** The locals of phase 2; a column and its row are always set together. *)
Record LabelState : Type := mkLabelState {
  avg_at : option (nat * nat);   (* (loc_avg_row, loc_avg_col) *)
  high_at : option (nat * nat)   (* (loc_high_row, loc_high_col) *)
}.

Definition label_cell (values : Grid) (r : nat) (st : LabelState) (c : nat) : LabelState :=
  let cell := cell_at values r c in
  let st1 :=
    if is_none (avg_at st) && _is_loc_avg_label cell
    then mkLabelState (Some (r, c)) (high_at st) else st in
  if is_none (high_at st1) && _is_loc_high_label cell
  then mkLabelState (avg_at st1) (Some (r, c)) else st1.

(** The whole-grid label scan of phase 2, with its [break]. *)
Fixpoint label_scan_rows (values : Grid) (rs : list nat) (st : LabelState) : LabelState :=
  match rs with
  | [] => st
  | r :: rest =>
      let row := nth (r - 1) values [] in
      let st' := fold_left (label_cell values r) (py_range 1 (List.length row + 1)) st in
      match avg_at st', high_at st' with
      | Some _, Some _ => st'
      | _, _ => label_scan_rows values rest st'
      end
  end.

(** Phase 2: the zone labels first, a date label on a row next to them. *)
Definition label_first_scan (values : Grid) : option Anchor :=
  let row_count := List.length values in
  let st := label_scan_rows values (py_range 1 (row_count + 1)) (mkLabelState None None) in
  match avg_at st, high_at st with
  | Some (avg_row, avg_col), Some (high_row, high_col) =>
      first_some (fun base_r =>
        first_some (fun rr =>
          if ((rr <? 1) || (row_count <? rr))%nat then None
          else
            let scan_row := nth (rr - 1) values [] in
            first_some (fun c =>
              if _is_date_label (cell_at values rr c)
              then Some (mkAnchor (Nat.max rr (Nat.max avg_row high_row)) c avg_col high_col)
              else None)
              (py_range 1 (List.length scan_row + 1)))
          [base_r; base_r - 1; base_r + 1])
        [avg_row; high_row]
  | _, _ => None
  end.

Definition find_header_row_and_columns (values : Grid) : outcome Anchor :=
  match values with
  | [] => Raise (ValueError "시트가 비어 있습니다")
  | _ =>
      match date_first_scan values with
      | Some a => Ok a
      | None =>
          match label_first_scan values with
          | Some a => Ok a
          | None => Raise (ValueError "헤더 행(날짜/LOC평단/LOC고가)을 찾을 수 없습니다")
          end
      end
  end.

Definition find_total_qty_column (values : Grid) (header_row loc_high_col : nat) : nat :=
  let row_count := List.length values in
  match
    first_some (fun rr =>
      if ((rr <? 1) || (row_count <? rr))%nat then None
      else
        let row := nth (rr - 1) values [] in
        first_some (fun c => if _is_total_qty_label (cell_at values rr c) then Some c else None)
          (py_range 1 (List.length row + 1)))
      [header_row; header_row - 1; header_row + 1]
  with
  | Some c => c
  | None => loc_high_col + 4   (* layout fallback *)
  end.

(** ** Numbers *)

(** [x < y] on floats *)
Definition Qlt_bool (x y : Q) : bool := negb (Qle_bool y x).

Fixpoint digits_of (s : string) : list nat * string :=
  match s with
  | String a s' =>
      if Text.is_digit a
      then let '(ds, rest) := digits_of s' in ((nat_of_ascii a - 48)%nat :: ds, rest)
      else ([], s)
  | EmptyString => ([], s)
  end.

Definition nat_of_digits (ds : list nat) : nat :=
  fold_left (fun acc d => (10 * acc + d)%nat) ds 0%nat.

(** [float] of the text matched by [\d+(?:\.\d+)?] at the head of [s],
    which starts with a digit. *)
Definition unsigned_number (s : string) : Q :=
  let '(ip, rest) := digits_of s in
  let whole := inject_Z (Z.of_nat (nat_of_digits ip)) in
  match rest with
  | String a rest' =>
      if Ascii.eqb a "." then
        let '(fp, _) := digits_of rest' in
        if (List.length fp =? 0)%nat then whole
        else Qred (whole + (Z.of_nat (nat_of_digits fp) # Pos.pow 10 (Pos.of_nat (List.length fp))))
      else whole
  | EmptyString => whole
  end.

Definition starts_with_digit (s : string) : bool :=
  match s with
  | String a _ => Text.is_digit a
  | EmptyString => false
  end.

(** [re.search(r"[-+]?\d+(?:\.\d+)?", s)]: the leftmost match starts at
    the first digit, or at a sign standing directly before it. *)
Fixpoint search_number (s : string) : option Q :=
  match s with
  | EmptyString => None
  | String a s' =>
      if Text.is_digit a then Some (unsigned_number s)
      else if Ascii.eqb a "-" && starts_with_digit s' then Some (Qred (- unsigned_number s'))
      else if Ascii.eqb a "+" && starts_with_digit s' then Some (unsigned_number s')
      else search_number s'
  end.

Definition parse_float (text : string) : outcome Q :=
  match search_number (Text.remove_char "," text) with
  | Some q => Ok q
  | None => Raise (ValueError ("number not found: " ++ text))
  end.

(** ** Calendar dates *)

Record date : Type := mkDate { year : nat; month : nat; day : nat }.

(** An aware [datetime]: the calendar day it shows in the configured time
    zone, and the instant it denotes (what [<] and [sorted] compare). *)
Record datetime : Type := mkDatetime { dt_date : date; dt_instant : Z }.

Definition date_eqb (a b : date) : bool :=
  ((year a =? year b) && (month a =? month b) && (day a =? day b))%nat.

Definition is_leap (y : nat) : bool :=
  (((y mod 4 =? 0) && negb (y mod 100 =? 0)) || (y mod 400 =? 0))%nat.

Definition days_in_month (y m : nat) : nat :=
  match m with
  | 2 => if is_leap y then 29 else 28
  | 4 | 6 | 9 | 11 => 30
  | _ => 31
  end%nat.

(** [datetime(y, m, d).date()]; [None] stands for its [ValueError]. *)
Definition make_date (y m d : nat) : option date :=
  if ((1 <=? y) && (y <=? 9999) && (1 <=? m) && (m <=? 12)
      && (1 <=? d) && (d <=? days_in_month y m))%nat
  then Some (mkDate y m d) else None.

(** Three digit runs separated by the byte [sep], and what follows. *)
Definition split3 (sep : ascii) (value : string)
    : option (list nat * list nat * list nat * string) :=
  let '(ys, r1) := digits_of value in
  let '(ms, r3) := digits_of (String.substring 1 (String.length r1) r1) in
  let '(ds, r5) := digits_of (String.substring 1 (String.length r3) r3) in
  if String.prefix (String sep "") r1 && String.prefix (String sep "") r3
  then Some (ys, ms, ds, r5) else None.

Definition one_or_two (ds : list nat) : bool :=
  ((1 <=? List.length ds) && (List.length ds <=? 2))%nat.

(** [re.match(r"^(\d{4})-(\d{1,2})-(\d{1,2})$", value)] with the three
    groups read by [int]. *)
Definition match_ymd (value : string) : option (nat * nat * nat) :=
  match split3 "-" value with
  | Some (ys, ms, ds, rest) =>
      if (List.length ys =? 4)%nat && one_or_two ms && one_or_two ds && String.eqb rest ""
      then Some (nat_of_digits ys, nat_of_digits ms, nat_of_digits ds)
      else None
  | None => None
  end.

(** ** What the program takes from the Python library

    These are library functions, not code of the repository; the program
    is modelled over any behaviour of theirs. *)
Class PyLib : Type := {
  (** [datetime.strptime(value, fmt).date()], [None] for [ValueError] *)
  strptime : string -> string -> option date;
  (** [d.strftime(fmt)] *)
  strftime : date -> string -> string;
  (** [dt.isoformat()] *)
  isoformat : datetime -> string;
  (** [str(x)] of a float, as an f-string prints it *)
  float_str : Q -> string;
  (** [f"{n:02d}"] and [f"{n}"] of an int *)
  int_str : nat -> nat -> string
}.

Section Program.

Context {lib : PyLib}.

Definition date_formats : list string :=
  ["%Y-%m-%d"; "%Y-%m-%d %H:%M:%S"; "%Y/%m/%d"; "%Y.%m.%d"].

Definition normalize_date_value (value : string) : outcome (option date) :=
  let value := Text.strip value in
  if String.eqb value "" then Ok None
  else
    match first_some (fun fmt => strptime value fmt) date_formats with
    | Some d => Ok (Some d)
    | None =>
        match match_ymd value with
        | Some (y, m, d) =>
            match make_date y m d with
            | Some dt => Ok (Some dt)
            | None => Raise (ValueError "datetime: value out of range")
            end
        | None => Ok None
        end
    end.

(** ** The worksheet *)

(** A value as the sheet stores it and as [ws.update] sends it. *)
Inductive pyval : Type :=
| PNum (q : Q)
| PStr (s : string).

(** The live worksheet: its cells by [(row, col)], the rendering of
    numbers its cell format applies, and the title of its spreadsheet.
    A1 addresses are kept as the coordinates they denote. *)
Record Worksheet : Type := mkWorksheet {
  ws_cells : gmap (nat * nat) pyval;
  ws_format : Q -> string;
  ws_title : string
}.

Definition shown (ws : Worksheet) (v : pyval) : string :=
  match v with
  | PNum q => ws_format ws q
  | PStr s => s
  end.

(** [str(ws.acell(a1).value or "")]: the formatted text of one cell. *)
Definition acell_value (ws : Worksheet) (r c : nat) : string :=
  match ws_cells ws !! (r, c) with
  | Some v => shown ws v
  | None => ""
  end.

(** [ws.acell(a1, value_render_option="UNFORMATTED_VALUE").value] *)
Definition acell_unformatted (ws : Worksheet) (r c : nat) : option pyval :=
  ws_cells ws !! (r, c).

(** Coordinates of the cells that show some text. *)
Definition filled_cells (ws : Worksheet) : list (nat * nat) :=
  map fst (List.filter (fun kv => negb (String.eqb (shown ws (snd kv)) ""))
             (map_to_list (ws_cells ws))).

Definition ws_row_count (ws : Worksheet) : nat := max_list (map fst (filled_cells ws)).
Definition ws_col_count (ws : Worksheet) : nat := max_list (map snd (filled_cells ws)).

(** [ws.get_all_values()]: the formatted text of every cell up to the last
    row and the last column that show something. *)
Definition get_all_values (ws : Worksheet) : Grid :=
  map (fun r => map (fun c => acell_value ws r c) (seq 1 (ws_col_count ws)))
      (seq 1 (ws_row_count ws)).

Definition sheet_update (ws : Worksheet) (r c : nat) (v : pyval) : Worksheet :=
  mkWorksheet (<[(r, c) := v]> (ws_cells ws)) (ws_format ws) (ws_title ws).

Definition get_numeric_cell_value (ws : Worksheet) (r c : nat) : outcome Q :=
  match acell_unformatted ws r c with
  | Some (PNum q) => Ok q
  | Some (PStr raw) =>
      let s := Text.strip raw in
      if String.prefix "=" s then Raise (ValueError "formula text returned")
      else parse_float s
  | None => Raise (ValueError "numeric value unreadable")
  end.

Definition get_numeric_cell_value_or_none (ws : Worksheet) (r c : nat) : option Q :=
  match get_numeric_cell_value ws r c with
  | Ok q => Some q
  | _ => None
  end.

(** ** Effects *)

(** What a run leaves behind: [ws.update(range_name=..., values=[[v]])] on
    one cell, and [log(...)] lines, each with its leading tag and the fill
    identifier (or symbol) it prints. *)
Inductive event : Type :=
| EvUpdate (r c : nat) (v : pyval)
| EvLog (tag : string) (fill_id : string).

Record World : Type := mkWorld {
  sheet : Worksheet;
  trace : list event
}.

Definition M (A : Type) : Type := World -> outcome A * World.

#[export] Instance M_ret : MRet M := fun A a w => (Ok a, w).

#[export] Instance M_bind : MBind M := fun A B k m w =>
  match m w with
  | (Ok a, w') => k a w'
  | (Raise e, w') => (Raise e, w')
  | (Diverge, w') => (Diverge, w')
  end.

Definition lift {A : Type} (o : outcome A) : M A := fun w => (o, w).

Definition ask {A : Type} (f : Worksheet -> A) : M A := fun w => (Ok (f (sheet w)), w).

Definition ws_update (r c : nat) (v : pyval) : M unit :=
  fun w => (Ok tt, mkWorld (sheet_update (sheet w) r c v) (trace w ++ [EvUpdate r c v])).

Definition log (tag fill_id : string) : M unit :=
  fun w => (Ok tt, mkWorld (sheet w) (trace w ++ [EvLog tag fill_id])).

(** The cell writes of a trace, in order. *)
Fixpoint writes (t : list event) : list (nat * nat * pyval) :=
  match t with
  | [] => []
  | EvUpdate r c v :: t' => (r, c, v) :: writes t'
  | EvLog _ _ :: t' => writes t'
  end.

(** ** Row resolver *)

(** The snapshot scan: [for r_idx in range(header_row + 1, len(values) + 1)]. *)
Fixpoint find_existing_row (values : Grid) (date_col : nat) (target_date : date)
    (rows : list nat) : outcome (option nat) :=
  match rows with
  | [] => Ok None
  | r_idx :: rest =>
      match normalize_date_value (cell_at values r_idx date_col) with
      | Ok (Some parsed) =>
          if date_eqb parsed target_date then Ok (Some r_idx)
          else find_existing_row values date_col target_date rest
      | Ok None => find_existing_row values date_col target_date rest
      | Raise e => Raise e
      | Diverge => Diverge
      end
  end.

(** The live scan: [while True], one date cell read per turn. *)
Fixpoint first_empty_row (ws : Worksheet) (date_col r_idx fuel : nat) : option nat :=
  match fuel with
  | O => None
  | S fuel' =>
      if String.eqb (Text.strip (acell_value ws r_idx date_col)) "" then Some r_idx
      else first_empty_row ws date_col (r_idx + 1) fuel'
  end.

Definition find_or_create_date_row (values : Grid) (header_row date_col : nat)
    (target_date : date) (target_date_text : string) : M nat :=
  found ← lift (find_existing_row values date_col target_date
                  (py_range (header_row + 1) (List.length values + 1)));
  match found with
  | Some r_idx => mret r_idx
  | None =>
      ws ← ask id;
      match first_empty_row ws date_col (header_row + 1) (S (ws_row_count ws)) with
      | Some r_idx =>
          ws_update r_idx date_col (PStr target_date_text);;
          mret r_idx
      | None => lift Diverge
      end
  end.

(** ** Events and results *)

Record FillMessage : Type := mkFillMessage {
  raw_text : string;
  symbol : string;
  trade_side : string;
  fill_price : Q;
  fill_qty : Q;
  fill_month : nat;
  fill_day : nat
}.

Record FillResult : Type := mkFillResult {
  spreadsheet_title : string;
  currency : string;
  avg_price_r6 : Q;
  current_price_b2 : Q;
  buy_loc_avg_r9 : Q;
  buy_loc_high_r10 : Q;
  sell_all_r11 : Q;
  sell_qty_current_round : Q
}.

Record UpbitFill : Type := mkUpbitFill {
  fill_id : string;
  market : string;
  trade_time : datetime;
  side : string;
  price : Q;
  qty : Q;
  amount : Q
}.

Definition detect_currency_by_sheet_title (title : string) : string :=
  let t := Text.upper title in
  if Text.contains "TQQQ" t then "USD"
  else if Text.contains "BTC" t || Text.contains "비트코인" title then "KRW"
  else "USD".

Definition currency_from_symbol (symbol : string) : string :=
  let s := Text.upper symbol in
  if String.eqb s "BTC" then "KRW"
  else if String.eqb s "TQQQ" then "USD"
  else "USD".

(** Summary cells: R6, B2, R9, R10, R11 and B3 as [(row, col)]. *)
Definition R6 : nat * nat := (6, 18)%nat.
Definition B2 : nat * nat := (2, 2)%nat.
Definition B3 : nat * nat := (3, 2)%nat.
Definition R9 : nat * nat := (9, 18)%nat.
Definition R10 : nat * nat := (10, 18)%nat.
Definition R11 : nat * nat := (11, 18)%nat.

Definition read_numeric (a1 : nat * nat) : M Q :=
  fun w => (get_numeric_cell_value (sheet w) (fst a1) (snd a1), w).

Definition get_fill_result_for_row (target_row total_qty_col : nat)
    (symbol_hint : string) : M FillResult :=
  sell_qty ← ask (fun ws => get_numeric_cell_value_or_none ws target_row total_qty_col);
  sh_title ← ask ws_title;
  let ccy := if String.eqb symbol_hint "" then detect_currency_by_sheet_title sh_title
             else currency_from_symbol symbol_hint in
  r6 ← read_numeric R6;
  b2 ← read_numeric B2;
  r9 ← read_numeric R9;
  r10 ← read_numeric R10;
  r11 ← read_numeric R11;
  mret (mkFillResult sh_title ccy r6 b2 r9 r10 r11 (default 0%Q sell_qty)).

(** ** Ledger writer, brokerage path

    Opening the spreadsheet and the local backup come before the first
    read; they touch no cell and are left out.  [year_now] is what the
    clock gives for [datetime.now(ZoneInfo(tz_name)).year]. *)
Definition process_fill_to_sheet (msg : FillMessage) (year_now : nat) : M (option FillResult) :=
  if negb (String.eqb (trade_side msg) "매수") then mret None
  else if Qlt_bool (fill_qty msg) 0 then mret None
  else
    values ← ask get_all_values;
    anchor ← lift (find_header_row_and_columns values);
    let total_qty_col :=
      find_total_qty_column values (header_row anchor) (loc_high_col anchor) in
    target_date ← lift (match make_date year_now (fill_month msg) (fill_day msg) with
                        | Some d => Ok d
                        | None => Raise (ValueError "datetime: value out of range")
                        end);
    let target_date_text :=
      int_str 0 year_now ++ "-" ++ int_str 2 (fill_month msg) ++ "-" ++ int_str 2 (fill_day msg) in
    target_row ← find_or_create_date_row values (header_row anchor) (date_col anchor)
                   target_date target_date_text;
    avg_price ← read_numeric R6;
    let price_col :=
      if Qle_bool (fill_price msg) avg_price then loc_avg_col anchor
      else loc_high_col anchor in
    let qty_col := (price_col + 1)%nat in
    log "sheet_write" (symbol msg);;
    ws_update target_row price_col (PNum (fill_price msg));;
    ws_update target_row qty_col (PNum (fill_qty msg));;
    res ← get_fill_result_for_row target_row total_qty_col (symbol msg);
    mret (Some res).

(** ** Ledger writer, exchange path *)

(** [0.8 <= ratio <= 1.2] *)
Definition in_band (ratio : Q) : bool :=
  Qle_bool (8 # 10) ratio && Qle_bool ratio (12 # 10).

Definition process_upbit_fill_to_sheet (target_symbol : string) (fill : UpbitFill)
    : M (option FillResult) :=
  if negb (String.eqb (side fill) "bid") then mret None
  else
    values ← ask get_all_values;
    anchor ← lift (find_header_row_and_columns values);
    let total_qty_col :=
      find_total_qty_column values (header_row anchor) (loc_high_col anchor) in
    half_round_usd ← read_numeric B3;
    avg_price ← read_numeric R6;
    let ratio_half :=
      if Qlt_bool 0 half_round_usd then (amount fill / half_round_usd)%Q else 0%Q in
    let ratio_full :=
      if Qlt_bool 0 half_round_usd then (amount fill / (half_round_usd * 2))%Q else 0%Q in
    log "upbit_ratio_check" (fill_id fill);;
    let target_date := dt_date (trade_time fill) in
    let target_date_text := strftime target_date "%Y-%m-%d" in
    written ←
      (if in_band ratio_full then
         target_row ← find_or_create_date_row values (header_row anchor) (date_col anchor)
                        target_date target_date_text;
         let half_qty := (qty fill / 2)%Q in
         log "upbit_sheet_write mode=both" (fill_id fill);;
         ws_update target_row (loc_avg_col anchor) (PNum (price fill));;
         ws_update target_row (loc_avg_col anchor + 1) (PNum half_qty);;
         ws_update target_row (loc_high_col anchor) (PNum (price fill));;
         ws_update target_row (loc_high_col anchor + 1) (PNum half_qty);;
         mret (Some target_row)
       else if in_band ratio_half then
         target_row ← find_or_create_date_row values (header_row anchor) (date_col anchor)
                        target_date target_date_text;
         let price_col :=
           if Qlt_bool avg_price (price fill) then loc_high_col anchor
           else loc_avg_col anchor in
         log "upbit_sheet_write mode=single" (fill_id fill);;
         ws_update target_row price_col (PNum (price fill));;
         ws_update target_row (price_col + 1) (PNum (qty fill));;
         mret (Some target_row)
       else
         log "upbit_fill_skipped" (fill_id fill);;
         mret None);
    match written with
    | None => mret None
    | Some target_row =>
        res ← get_fill_result_for_row target_row total_qty_col target_symbol;
        mret (Some res)
    end.

(** ** Fetching the exchange's closed orders *)

(** One row of the order history, as the fetch reads it: the two
    timestamps already parsed and moved to the configured time zone, the
    numeric fields already read by [float], absent fields as [None]. *)
Record RawTrade : Type := mkRawTrade {
  done_at : option datetime;
  created_at : option datetime;
  raw_market : string;
  raw_side : string;
  ord_type : string;
  executed_volume : option Q;
  executed_funds : option Q;
  raw_price : option Q;
  uuid : option string
}.

(** [market.split("-")[-1].upper() if "-" in market else market.upper()] *)
Definition base_asset_of (market : string) : string :=
  if Text.contains "-" market then Text.upper (Text.after_last "-" market)
  else Text.upper market.

(** [target_date not in {done_date, created_date}] *)
Definition date_misses (target_date : date) (done_dt created_dt : option datetime) : bool :=
  negb (from_option (fun dt => date_eqb target_date (dt_date dt)) false done_dt
        || from_option (fun dt => date_eqb target_date (dt_date dt)) false created_dt).

(** Body of [for row in rows]: the fill appended for this row, or [None]
    where the body runs into a [continue]. *)
Definition fetch_row (target_date : date) (market_filter market_asset_filter : string)
    (row : RawTrade) : option UpbitFill :=
  match done_at row, created_at row with
  | None, None => None
  | done_dt, created_dt =>
      if date_misses target_date done_dt created_dt then None
      else
        let market := raw_market row in
        let base_asset := base_asset_of market in
        (* Enforce BTC-only handling regardless of external config. *)
        if negb (String.eqb base_asset "BTC") then None
        else if negb (String.eqb market_filter "") && negb (String.eqb market market_filter)
                && (if negb (String.eqb market_asset_filter "")
                    then negb (String.eqb base_asset (Text.upper market_asset_filter))
                    else true)
        then None
        else
          let side := raw_side row in
          (* Enforce buy-only handling. *)
          if negb (String.eqb side "bid") then None
          else
            let qty := default 0%Q (executed_volume row) in
            let executed_funds := default 0%Q (executed_funds row) in
            let raw_price := default 0%Q (raw_price row) in
            if Qle_bool qty 0 then None
            else
              let amount :=
                if String.eqb side "bid" && String.eqb (ord_type row) "price"
                   && Qlt_bool 0 raw_price
                then raw_price
                else if Qlt_bool 0 executed_funds then executed_funds
                     else if Qlt_bool 0 raw_price then (raw_price * qty)%Q else 0%Q in
              if Qle_bool amount 0 then None
              else
                let price :=
                  if String.eqb side "bid" && String.eqb (ord_type row) "price"
                  then (amount / qty)%Q
                  else if Qlt_bool 0 raw_price then raw_price else (amount / qty)%Q in
                match (match done_dt with Some d => Some d | None => created_dt end) with
                | None => None
                | Some trade_dt =>
                    let fallback :=
                      market ++ ":" ++ isoformat trade_dt ++ ":" ++ float_str qty
                             ++ ":" ++ float_str price in
                    let fill_id :=
                      match uuid row with
                      | Some u => if String.eqb u "" then fallback else u
                      | None => fallback
                      end in
                    Some (mkUpbitFill fill_id market trade_dt side price qty amount)
                end
  end.

(** The paging loop.  [api page] is the list of rows the exchange returns
    for that page; [pages_left] counts the pages still allowed by
    [UPBIT_MAX_PAGES]. *)
Fixpoint fetch_pages (api : nat -> list RawTrade) (target_date : date)
    (market_filter market_asset_filter : string) (page pages_left : nat) : list UpbitFill :=
  match pages_left with
  | O => []
  | S pages_left' =>
      match api page with
      | [] => []
      | rows =>
          omap (fetch_row target_date market_filter market_asset_filter) rows
          ++ fetch_pages api target_date market_filter market_asset_filter
               (page + 1) pages_left'
      end
  end.

Definition fetch_upbit_fills_for_date (api : nat -> list RawTrade) (max_pages : nat)
    (target_date : date) (market_filter market_asset_filter : string) : list UpbitFill :=
  fetch_pages api target_date market_filter market_asset_filter 1 max_pages.

(** ** Reconciliation *)

(** [sorted(l, key=...)]: a stable insertion sort. *)
Fixpoint insert_sorted {A : Type} (leb : A -> A -> bool) (x : A) (l : list A) : list A :=
  match l with
  | [] => [x]
  | y :: l' => if leb x y then x :: l else y :: insert_sorted leb x l'
  end.

Definition py_sorted {A : Type} (leb : A -> A -> bool) (l : list A) : list A :=
  foldr (insert_sorted leb) [] l.

(** [l[-n:]] for positive [n] *)
Definition last_n {A : Type} (n : nat) (l : list A) : list A :=
  drop (List.length l - n) l.

Definition by_trade_time (a b : UpbitFill) : bool :=
  (dt_instant (trade_time a) <=? dt_instant (trade_time b))%Z.

(** The loop locals of [run_upbit_sync_once]. *)
Record SyncState : Type := mkSyncState {
  processed_count : nat;
  written_count : nat;
  last_result : option FillResult;
  processed_ids : gset string
}.

(** [for fill in sorted(new_fills, key=lambda x: x.trade_time)] *)
Fixpoint sync_loop (upbit_sheet_symbol : string) (fills : list UpbitFill)
    (st : SyncState) : M SyncState :=
  match fills with
  | [] => mret st
  | fill :: rest =>
      result ← process_upbit_fill_to_sheet upbit_sheet_symbol fill;
      let st' :=
        mkSyncState (processed_count st + 1)
          (match result with Some _ => written_count st + 1 | None => written_count st end)%nat
          (match result with Some r => Some r | None => last_result st end)
          ({[fill_id fill]} ∪ processed_ids st) in
      sync_loop upbit_sheet_symbol rest st'
  end.

(** The fills handed to the ledger writer, in the order they are handed. *)
Definition forwarded_fills (state_ids : list string) (explicit_date : bool)
    (fills : list UpbitFill) : list UpbitFill :=
  let processed_ids : gset string := list_to_set state_ids in
  let new_fills :=
    if explicit_date then fills
    else List.filter (fun f => bool_decide (fill_id f ∉ processed_ids)) fills in
  py_sorted by_trade_time new_fills.

(** [state["processed_upbit_fill_ids"]] goes in as [state_ids]; the value
    stored back is the fourth component of the result. *)
Definition run_upbit_sync_once (state_ids : list string)
    (api : nat -> list RawTrade) (max_pages : nat) (target_date : date)
    (upbit_market upbit_market_asset upbit_sheet_symbol : string)
    (explicit_date : bool) : M (nat * nat * option FillResult * list string) :=
  let fills :=
    fetch_upbit_fills_for_date api max_pages target_date upbit_market upbit_market_asset in
  st ← sync_loop upbit_sheet_symbol (forwarded_fills state_ids explicit_date fills)
         (mkSyncState 0 0 None (list_to_set state_ids));
  mret (processed_count st, written_count st, last_result st,
        last_n 1000 (py_sorted String.leb (elements (processed_ids st)))).

End Program.

(** * A1 notation, configuration and incoming text

    The functions around the two ledger writers: the column letters of an
    A1 address, the symbol-to-spreadsheet map of the environment, the
    reconciliation command, the brokerage notice and the replies. *)

(** [f"{v:,.2f}"]: a float with thousands separators and two decimals, as
    the format mini-language prints it; library code, like [PyLib]. *)
Class MoneyFormat : Type := { two_decimals : Q -> string }.

Section Messages.

Context {lib : PyLib} {fmt : MoneyFormat}.

Local Open Scope list_scope.

(** ** Column letters *)

(** [chr(ord("A") + rem)] *)
Definition letter (rem : nat) : ascii := ascii_of_nat (65 + rem).

(** The [while n > 0] loop of [col_to_a1]; [chars] is the list being
    appended to.  [n] shrinks on every turn, so [n] turns are enough. *)
Fixpoint col_to_a1_loop (fuel n : nat) (chars : list ascii) : list ascii :=
  match fuel with
  | O => chars
  | S fuel' =>
      if (0 <? n)%nat then
        let rem := ((n - 1) mod 26)%nat in
        col_to_a1_loop fuel' ((n - 1) / 26)%nat (chars ++ [letter rem])
      else chars
  end.

Definition col_to_a1 (col_idx : nat) : string :=
  string_of_list_ascii (rev (col_to_a1_loop col_idx col_idx [])).

(** ** The spreadsheet of a symbol *)

(** [s.split(sep)] for a one-byte separator: the text between the
    separators, in order; the empty text gives one empty piece. *)
Fixpoint split_on (sep : ascii) (s : string) : list string :=
  match s with
  | EmptyString => [EmptyString]
  | String a s' =>
      if Ascii.eqb a sep then EmptyString :: split_on sep s'
      else
        match split_on sep s' with
        | piece :: rest => String a piece :: rest
        | [] => [String a EmptyString]
        end
  end.

(** [s.split(sep, 1)] when [sep] occurs in [s]: the text before the first
    separator and the text after it. *)
Fixpoint split_once (sep : ascii) (s : string) : option (string * string) :=
  match s with
  | EmptyString => None
  | String a s' =>
      if Ascii.eqb a sep then Some (EmptyString, s')
      else
        match split_once sep s' with
        | Some (l, r) => Some (String a l, r)
        | None => None
        end
  end.

(** Body of the loop of [parse_spreadsheet_id_map]. *)
Definition id_map_item (out : gmap string string) (item : string) : gmap string string :=
  let pair := Text.strip item in
  if String.eqb pair "" || negb (Text.contains ":" pair) then out
  else
    match split_once ":" pair with
    | Some (symbol, sheet_id) =>
        let symbol := Text.upper (Text.strip symbol) in
        let sheet_id := Text.strip sheet_id in
        if negb (String.eqb symbol "") && negb (String.eqb sheet_id "")
        then <[symbol := sheet_id]> out
        else out
    | None => out
    end.

Definition parse_spreadsheet_id_map (raw : string) : gmap string string :=
  fold_left id_map_item (split_on "," raw) ∅.

(** How [resolve_spreadsheet] opens the spreadsheet. *)
Inductive SheetRef : Type :=
| ByKey (sheet_id : string)      (* [gc.open_by_key(sheet_id)] *)
| ByTitle (title : string).      (* [gc.open(title)] *)

(** [v.lower().strip() in {"1", "true", "yes", "on"}] *)
Definition env_flag (v : string) : bool :=
  let f := Text.strip (Text.lower v) in
  String.eqb f "1" || String.eqb f "true" || String.eqb f "yes" || String.eqb f "on".

(** [env_map] and [env_fallback] are what [os.getenv] gives for
    [SPREADSHEET_ID_MAP] and [FALLBACK_OPEN_BY_TITLE], defaults applied. *)
Definition resolve_spreadsheet (env_map env_fallback symbol : string) : outcome SheetRef :=
  let id_map := parse_spreadsheet_id_map (Text.strip env_map) in
  let sheet_id := id_map !! symbol in
  match sheet_id with
  | Some (String a s) => Ok (ByKey (String a s))
  | _ =>
      if env_flag env_fallback then Ok (ByTitle (symbol ++ " 무한매수"))
      else Raise (ValueError ("SPREADSHEET_ID_MAP에 " ++ symbol
                              ++ " 키가 없습니다. 예: SPREADSHEET_ID_MAP=TQQQ:<spreadsheet_id>"))
  end.

(** ** The reconciliation command *)

(** What is left of [s] after the literal [p] at its start. *)
Fixpoint strip_prefix (p s : string) : option string :=
  match p, s with
  | EmptyString, _ => Some s
  | String a p', String b s' => if Ascii.eqb a b then strip_prefix p' s' else None
  | String _ _, EmptyString => None
  end.

(** [\s*$] matches all of [s] *)
Definition only_space (s : string) : bool := String.eqb (Text.lstrip s) "".

(** The optional group [(?:\s*:\s*(\d{2,4}-\d{2}-\d{2}))] followed by
    [\s*$], matched against [rest]: the text of the date and the number of
    digits of its year. *)
Definition command_date_group (rest : string) : option (string * nat) :=
  match Text.lstrip rest with
  | String a after_colon =>
      if Ascii.eqb a ":" then
        let d := Text.lstrip after_colon in
        match split3 "-" d with
        | Some (ys, ms, ds, tail) =>
            if ((2 <=? List.length ys) && (List.length ys <=? 4)
                && (List.length ms =? 2) && (List.length ds =? 2))%nat
               && only_space tail
            then Some (String.substring 0 (String.length d - String.length tail) d,
                       List.length ys)
            else None
        | None => None
        end
      else None
  | EmptyString => None
  end.

(** The pattern is [^\s*CMD(?:\s*:\s*(\d{2,4}-\d{2}-\d{2}))?\s*$], matched
    against [text.strip()], where nothing precedes the command.  [today] is
    what the clock gives for [datetime.now(ZoneInfo(tz_name)).date()]. *)
Definition parse_upbit_command_date (text command_text : string) (today : date)
    : outcome (option (date * bool)) :=
  match strip_prefix command_text (Text.strip text) with
  | None => Ok None
  | Some rest =>
      match command_date_group rest with
      | Some (d, year_digits) =>
          let d := if (year_digits =? 2)%nat then ("20" ++ d)%string else d in
          match strptime d "%Y-%m-%d" with
          | Some parsed => Ok (Some (parsed, true))
          | None => Raise (ValueError "time data does not match format '%Y-%m-%d'")
          end
      | None =>
          if only_space rest then Ok (Some (today, false)) else Ok None
      end
  end.

(** ** The brokerage notice *)

(** The ASCII line boundaries of [str.splitlines]: LF, VT, FF, CR and the
    separators 0x1c-0x1e. *)
Definition is_linebreak (a : ascii) : bool :=
  let n := nat_of_ascii a in
  (((10 <=? n) && (n <=? 13)) || ((28 <=? n) && (n <=? 30)))%nat.

(** [text.splitlines()]: a CR LF pair is one boundary, and a boundary at
    the very end opens no further line. *)
Fixpoint splitlines (s : string) : list string :=
  match s with
  | EmptyString => []
  | String a s' =>
      if is_linebreak a then
        EmptyString ::
        match s' with
        | String b s'' =>
            if Ascii.eqb a "013" && Ascii.eqb b "010" then splitlines s'' else splitlines s'
        | EmptyString => []
        end
      else
        match splitlines s' with
        | line :: rest => String a line :: rest
        | [] => [String a EmptyString]
        end
  end.

(** Body of the loop of [parse_kv_message]. *)
Definition kv_line (out : gmap string string) (line : string) : gmap string string :=
  let line := Text.strip line in
  if String.eqb line "" || negb (Text.contains ":" line) then out
  else
    match split_once ":" line with
    | Some (k, v) => <[Text.strip k := Text.strip v]> out
    | None => out
    end.

Definition parse_kv_message (text : string) : gmap string string :=
  fold_left kv_line (splitlines text) ∅.

(** The text up to the first [")"], when there is one. *)
Fixpoint until_close (s : string) : option string :=
  match s with
  | EmptyString => None
  | String a s' =>
      if Ascii.eqb a ")" then Some EmptyString
      else match until_close s' with
           | Some g => Some (String a g)
           | None => None
           end
  end.

(** [re.search(r"\(([^)]+)\)", s).group(1)]: the text between the first
    ["("] that has at least one byte before the next [")"], and that
    [")"]. *)
Fixpoint search_symbol (s : string) : option string :=
  match s with
  | EmptyString => None
  | String a s' =>
      if Ascii.eqb a "(" then
        match until_close s' with
        | Some (String b g) => Some (String b g)
        | _ => search_symbol s'
        end
      else search_symbol s'
  end.

Definition parse_symbol (stock_name : string) : outcome string :=
  match search_symbol stock_name with
  | Some g => Ok (Text.upper (Text.strip g))
  | None => Raise (ValueError ("symbol not found in 종목명: " ++ stock_name))
  end.

(** [\d{1,2}] at the head of [s]: one digit, or two when a second follows. *)
Definition one_or_two_digits (s : string) : option (list nat * string) :=
  match s with
  | String a s' =>
      if Text.is_digit a then
        match s' with
        | String b s'' =>
            if Text.is_digit b
            then Some ([nat_of_ascii a - 48; nat_of_ascii b - 48]%nat, s'')
            else Some ([nat_of_ascii a - 48]%nat, s')
        | EmptyString => Some ([nat_of_ascii a - 48]%nat, s')
        end
      else None
  | EmptyString => None
  end.

(** [(\d{1,2})\s*/\s*(\d{1,2})] matched at the head of [s], the two groups
    read by [int]. *)
Definition fill_date_at (s : string) : option (nat * nat) :=
  match one_or_two_digits s with
  | Some (ms, r) =>
      match Text.lstrip r with
      | String c r' =>
          if Ascii.eqb c "/" then
            match one_or_two_digits (Text.lstrip r') with
            | Some (ds, _) => Some (nat_of_digits ms, nat_of_digits ds)
            | None => None
            end
          else None
      | EmptyString => None
      end
  | None => None
  end.

(** [re.search]: the leftmost position where the pattern matches. *)
Fixpoint search_fill_date (s : string) : option (nat * nat) :=
  match fill_date_at s with
  | Some md => Some md
  | None =>
      match s with
      | EmptyString => None
      | String _ s' => search_fill_date s'
      end
  end.

(** [year_now] is what the clock gives for
    [datetime.now(ZoneInfo(tz_name)).year]. *)
Definition parse_fill_date (mmdd : string) (year_now : nat) : outcome (nat * nat * nat) :=
  match search_fill_date mmdd with
  | Some (month, day) => Ok (year_now, month, day)
  | None => Raise (ValueError ("invalid 체결일자: " ++ mmdd))
  end.

(** The line every brokerage notice carries. *)
Definition fill_marker : string := "[메리츠증권] 해외주식 주문체결 안내".

Definition parse_fill_message (text : string) (year_now : nat) : outcome (option FillMessage) :=
  if negb (Text.contains fill_marker text) then Ok None
  else
    let kv := parse_kv_message text in
    let stock_name := default "" (kv !! "종목명") in
    let trade_side := default "" (kv !! "매매구분") in
    let fill_price_raw := default "" (kv !! "체결단가") in
    let fill_qty_raw := default "" (kv !! "체결수량") in
    let fill_date_raw := default "" (kv !! "체결일자") in
    (* not all([...]) *)
    if existsb (fun s => String.eqb s "")
         [stock_name; trade_side; fill_price_raw; fill_qty_raw; fill_date_raw]
    then Ok None
    else
      match parse_symbol stock_name with
      | Ok symbol =>
          match parse_float fill_price_raw with
          | Ok fill_price =>
              match parse_float fill_qty_raw with
              | Ok fill_qty =>
                  match parse_fill_date fill_date_raw year_now with
                  | Ok (_, month, day) =>
                      Ok (Some (mkFillMessage text symbol trade_side fill_price fill_qty
                                  month day))
                  | Raise e => Raise e
                  | Diverge => Diverge
                  end
              | Raise e => Raise e
              | Diverge => Diverge
              end
          | Raise e => Raise e
          | Diverge => Diverge
          end
      | Raise e => Raise e
      | Diverge => Diverge
      end.

(** ** Replies *)

(** A line feed. *)
Definition nl : string := String "010" EmptyString.

Definition format_money (v : Q) (ccy : string) : string :=
  if String.eqb ccy "KRW" then ("₩" ++ two_decimals v)%string
  else ("$" ++ two_decimals v)%string.

Definition build_reply_text (result : FillResult) : string :=
  let ccy :=
    if negb (String.eqb (currency result) "") then currency result
    else detect_currency_by_sheet_title (spreadsheet_title result) in
  ("구글스프레드시트(" ++ spreadsheet_title result ++ ") 기입 완료" ++ nl
   ++ "현재 평단가 : " ++ format_money (avg_price_r6 result) ccy ++ nl
   ++ "현재 주가 : " ++ format_money (current_price_b2 result) ccy ++ nl ++ nl
   ++ "오늘 매수 시도액" ++ nl
   ++ "LOC 평단 : " ++ format_money (buy_loc_avg_r9 result) ccy ++ nl
   ++ "LOC 큰수 : " ++ format_money (buy_loc_high_r10 result) ccy ++ nl ++ nl
   ++ "오늘 매도 시도액" ++ nl
   ++ "매도 지정가 : " ++ format_money (sell_all_r11 result) ccy ++ nl
   ++ "매도 수량 : " ++ float_str (sell_qty_current_round result))%string.

(** [if written_count == 0 or result is None] gives the short text. *)
Definition build_upbit_command_result_text (processed_count written_count : nat)
    (result : option FillResult) : string :=
  match result with
  | Some result =>
      if (written_count =? 0)%nat then
        ("업비트 기록 수행 완료" ++ nl
         ++ "- 처리 체결 수: " ++ int_str 0 processed_count ++ nl
         ++ "- 시트 기입 수: " ++ int_str 0 written_count)%string
      else
        ("업비트 기록 수행 완료" ++ nl
         ++ "- 처리 체결 수: " ++ int_str 0 processed_count ++ nl
         ++ "- 시트 기입 수: " ++ int_str 0 written_count ++ nl ++ nl
         ++ build_reply_text result)%string
  | None =>
      ("업비트 기록 수행 완료" ++ nl
       ++ "- 처리 체결 수: " ++ int_str 0 processed_count ++ nl
       ++ "- 시트 기입 수: " ++ int_str 0 written_count)%string
  end.

End Messages.

(** * Vocabulary of the statements *)

Section Vocabulary.

Context {lib : PyLib}.

Local Open Scope list_scope.

(** ** Scans of the grid *)

(** [o1 if o1 is not None else o2] *)
Definition or_else {A : Type} (o1 o2 : option A) : option A :=
  match o1 with Some x => Some x | None => o2 end.

(** The first of the given cells, in order, whose text satisfies [p]. *)
Definition find_label (p : string -> bool) (values : Grid) (cells : list (nat * nat))
    : option (nat * nat) :=
  List.find (fun rc => p (cell_at values (fst rc) (snd rc))) cells.

Definition row_cells (rr : nat) (cols : list nat) : list (nat * nat) := map (pair rr) cols.

(** The cells phase 1 looks at for a date label at [(r, c)], in the order
    it looks at them. *)
Definition window (values : Grid) (r c : nat) : list (nat * nat) :=
  flat_map (fun rr => row_cells rr (window_cols values c)) (window_rows values r).

(** The cells phase 2 looks at, row by row. *)
Definition grid_cells (values : Grid) (rows : list nat) : list (nat * nat) :=
  flat_map (fun r => row_cells r (py_range 1 (List.length (nth (r - 1) values []) + 1))) rows.

Definition avg_pos (st : WindowState) : option (nat * nat) :=
  match loc_avg st with Some a => Some (loc_avg_row st, a) | None => None end.

Definition high_pos (st : WindowState) : option (nat * nat) :=
  match loc_high st with Some b => Some (loc_high_row st, b) | None => None end.

(** Some row of the grid holds a cell satisfying [p] in column [c]. *)
Definition column_has (p : string -> bool) (values : Grid) (c : nat) : bool :=
  existsb (fun r => p (cell_at values r c)) (seq 1 (List.length values)).

(** Some column holds both a zone-A label and a zone-B label. *)
Definition zone_labels_share_column (values : Grid) : bool :=
  existsb (fun c => column_has _is_loc_avg_label values c
                    && column_has _is_loc_high_label values c)
          (seq 1 (max_col values)).

(** What the window loop returns from a given state: the first match of
    each class, those already held taking precedence. *)
Definition window_answer (r c : nat) (a h : option (nat * nat)) : option Anchor :=
  match a, h with
  | Some (ra, ca), Some (rb, cb) => Some (mkAnchor (Nat.max r (Nat.max ra rb)) c ca cb)
  | _, _ => None
  end.

(** ** Ledger writer *)

(** The world in which the exchange path starts resolving the row: the
    ratio check has been logged, nothing has been written. *)
Definition upbit_entry (w : World) (fill : UpbitFill) : World :=
  mkWorld (sheet w) (trace w ++ [EvLog "upbit_ratio_check" (fill_id fill)]).

(** [ratio_half] and [ratio_full] as the exchange path computes them. *)
Definition ratio_half_of (fill : UpbitFill) (half_round_usd : Q) : Q :=
  if Qlt_bool 0 half_round_usd then (amount fill / half_round_usd)%Q else 0%Q.

Definition ratio_full_of (fill : UpbitFill) (half_round_usd : Q) : Q :=
  if Qlt_bool 0 half_round_usd then (amount fill / (half_round_usd * 2))%Q else 0%Q.

(** ** Row resolver *)

(** The snapshot scan passes over a row: its date cell parses, and not to
    the target date. *)
Definition row_passed (values : Grid) (date_col : nat) (target_date : date) (r : nat) : Prop :=
  match normalize_date_value (cell_at values r date_col) with
  | Ok (Some parsed) => date_eqb parsed target_date = false
  | Ok None => True
  | _ => False
  end.

(** The live date cell at [(r, c)] is empty or blank. *)
Definition blank (ws : Worksheet) (r c : nat) : bool :=
  String.eqb (Text.strip (acell_value ws r c)) "".

(** ** Reconciliation *)

(** The fills for which the ledger writer got as far as its ratio check,
    in order: the identifiers of the [upbit_ratio_check] log lines. *)
Fixpoint ratio_checks (t : list event) : list string :=
  match t with
  | [] => []
  | EvLog tag i :: t' =>
      if String.eqb tag "upbit_ratio_check" then i :: ratio_checks t' else ratio_checks t'
  | EvUpdate _ _ _ :: t' => ratio_checks t'
  end.

(** A computation that logs no ratio check. *)
Definition quiet {A : Type} (m : M A) : Prop :=
  forall w r w', m w = (r, w') -> ratio_checks (trace w') = ratio_checks (trace w).


(** ** Text *)


(** No byte of [s] is [c]. *)
Fixpoint lacks (c : ascii) (s : string) : bool :=
  match s with
  | EmptyString => true
  | String a s' => negb (Ascii.eqb a c) && lacks c s'
  end.

(** The text does not start with white space. *)
Definition head_ok (s : string) : Prop :=
  match s with
  | EmptyString => True
  | String a _ => Text.is_space a = false
  end.

(** ** Layout *)

(** A row next to the header row, or the header row itself. *)
Definition beside_header (hr rr : nat) : Prop := (rr = hr \/ rr = hr - 1 \/ rr = hr + 1)%nat.

(** The column a run of letters denotes in A1 notation: bijective base 26,
    most significant letter first. *)
Definition a1_column (s : string) : nat :=
  fold_left (fun acc ch => (26 * acc + (nat_of_ascii ch - 64))%nat)
    (list_ascii_of_string s) 0%nat.

(** The same value from the letters given least significant first. *)
Definition letters_value (l : list ascii) : nat :=
  fold_right (fun ch acc => (26 * acc + (nat_of_ascii ch - 64))%nat) 0%nat l.

(** The snapshot scan hits a row: its date cell parses to the target date. *)
Definition row_hit (values : Grid) (date_col : nat) (target_date : date) (r : nat) : Prop :=
  exists parsed,
    normalize_date_value (cell_at values r date_col) = Ok (Some parsed)
    /\ date_eqb parsed target_date = true.

(** ** Fetching *)

(** [done_dt or created_dt] *)
Definition trade_dt_of (row : RawTrade) : option datetime :=
  match done_at row with Some d => Some d | None => created_at row end.

(** ** Configuration and messages *)

(** An entry of the symbol map as the loop body stores it. *)
Definition clean_entry (k v : string) : Prop :=
  k <> "" /\ v <> "" /\ Text.upper k = k /\ Text.strip k = k /\ Text.strip v = v.

(** Where an entry of the key-value reading comes from: a line that,
    stripped, is [k0], a colon and [v0], with no colon in [k0]. *)
Definition kv_source (text k v : string) : Prop :=
  exists line k0 v0,
    In line (splitlines text)
    /\ Text.strip line = (k0 ++ String ":" v0)%string
    /\ lacks ":" k0 = true
    /\ k = Text.strip k0 /\ v = Text.strip v0.

(** The three lines every answer to the command starts with. *)
Definition counts_text (processed_count written_count : nat) : string :=
  ("업비트 기록 수행 완료" ++ nl
   ++ "- 처리 체결 수: " ++ int_str 0 processed_count ++ nl
   ++ "- 시트 기입 수: " ++ int_str 0 written_count)%string.

(** ** Traces *)

(** A computation that only appends to the trace. *)
Definition grows {A : Type} (m : M A) : Prop :=
  forall w r w', m w = (r, w') -> exists t, trace w' = trace w ++ t.

End Vocabulary.

(** ** A concrete library for running examples

    ASCII digits only, no padding blanks.  The fallback identifier of a
    fill is the one place that prints a float or a time stamp; the
    examples below give every order its [uuid]. *)
Module Example.

Definition decimal (n : nat) : string := NilZero.string_of_uint (Nat.to_uint n).

Fixpoint zero_pad (k : nat) (s : string) : string :=
  match k with
  | O => s
  | S k' => zero_pad k' ("0" ++ s)
  end.

Definition pad_int (width n : nat) : string :=
  let s := decimal n in zero_pad (width - String.length s) s.

Definition ymd (sep : string) (d : date) : string :=
  pad_int 4 (year d) ++ sep ++ pad_int 2 (month d) ++ sep ++ pad_int 2 (day d).

Definition strptime_ymd (sep : ascii) (value : string) : option (date * string) :=
  match split3 sep value with
  | Some (ys, ms, ds, rest) =>
      if (List.length ys =? 4)%nat && one_or_two ms && one_or_two ds
      then match make_date (nat_of_digits ys) (nat_of_digits ms) (nat_of_digits ds) with
           | Some d => Some (d, rest)
           | None => None
           end
      else None
  | None => None
  end.

Definition clock_ok (rest : string) : bool :=
  match rest with
  | String a _ =>
      Text.is_space a &&
      match split3 ":" (Text.lstrip rest) with
      | Some (hs, ms, ss, tail) =>
          one_or_two hs && one_or_two ms && one_or_two ss && String.eqb tail ""
          && ((nat_of_digits hs <? 24) && (nat_of_digits ms <? 60) && (nat_of_digits ss <? 60))%nat
      | None => false
      end
  | EmptyString => false
  end.

Definition parse_date (value fmt : string) : option date :=
  let whole sep :=
    match strptime_ymd sep value with
    | Some (d, rest) => if String.eqb rest "" then Some d else None
    | None => None
    end in
  if String.eqb fmt "%Y-%m-%d" then whole "-"%char
  else if String.eqb fmt "%Y/%m/%d" then whole "/"%char
  else if String.eqb fmt "%Y.%m.%d" then whole "."%char
  else if String.eqb fmt "%Y-%m-%d %H:%M:%S" then
    match strptime_ymd "-" value with
    | Some (d, rest) => if clock_ok rest then Some d else None
    | None => None
    end
  else None.

Definition print_date (d : date) (fmt : string) : string :=
  if String.eqb fmt "%Y-%m-%d" then ymd "-" d else fmt.

Definition plain (q : Q) : string := decimal (Z.to_nat (Qfloor q)).

#[export] Instance lib : PyLib := {|
  strptime := parse_date;
  strftime := print_date;
  isoformat dt := ymd "-" (dt_date dt) ++ "T";
  float_str := plain;
  int_str := pad_int
|}.

(** The grid of the end-to-end example: date label at (5,2), zone-A label
    at (5,4), zone-B label at (6,4). *)
Definition grid_same_column : Grid :=
  [ []; []; []; [];
    [""; "날짜"; ""; "LOC 평단"];
    [""; ""; ""; "LOC 고가"] ].

Definition grid_wide_window : Grid :=
  [ ["날짜"; ""; ""; ""; ""; ""; ""; ""; ""; ""; ""; ""; ""; ""; "LOC 평단"];
    [];
    [""; "LOC 고가"] ].

Definition sheet_of (cells : list (nat * nat * pyval)) : Worksheet :=
  mkWorksheet (list_to_map cells) plain "BTC 무한매수".

(** A ledger: summary cells B2, B3, R6, R9, R10, R11, the header on row 13
    (date in column 1, zone A in columns 4-5, zone B in columns 6-7, no
    total-quantity label) and one dated row below it. *)
Definition ledger : Worksheet :=
  sheet_of
    [ ((2, 2), PNum 52); ((3, 2), PNum 100); ((6, 18), PNum 50);
      ((9, 18), PNum 49); ((10, 18), PNum 55); ((11, 18), PNum 60);
      ((13, 1), PStr "날짜"); ((13, 4), PStr "LOC 평단"); ((13, 6), PStr "LOC 고가");
      ((14, 1), PStr "2024-01-04") ]%nat.

Definition world0 : World := mkWorld ledger [].

Definition jan5 : date := mkDate 2024 1 5.

Definition at_noon : datetime := mkDatetime jan5 1704423600.

(** Fills of 180, 90 and 50 against a half-unit amount of 100. *)
Definition fill_two_units : UpbitFill := mkUpbitFill "u-180" "KRW-BTC" at_noon "bid" 40 3 180.
Definition fill_one_unit : UpbitFill := mkUpbitFill "u-90" "KRW-BTC" at_noon "bid" 60 3 90.

(** The world after the row for 5 January has been created on [ledger]. *)
Definition world1 : World :=
  snd (find_or_create_date_row (get_all_values ledger) 13 1 jan5 "2024-01-05" world0).

(** The summary read back after a write on [ledger]. *)
Definition ledger_summary : FillResult :=
  mkFillResult "BTC 무한매수" "KRW" 50 52 49 55 60 0.

(** A brokerage buy at exactly the reference average price. *)
Definition msg_tie : FillMessage := mkFillMessage "" "TQQQ" "매수" 50 2 1 5.

(** The same sheet without any of the three header labels. *)
Definition ledger_no_header : Worksheet :=
  sheet_of [ ((3, 2), PNum 100); ((6, 18), PNum 50); ((14, 1), PStr "2024-01-04") ]%nat.

(** The layout the end-to-end example calls correct: zone B at (6,8). *)
Definition grid_distinct_columns : Grid :=
  [ []; []; []; [];
    [""; "날짜"; ""; "LOC 평단"];
    [""; ""; ""; ""; ""; ""; ""; "LOC 고가"] ].

(** Closed orders: a market-style buy with its total in [price], a limit
    buy, a market-style buy whose [price] field is empty, and a buy on
    another market. *)
Definition order_market : RawTrade :=
  mkRawTrade (Some at_noon) None "KRW-BTC" "bid" "price"
    (Some (2 # 1000)%Q) (Some 179%Q) (Some 180%Q) (Some "a").
Definition order_limit : RawTrade :=
  mkRawTrade (Some at_noon) None "KRW-BTC" "bid" "limit"
    (Some (2 # 1000)%Q) (Some 90%Q) (Some 45000%Q) (Some "b").
Definition order_market_no_total : RawTrade :=
  mkRawTrade (Some at_noon) None "KRW-BTC" "bid" "price"
    (Some 2%Q) (Some 500%Q) None (Some "c").
Definition order_eth : RawTrade :=
  mkRawTrade (Some at_noon) None "KRW-ETH" "bid" "limit"
    (Some 1%Q) (Some 90%Q) (Some 90%Q) (Some "d").

(** What [order_market] becomes, and what [order_market_no_total] becomes. *)
Definition fill_of_order_market : UpbitFill :=
  mkUpbitFill "a" "KRW-BTC" at_noon "bid" (180 / (2 # 1000)) (2 # 1000) 180.
Definition fill_of_order_market_no_total : UpbitFill :=
  mkUpbitFill "c" "KRW-BTC" at_noon "bid" (500 / 2) 2 500.

(** The exchange answers page 1 with three orders and page 2 with none. *)
Definition orders (page : nat) : list RawTrade :=
  match page with
  | 1 => [order_market; order_limit; order_eth]
  | _ => []
  end%nat.


(** What [order_limit] becomes. *)
Definition fill_of_order_limit : UpbitFill :=
  mkUpbitFill "b" "KRW-BTC" at_noon "bid" 45000 (2 # 1000) 90.

(** An order history that differs from [orders] only after its empty page. *)
Definition orders_then_noise (page : nat) : list RawTrade :=
  match page with
  | 1 => [order_market; order_limit; order_eth]
  | 2 => []
  | _ => [order_market_no_total]
  end%nat.

(** [ledger] with an impossible date in the first row below the header. *)
Definition ledger_bad_date : Worksheet :=
  sheet_of
    [ ((3, 2), PNum 100); ((6, 18), PNum 50);
      ((13, 1), PStr "날짜"); ((13, 4), PStr "LOC 평단"); ((13, 6), PStr "LOC 고가");
      ((14, 1), PStr "2024-02-30") ]%nat.

(** A brokerage notice: LF and CR LF line ends, a currency word before the
    price, a unit after the quantity, a clock time after the date. *)
Definition fill_notice : string :=
  "[메리츠증권] 해외주식 주문체결 안내" ++ String "010" "종목명 : PROSHARES ULTRAPRO QQQ(tqqq )"
  ++ String "013" (String "010" "매매구분: 매수") ++ String "010" "체결단가 : USD 50.25"
  ++ String "010" "체결수량: 3주" ++ String "010" "체결일자 : 01/05 10:30" ++ String "010" "".

(** Amounts are printed like every other number of the examples. *)
#[export] Instance money : MoneyFormat := {| two_decimals := plain |}.

End Example.


(** * Facts *)

(** ** Anchor resolver *)

Lemma find_app_or_else {A : Type} (p : A -> bool) (l1 l2 : list A) :
  List.find p (l1 ++ l2) = or_else (List.find p l1) (List.find p l2).
Proof.
  induction l1 as [|x l1 IH]; simpl; [reflexivity|].
  destruct (p x); [reflexivity | exact IH].
Qed.

Lemma or_else_assoc {A : Type} (a b c : option A) :
  or_else (or_else a b) c = or_else a (or_else b c).
Proof. destruct a; reflexivity. Qed.

Lemma scan_cell_pos values rr st cc :
  avg_pos (scan_cell values rr st cc)
  = or_else (avg_pos st) (find_label _is_loc_avg_label values [(rr, cc)])
  /\ high_pos (scan_cell values rr st cc)
     = or_else (high_pos st) (find_label _is_loc_high_label values [(rr, cc)]).
Proof.
  unfold scan_cell, avg_pos, high_pos, find_label; simpl.
  destruct st as [[a|] [b|] ar br]; simpl;
    destruct (_is_loc_avg_label (cell_at values rr cc));
    destruct (_is_loc_high_label (cell_at values rr cc)); simpl; auto.
Qed.

Lemma fold_row_pos values rr cols : forall st,
  avg_pos (fold_left (scan_cell values rr) cols st)
  = or_else (avg_pos st) (find_label _is_loc_avg_label values (row_cells rr cols))
  /\ high_pos (fold_left (scan_cell values rr) cols st)
     = or_else (high_pos st) (find_label _is_loc_high_label values (row_cells rr cols)).
Proof.
  induction cols as [|cc cols IH]; intros st; simpl.
  - split; [destruct (avg_pos st) | destruct (high_pos st)]; reflexivity.
  - destruct (IH (scan_cell values rr st cc)) as [Ha Hh].
    destruct (scan_cell_pos values rr st cc) as [Ha1 Hh1].
    rewrite Ha, Hh, Ha1, Hh1, !or_else_assoc.
    unfold find_label; simpl.
    split.
    + destruct (_is_loc_avg_label (cell_at values rr cc)); reflexivity.
    + destruct (_is_loc_high_label (cell_at values rr cc)); reflexivity.
Qed.

Lemma scan_window_rows_spec values r c rows : forall st,
  (avg_pos st = None \/ high_pos st = None) ->
  scan_window_rows values r c rows st
  = window_answer r c
      (or_else (avg_pos st)
         (find_label _is_loc_avg_label values
            (flat_map (fun rr => row_cells rr (window_cols values c)) rows)))
      (or_else (high_pos st)
         (find_label _is_loc_high_label values
            (flat_map (fun rr => row_cells rr (window_cols values c)) rows))).
Proof.
  induction rows as [|rr rows IH]; intros st Hst.
  - simpl. unfold find_label; simpl.
    destruct Hst as [-> | ->]; simpl; [reflexivity|].
    destruct (avg_pos st) as [[? ?]|]; reflexivity.
  - simpl scan_window_rows. simpl flat_map.
    unfold find_label in *. rewrite !find_app_or_else, <- !or_else_assoc.
    destruct (fold_row_pos values rr (window_cols values c) st) as [Ha Hh].
    unfold find_label in Ha, Hh. rewrite <- Ha, <- Hh.
    set (st' := fold_left (scan_cell values rr) (window_cols values c) st).
    destruct (loc_avg st') as [a|] eqn:Ea; destruct (loc_high st') as [b|] eqn:Eb.
    + unfold avg_pos, high_pos. rewrite Ea, Eb. reflexivity.
    + apply IH. right. unfold high_pos. rewrite Eb. reflexivity.
    + apply IH. left. unfold avg_pos. rewrite Ea. reflexivity.
    + apply IH. left. unfold avg_pos. rewrite Ea. reflexivity.
Qed.

(** Phase 1 at one date label: each zone label is the first match in the
    window, found independently of the other. *)
Lemma scan_window_spec values r c :
  scan_window values r c
  = window_answer r c (find_label _is_loc_avg_label values (window values r c))
                      (find_label _is_loc_high_label values (window values r c)).
Proof.
  unfold scan_window, window.
  rewrite scan_window_rows_spec by (left; reflexivity).
  reflexivity.
Qed.

Lemma in_py_range x a b : In x (py_range a b) <-> (a <= x < b)%nat.
Proof. unfold py_range. rewrite in_seq. lia. Qed.

Lemma in_window values r c rr cc :
  In (rr, cc) (window values r c)
  <-> (r <= rr <= Nat.min (r + 2) (List.length values)
       /\ c + 1 <= cc <= Nat.min (c + 14) (max_col values))%nat.
Proof.
  unfold window, row_cells, window_rows, window_cols.
  rewrite in_flat_map. split.
  - intros (x & Hx & Hin). apply in_map_iff in Hin as (y & Heq & Hy).
    inversion Heq; subst. apply in_py_range in Hx, Hy. lia.
  - intros [Hr Hc]. exists rr. split; [apply in_py_range; lia|].
    apply in_map_iff. exists cc. split; [reflexivity | apply in_py_range; lia].
Qed.

Lemma first_some_Some {A B : Type} (f : A -> option B) (l : list A) (b : B) :
  first_some f l = Some b -> exists x, In x l /\ f x = Some b.
Proof.
  induction l as [|x l IH]; simpl; [discriminate|].
  destruct (f x) as [b'|] eqn:E.
  - intros [= <-]. exists x. auto.
  - intros H. destruct (IH H) as (y & Hy & Hf). exists y. auto.
Qed.

Lemma find_label_Some p values cells rc :
  find_label p values cells = Some rc -> In rc cells /\ p (cell_at values (fst rc) (snd rc)) = true.
Proof. unfold find_label. intros H. apply find_some in H. exact H. Qed.

Lemma date_first_scan_Some values anchor :
  date_first_scan values = Some anchor ->
  exists r, (1 <= r <= List.length values)%nat
    /\ _is_date_label (cell_at values r (date_col anchor)) = true
    /\ scan_window values r (date_col anchor) = Some anchor.
Proof.
  unfold date_first_scan. intros H.
  apply first_some_Some in H as (r & Hr & H).
  apply first_some_Some in H as (c & Hc & H).
  apply in_py_range in Hr.
  destruct (_is_date_label (cell_at values r c)) eqn:Ed; [|discriminate].
  assert (date_col anchor = c) as ->.
  { rewrite scan_window_spec in H. unfold window_answer in H.
    destruct (find_label _ _ _) as [[? ?]|]; [|discriminate].
    destruct (find_label _ _ _) as [[? ?]|]; [|discriminate].
    injection H as <-. reflexivity. }
  exists r. split; [lia | auto].
Qed.

Lemma label_cell_pos values r st c :
  avg_at (label_cell values r st c)
  = or_else (avg_at st) (find_label _is_loc_avg_label values [(r, c)])
  /\ high_at (label_cell values r st c)
     = or_else (high_at st) (find_label _is_loc_high_label values [(r, c)]).
Proof.
  unfold label_cell, find_label; simpl.
  destruct st as [[a|] [b|]]; simpl;
    destruct (_is_loc_avg_label (cell_at values r c));
    destruct (_is_loc_high_label (cell_at values r c)); simpl; auto.
Qed.

Lemma label_fold_pos values r cols : forall st,
  avg_at (fold_left (label_cell values r) cols st)
  = or_else (avg_at st) (find_label _is_loc_avg_label values (row_cells r cols))
  /\ high_at (fold_left (label_cell values r) cols st)
     = or_else (high_at st) (find_label _is_loc_high_label values (row_cells r cols)).
Proof.
  induction cols as [|c cols IH]; intros st; simpl.
  - split; [destruct (avg_at st) | destruct (high_at st)]; reflexivity.
  - destruct (IH (label_cell values r st c)) as [Ha Hh].
    destruct (label_cell_pos values r st c) as [Ha1 Hh1].
    rewrite Ha, Hh, Ha1, Hh1, !or_else_assoc.
    unfold find_label; simpl.
    split.
    + destruct (_is_loc_avg_label (cell_at values r c)); reflexivity.
    + destruct (_is_loc_high_label (cell_at values r c)); reflexivity.
Qed.

(** Phase 2 keeps, for each class, the first label of the whole grid; the
    [break] only saves reading rows that cannot change the answer. *)
Lemma label_scan_rows_spec values rows : forall st,
  avg_at (label_scan_rows values rows st)
  = or_else (avg_at st) (find_label _is_loc_avg_label values (grid_cells values rows))
  /\ high_at (label_scan_rows values rows st)
     = or_else (high_at st) (find_label _is_loc_high_label values (grid_cells values rows)).
Proof.
  induction rows as [|r rows IH]; intros st.
  - simpl. split; [destruct (avg_at st) | destruct (high_at st)]; reflexivity.
  - simpl label_scan_rows. unfold grid_cells; simpl flat_map. fold (grid_cells values rows).
    unfold find_label in *. rewrite !find_app_or_else, <- !or_else_assoc.
    destruct (label_fold_pos values r
                (py_range 1 (List.length (nth (r - 1) values []) + 1)) st) as [Ha Hh].
    unfold find_label in Ha, Hh. rewrite <- Ha, <- Hh.
    set (st' := fold_left (label_cell values r) _ st).
    destruct (avg_at st') as [a|] eqn:Ea; destruct (high_at st') as [b|] eqn:Eb;
      try (destruct (IH st') as [IHa IHh]; rewrite IHa, IHh, Ea, Eb; split; reflexivity).
    rewrite Ea, Eb. split; reflexivity.
Qed.

Lemma in_grid_cells values rows r c :
  In (r, c) (grid_cells values rows)
  <-> In r rows /\ (1 <= c <= List.length (nth (r - 1) values []))%nat.
Proof.
  unfold grid_cells, row_cells. rewrite in_flat_map. split.
  - intros (x & Hx & Hin). apply in_map_iff in Hin as (y & Heq & Hy).
    inversion Heq; subst. apply in_py_range in Hy. split; [assumption | lia].
  - intros [Hr Hc]. exists r. split; [assumption|].
    apply in_map_iff. exists c. split; [reflexivity | apply in_py_range; lia].
Qed.

Lemma row_length_le_max_col (values : Grid) r :
  (1 <= r <= List.length values)%nat ->
  (List.length (nth (r - 1) values []) <= max_col values)%nat.
Proof.
  intros Hr. unfold max_col. apply max_list_elem_of_le.
  apply list_elem_of_In, in_map, nth_In. lia.
Qed.

Lemma label_first_scan_Some values anchor :
  label_first_scan values = Some anchor ->
  exists ra rb,
    find_label _is_loc_avg_label values
      (grid_cells values (py_range 1 (List.length values + 1))) = Some (ra, loc_avg_col anchor)
    /\ find_label _is_loc_high_label values
         (grid_cells values (py_range 1 (List.length values + 1))) = Some (rb, loc_high_col anchor).
Proof.
  unfold label_first_scan. intros H.
  destruct (label_scan_rows_spec values (py_range 1 (List.length values + 1))
              (mkLabelState None None)) as [Ha Hh].
  simpl in Ha, Hh.
  destruct (avg_at _) as [[ra a]|]; [|discriminate].
  destruct (high_at _) as [[rb b]|]; [|discriminate].
  apply first_some_Some in H as (base & _ & H).
  apply first_some_Some in H as (rr & _ & H).
  destruct (_ || _)%bool; [discriminate|].
  apply first_some_Some in H as (c & _ & H).
  destruct (_is_date_label _); [|discriminate].
  injection H as <-. simpl. exists ra, rb. auto.
Qed.

(** Where the two zone columns of a resolved anchor come from. *)
Lemma anchor_columns_located values anchor :
  find_header_row_and_columns values = Ok anchor ->
  exists ra rb,
    (1 <= ra <= List.length values)%nat /\ (1 <= rb <= List.length values)%nat
    /\ (1 <= loc_avg_col anchor <= max_col values)%nat
    /\ (1 <= loc_high_col anchor <= max_col values)%nat
    /\ _is_loc_avg_label (cell_at values ra (loc_avg_col anchor)) = true
    /\ _is_loc_high_label (cell_at values rb (loc_high_col anchor)) = true.
Proof.
  unfold find_header_row_and_columns. intros H.
  destruct values as [|row0 rows] eqn:Ev; [discriminate|]. rewrite <- Ev in *.
  destruct (date_first_scan values) as [a1|] eqn:E1.
  - injection H as ->.
    apply date_first_scan_Some in E1 as (r & Hr & _ & Hw).
    rewrite scan_window_spec in Hw. unfold window_answer in Hw.
    destruct (find_label _is_loc_avg_label _ _) as [[ra ca]|] eqn:Fa; [|discriminate].
    destruct (find_label _is_loc_high_label _ _) as [[rb cb]|] eqn:Fh; [|discriminate].
    injection Hw as <-. simpl.
    apply find_label_Some in Fa as [Ia Pa], Fh as [Ih Ph].
    apply in_window in Ia, Ih. simpl in Pa, Ph.
    exists ra, rb. repeat split; try assumption; lia.
  - destruct (label_first_scan values) as [a2|] eqn:E2; [|discriminate].
    injection H as ->.
    apply label_first_scan_Some in E2 as (ra & rb & Fa & Fh).
    apply find_label_Some in Fa as [Ia Pa], Fh as [Ih Ph].
    apply in_grid_cells in Ia as [Ra Ca], Ih as [Rh Ch].
    apply in_py_range in Ra, Rh. simpl in Pa, Ph.
    assert (1 <= ra <= List.length values)%nat as Hra by lia.
    assert (1 <= rb <= List.length values)%nat as Hrb by lia.
    pose proof (row_length_le_max_col values ra Hra).
    pose proof (row_length_le_max_col values rb Hrb).
    exists ra, rb. repeat split; try assumption; lia.
Qed.

Lemma column_has_intro p (values : Grid) r c :
  (1 <= r <= List.length values)%nat -> p (cell_at values r c) = true ->
  column_has p values c = true.
Proof.
  intros Hr Hp. unfold column_has. apply existsb_exists.
  exists r. split; [apply in_seq; lia | assumption].
Qed.

(** C2, as the code has it: the resolver checks nothing about the two zone columns
    beyond their labels.  The zone-A column it returns holds a zone-A
    label and the zone-B column a zone-B label, so the two differ whenever
    no single column of the grid holds labels of both classes. *)
Theorem resolver_zone_columns_distinct (values : Grid) (anchor : Anchor) :
  find_header_row_and_columns values = Ok anchor ->
  zone_labels_share_column values = false ->
  column_has _is_loc_avg_label values (loc_avg_col anchor) = true
  /\ column_has _is_loc_high_label values (loc_high_col anchor) = true
  /\ loc_avg_col anchor <> loc_high_col anchor.
Proof.
  intros H Hshare.
  destruct (anchor_columns_located values anchor H)
    as (ra & rb & Hra & Hrb & Hca & Hcb & Pa & Ph).
  pose proof (column_has_intro _ values ra _ Hra Pa) as Ca.
  pose proof (column_has_intro _ values rb _ Hrb Ph) as Ch.
  repeat split; try assumption.
  intros Heq. rewrite <- Heq in Ch.
  assert (zone_labels_share_column values = true) as Habs.
  { unfold zone_labels_share_column. apply existsb_exists.
    exists (loc_avg_col anchor). split; [apply in_seq; lia|].
    rewrite Ca, Ch. reflexivity. }
  congruence.
Qed.

(** C4, as the code has it: in the date-first phase, the search started at
    a date label [(r, c)] reads the cells of rows [r .. r+2] and columns
    [c+1 .. c+14] (clipped to the grid), row by row; for each zone class
    independently the first match among them wins; and a success returns
    the largest of the three rows as header row. *)
Theorem date_first_scan_window (values : Grid) :
  (forall r c,
      scan_window values r c
      = window_answer r c (find_label _is_loc_avg_label values (window values r c))
                          (find_label _is_loc_high_label values (window values r c)))
  /\ (forall r c rr cc,
        In (rr, cc) (window values r c)
        <-> (r <= rr <= Nat.min (r + 2) (List.length values)
             /\ c + 1 <= cc <= Nat.min (c + 14) (max_col values))%nat)
  /\ (forall anchor,
        date_first_scan values = Some anchor ->
        exists r ra rb,
          _is_date_label (cell_at values r (date_col anchor)) = true
          /\ find_label _is_loc_avg_label values (window values r (date_col anchor))
             = Some (ra, loc_avg_col anchor)
          /\ find_label _is_loc_high_label values (window values r (date_col anchor))
             = Some (rb, loc_high_col anchor)
          /\ header_row anchor = Nat.max r (Nat.max ra rb)
          /\ (r <= ra <= r + 2 /\ r <= rb <= r + 2)%nat
          /\ (date_col anchor + 1 <= loc_avg_col anchor <= date_col anchor + 14
              /\ date_col anchor + 1 <= loc_high_col anchor <= date_col anchor + 14)%nat).
Proof.
  split; [exact (scan_window_spec values)|].
  split; [exact (in_window values)|].
  intros anchor H.
  apply date_first_scan_Some in H as (r & Hr & Hd & Hw).
  rewrite scan_window_spec in Hw. unfold window_answer in Hw.
  destruct (find_label _is_loc_avg_label _ _) as [[ra ca]|] eqn:Fa; [|discriminate].
  destruct (find_label _is_loc_high_label _ _) as [[rb cb]|] eqn:Fh; [|discriminate].
  injection Hw as <-. simpl in *.
  exists r, ra, rb.
  pose proof (find_label_Some _ _ _ _ Fa) as [Ia _].
  pose proof (find_label_Some _ _ _ _ Fh) as [Ih _].
  apply in_window in Ia, Ih.
  repeat split; try assumption; try reflexivity; lia.
Qed.

(** ** Numbers *)

Lemma Qlt_bool_iff (x y : Q) : Qlt_bool x y = true <-> (x < y)%Q.
Proof.
  unfold Qlt_bool. rewrite negb_true_iff. split.
  - intros H. apply Qnot_le_lt. intros Hle. apply Qle_bool_iff in Hle. congruence.
  - intros H. destruct (Qle_bool y x) eqn:E; [|reflexivity].
    apply Qle_bool_iff in E. exfalso. exact (Qlt_not_le _ _ H E).
Qed.



Section Facts.

Context {lib : PyLib}.

Local Open Scope list_scope.

(** ** Running the monad *)

Lemma bind_Ok {A B : Type} (m : M A) (k : A -> M B) w a w1 :
  m w = (Ok a, w1) -> (m ≫= k) w = k a w1.
Proof. intros H. unfold mbind, M_bind. rewrite H. reflexivity. Qed.

Lemma bind_Raise {A B : Type} (m : M A) (k : A -> M B) w e w1 :
  m w = (Raise e, w1) -> (m ≫= k) w = (Raise e, w1).
Proof. intros H. unfold mbind, M_bind. rewrite H. reflexivity. Qed.

Lemma bind_Diverge {A B : Type} (m : M A) (k : A -> M B) w w1 :
  m w = (Diverge, w1) -> (m ≫= k) w = (Diverge, w1).
Proof. intros H. unfold mbind, M_bind. rewrite H. reflexivity. Qed.

Lemma writes_app t1 t2 : writes (t1 ++ t2) = writes t1 ++ writes t2.
Proof.
  induction t1 as [|[r c v|tag i] t1 IH]; simpl; [reflexivity | |]; rewrite IH; reflexivity.
Qed.

(** Reading the summary cells changes nothing. *)
Lemma get_fill_result_for_row_reads target_row total_qty_col symbol_hint w :
  snd (get_fill_result_for_row target_row total_qty_col symbol_hint w) = w.
Proof.
  unfold get_fill_result_for_row, read_numeric, ask, mbind, M_bind, mret, M_ret. simpl.
  repeat (match goal with
          | |- context [get_numeric_cell_value ?s ?r ?c] =>
              destruct (get_numeric_cell_value s r c); simpl; try reflexivity
          end).
Qed.

(** The row resolver writes at most the date cell of the row it returns. *)
Lemma find_or_create_date_row_writes values hr dc target text w row w1 :
  find_or_create_date_row values hr dc target text w = (Ok row, w1) ->
  w1 = w \/ w1 = mkWorld (sheet_update (sheet w) row dc (PStr text))
                         (trace w ++ [EvUpdate row dc (PStr text)]).
Proof.
  unfold find_or_create_date_row, lift, ask, ws_update, mbind, M_bind, mret, M_ret.
  destruct (find_existing_row _ _ _ _) as [[r|]|e|]; try discriminate.
  - intros H; inversion H; subst. left. reflexivity.
  - cbv beta iota. unfold id.
    destruct (first_empty_row _ _ _ _) as [r|]; try discriminate.
    intros H; inversion H; subst. right. reflexivity.
Qed.

(** ** Ledger writer, exchange path *)

Ltac upbit_prefix Hside Hanchor Hhalf Havg :=
  unfold process_upbit_fill_to_sheet; rewrite Hside, String.eqb_refl; cbn [negb];
  erewrite bind_Ok by reflexivity;
  erewrite bind_Ok by (unfold lift; rewrite Hanchor; reflexivity);
  erewrite bind_Ok by (unfold read_numeric, B3; simpl; rewrite Hhalf; reflexivity);
  erewrite bind_Ok by (unfold read_numeric, R6; simpl; rewrite Havg; reflexivity);
  erewrite bind_Ok by reflexivity.

(** After the writes only the summary is read back, whatever it gives. *)
Ltac summary_tail :=
  cbv beta iota;
  match goal with
  | |- context [get_fill_result_for_row ?a ?b ?c] =>
      match goal with
      | |- context [(get_fill_result_for_row a b c ≫= ?k) ?w'] =>
          pose proof (get_fill_result_for_row_reads a b c w') as Hreads;
          unfold mbind at 1, M_bind at 1;
          destruct (get_fill_result_for_row a b c w') as [[res|e|] w2];
          simpl in Hreads; subst w2
      end
  end; simpl; rewrite !writes_app; simpl; rewrite <- ?app_assoc; reflexivity.

Lemma upbit_both target_symbol fill w anchor half avg row w1 :
  side fill = "bid" ->
  find_header_row_and_columns (get_all_values (sheet w)) = Ok anchor ->
  get_numeric_cell_value (sheet w) 3 2 = Ok half ->
  get_numeric_cell_value (sheet w) 6 18 = Ok avg ->
  in_band (ratio_full_of fill half) = true ->
  find_or_create_date_row (get_all_values (sheet w)) (header_row anchor) (date_col anchor)
    (dt_date (trade_time fill)) (strftime (dt_date (trade_time fill)) "%Y-%m-%d")
    (upbit_entry w fill) = (Ok row, w1) ->
  writes (trace (snd (process_upbit_fill_to_sheet target_symbol fill w)))
  = writes (trace w1)
    ++ [(row, loc_avg_col anchor, PNum (price fill));
        (row, (loc_avg_col anchor + 1)%nat, PNum (qty fill / 2)%Q);
        (row, loc_high_col anchor, PNum (price fill));
        (row, (loc_high_col anchor + 1)%nat, PNum (qty fill / 2)%Q)].
Proof.
  intros Hside Hanchor Hhalf Havg Hband Hrow.
  upbit_prefix Hside Hanchor Hhalf Havg.
  fold (ratio_full_of fill half). rewrite Hband.
  erewrite bind_Ok
    by (erewrite bind_Ok by exact Hrow;
        unfold log, ws_update, mbind, M_bind, mret, M_ret; simpl; reflexivity).
  summary_tail.
Qed.

Lemma upbit_single target_symbol fill w anchor half avg row w1 :
  side fill = "bid" ->
  find_header_row_and_columns (get_all_values (sheet w)) = Ok anchor ->
  get_numeric_cell_value (sheet w) 3 2 = Ok half ->
  get_numeric_cell_value (sheet w) 6 18 = Ok avg ->
  in_band (ratio_full_of fill half) = false ->
  in_band (ratio_half_of fill half) = true ->
  find_or_create_date_row (get_all_values (sheet w)) (header_row anchor) (date_col anchor)
    (dt_date (trade_time fill)) (strftime (dt_date (trade_time fill)) "%Y-%m-%d")
    (upbit_entry w fill) = (Ok row, w1) ->
  let price_col :=
    if Qlt_bool avg (price fill) then loc_high_col anchor else loc_avg_col anchor in
  writes (trace (snd (process_upbit_fill_to_sheet target_symbol fill w)))
  = writes (trace w1)
    ++ [(row, price_col, PNum (price fill)); (row, (price_col + 1)%nat, PNum (qty fill))].
Proof.
  intros Hside Hanchor Hhalf Havg Hfull Hband Hrow price_col.
  upbit_prefix Hside Hanchor Hhalf Havg.
  fold (ratio_full_of fill half) (ratio_half_of fill half). rewrite Hfull, Hband.
  erewrite bind_Ok
    by (erewrite bind_Ok by exact Hrow;
        unfold log, ws_update, mbind, M_bind, mret, M_ret; simpl; reflexivity).
  summary_tail.
Qed.

Lemma upbit_skip target_symbol fill w anchor half avg :
  side fill = "bid" ->
  find_header_row_and_columns (get_all_values (sheet w)) = Ok anchor ->
  get_numeric_cell_value (sheet w) 3 2 = Ok half ->
  get_numeric_cell_value (sheet w) 6 18 = Ok avg ->
  in_band (ratio_full_of fill half) = false ->
  in_band (ratio_half_of fill half) = false ->
  process_upbit_fill_to_sheet target_symbol fill w
  = (Ok None,
     mkWorld (sheet w)
       (trace w ++ [EvLog "upbit_ratio_check" (fill_id fill);
                    EvLog "upbit_fill_skipped" (fill_id fill)])).
Proof.
  intros Hside Hanchor Hhalf Havg Hfull Hband.
  upbit_prefix Hside Hanchor Hhalf Havg.
  fold (ratio_full_of fill half) (ratio_half_of fill half). rewrite Hfull, Hband.
  unfold log, mbind, M_bind, mret, M_ret. simpl. rewrite <- app_assoc. reflexivity.
Qed.





(** ** Ledger writer, brokerage path *)

Lemma brokerage_write msg year_now w anchor target row w1 avg :
  trade_side msg = "매수" ->
  Qlt_bool (fill_qty msg) 0 = false ->
  find_header_row_and_columns (get_all_values (sheet w)) = Ok anchor ->
  make_date year_now (fill_month msg) (fill_day msg) = Some target ->
  find_or_create_date_row (get_all_values (sheet w)) (header_row anchor) (date_col anchor)
    target
    (int_str 0 year_now ++ "-" ++ int_str 2 (fill_month msg) ++ "-"
       ++ int_str 2 (fill_day msg))%string
    w = (Ok row, w1) ->
  get_numeric_cell_value (sheet w1) 6 18 = Ok avg ->
  let price_col :=
    if Qle_bool (fill_price msg) avg then loc_avg_col anchor else loc_high_col anchor in
  writes (trace (snd (process_fill_to_sheet msg year_now w)))
  = writes (trace w1)
    ++ [(row, price_col, PNum (fill_price msg));
        (row, (price_col + 1)%nat, PNum (fill_qty msg))].
Proof.
  intros Hside Hqty Hanchor Hdate Hrow Havg price_col.
  unfold process_fill_to_sheet. rewrite Hside, String.eqb_refl, Hqty. cbn [negb].
  erewrite bind_Ok by reflexivity.
  erewrite bind_Ok by (unfold lift; rewrite Hanchor; reflexivity).
  erewrite bind_Ok by (unfold lift; rewrite Hdate; reflexivity).
  erewrite bind_Ok by exact Hrow.
  erewrite bind_Ok by (unfold read_numeric, R6; simpl; rewrite Havg; reflexivity).
  erewrite bind_Ok by reflexivity.
  erewrite bind_Ok by reflexivity.
  erewrite bind_Ok by reflexivity.
  summary_tail.
Qed.

(** C5: on both paths the zone that receives a single write is zone A
    exactly when the fill price is at most the reference average price,
    and zone B exactly when it is above; a tie goes to zone A. *)
Theorem zone_selected_by_price :
  (forall (msg : FillMessage) (year_now : nat) (w : World) (anchor : Anchor)
          (target : date) (row : nat) (w1 : World) (avg : Q),
      trade_side msg = "매수" ->
      Qlt_bool (fill_qty msg) 0 = false ->
      find_header_row_and_columns (get_all_values (sheet w)) = Ok anchor ->
      make_date year_now (fill_month msg) (fill_day msg) = Some target ->
      find_or_create_date_row (get_all_values (sheet w)) (header_row anchor)
        (date_col anchor) target
        (int_str 0 year_now ++ "-" ++ int_str 2 (fill_month msg) ++ "-"
           ++ int_str 2 (fill_day msg))%string
        w = (Ok row, w1) ->
      get_numeric_cell_value (sheet w1) 6 18 = Ok avg ->
      exists zone_col,
        writes (trace (snd (process_fill_to_sheet msg year_now w)))
        = writes (trace w1)
          ++ [(row, zone_col, PNum (fill_price msg));
              (row, (zone_col + 1)%nat, PNum (fill_qty msg))]
        /\ ((fill_price msg <= avg)%Q -> zone_col = loc_avg_col anchor)
        /\ ((avg < fill_price msg)%Q -> zone_col = loc_high_col anchor))
  /\ (forall (target_symbol : string) (fill : UpbitFill) (w : World) (anchor : Anchor)
             (half avg : Q) (row : nat) (w1 : World),
      side fill = "bid" ->
      find_header_row_and_columns (get_all_values (sheet w)) = Ok anchor ->
      get_numeric_cell_value (sheet w) 3 2 = Ok half ->
      get_numeric_cell_value (sheet w) 6 18 = Ok avg ->
      in_band (ratio_full_of fill half) = false ->
      in_band (ratio_half_of fill half) = true ->
      find_or_create_date_row (get_all_values (sheet w)) (header_row anchor)
        (date_col anchor) (dt_date (trade_time fill))
        (strftime (dt_date (trade_time fill)) "%Y-%m-%d")
        (upbit_entry w fill) = (Ok row, w1) ->
      exists zone_col,
        writes (trace (snd (process_upbit_fill_to_sheet target_symbol fill w)))
        = writes (trace w1)
          ++ [(row, zone_col, PNum (price fill)); (row, (zone_col + 1)%nat, PNum (qty fill))]
        /\ ((price fill <= avg)%Q -> zone_col = loc_avg_col anchor)
        /\ ((avg < price fill)%Q -> zone_col = loc_high_col anchor)).
Proof.
  split.
  - intros msg year_now w anchor target row w1 avg Hside Hqty Hanchor Hdate Hrow Havg.
    exists (if Qle_bool (fill_price msg) avg then loc_avg_col anchor else loc_high_col anchor).
    split; [exact (brokerage_write msg year_now w anchor target row w1 avg
                     Hside Hqty Hanchor Hdate Hrow Havg)|].
    split; intros Hcmp.
    + apply Qle_bool_iff in Hcmp. rewrite Hcmp. reflexivity.
    + destruct (Qle_bool (fill_price msg) avg) eqn:E; [|reflexivity].
      apply Qle_bool_iff in E. exfalso. exact (Qlt_not_le _ _ Hcmp E).
  - intros target_symbol fill w anchor half avg row w1
           Hside Hanchor Hhalf Havg Hfull Hband Hrow.
    exists (if Qlt_bool avg (price fill) then loc_high_col anchor else loc_avg_col anchor).
    split; [exact (upbit_single target_symbol fill w anchor half avg row w1
                     Hside Hanchor Hhalf Havg Hfull Hband Hrow)|].
    split; intros Hcmp.
    + destruct (Qlt_bool avg (price fill)) eqn:E; [|reflexivity].
      apply Qlt_bool_iff in E. exfalso. exact (Qlt_not_le _ _ E Hcmp).
    + apply Qlt_bool_iff in Hcmp. rewrite Hcmp. reflexivity.
Qed.

Lemma first_some_None {A B : Type} (f : A -> option B) (l : list A) :
  (forall x, In x l -> f x = None) -> first_some f l = None.
Proof.
  induction l as [|x l IH]; intros H; simpl; [reflexivity|].
  rewrite (H x) by (left; reflexivity). apply IH. intros y Hy. apply H. right. exact Hy.
Qed.

(** C9, as the code has it: when the anchor cannot be found, an event that reaches
    layout resolution fails with the resolver's error and the ledger is
    untouched: the world after is the world before.  A missing
    total-quantity label is no error: the column falls back to
    [loc_high_col + 4]. *)
Theorem layout_error_leaves_ledger_untouched :
  (forall (msg : FillMessage) (year_now : nat) (w : World) (e : exn),
      trade_side msg = "매수" ->
      Qlt_bool (fill_qty msg) 0 = false ->
      find_header_row_and_columns (get_all_values (sheet w)) = Raise e ->
      process_fill_to_sheet msg year_now w = (Raise e, w))
  /\ (forall (target_symbol : string) (fill : UpbitFill) (w : World) (e : exn),
      side fill = "bid" ->
      find_header_row_and_columns (get_all_values (sheet w)) = Raise e ->
      process_upbit_fill_to_sheet target_symbol fill w = (Raise e, w))
  /\ (forall (values : Grid) (header_row loc_high_col : nat),
      (forall r c, _is_total_qty_label (cell_at values r c) = false) ->
      find_total_qty_column values header_row loc_high_col = (loc_high_col + 4)%nat).
Proof.
  split; [|split].
  - intros msg year_now w e Hside Hqty Hanchor.
    unfold process_fill_to_sheet. rewrite Hside, String.eqb_refl, Hqty. cbn [negb].
    erewrite bind_Ok by reflexivity.
    erewrite bind_Raise by (unfold lift; rewrite Hanchor; reflexivity).
    reflexivity.
  - intros target_symbol fill w e Hside Hanchor.
    unfold process_upbit_fill_to_sheet. rewrite Hside, String.eqb_refl. cbn [negb].
    erewrite bind_Ok by reflexivity.
    erewrite bind_Raise by (unfold lift; rewrite Hanchor; reflexivity).
    reflexivity.
  - intros values hr b Hnone. unfold find_total_qty_column.
    rewrite first_some_None; [reflexivity|].
    intros rr _. destruct (_ || _)%bool; [reflexivity|].
    apply first_some_None. intros c _. rewrite Hnone. reflexivity.
Qed.

(** ** Snapshots and the live sheet *)

Lemma nth_map_seq {A : Type} (f : nat -> A) (n i : nat) (d : A) :
  (i < n)%nat -> nth i (map f (seq 1 n)) d = f (S i).
Proof.
  intros Hi.
  rewrite (nth_indep _ d (f 0%nat)) by (rewrite length_map, length_seq; exact Hi).
  rewrite (map_nth f (seq 1 n) 0%nat i), seq_nth by exact Hi. reflexivity.
Qed.

Lemma length_get_all_values ws : List.length (get_all_values ws) = ws_row_count ws.
Proof. unfold get_all_values. rewrite length_map, length_seq. reflexivity. Qed.

(** A cell that shows text lies within the rows and columns of the snapshot. *)
Lemma shown_cell_in_bounds ws r c :
  acell_value ws r c <> "" -> (r <= ws_row_count ws /\ c <= ws_col_count ws)%nat.
Proof.
  unfold acell_value. destruct (ws_cells ws !! (r, c)) as [v|] eqn:E; [|congruence].
  intros Hv.
  assert (In (r, c) (filled_cells ws)) as Hin.
  { unfold filled_cells. apply in_map_iff. exists ((r, c), v). split; [reflexivity|].
    apply filter_In. split.
    - apply list_elem_of_In, elem_of_map_to_list. exact E.
    - simpl. apply negb_true_iff. apply String.eqb_neq. exact Hv. }
  unfold ws_row_count, ws_col_count. split; apply max_list_elem_of_le, list_elem_of_In.
  - apply (in_map fst) in Hin. exact Hin.
  - apply (in_map snd) in Hin. exact Hin.
Qed.

(** The snapshot shows, cell by cell, what the live sheet shows. *)
Lemma get_all_values_cell ws r c :
  (1 <= r)%nat -> (1 <= c)%nat -> cell_at (get_all_values ws) r c = acell_value ws r c.
Proof.
  intros Hr Hc. destruct r as [|r]; [lia|]. destruct c as [|c]; [lia|].
  unfold cell_at, get_all_values.
  destruct (le_lt_dec (ws_row_count ws) r) as [Hrow|Hrow].
  - rewrite (nth_overflow _ []) by (rewrite length_map, length_seq; exact Hrow).
    rewrite nth_overflow by (simpl; lia).
    destruct (String.eqb_spec (acell_value ws (S r) (S c)) "") as [->|Hne];
      [reflexivity|]. apply shown_cell_in_bounds in Hne. lia.
  - rewrite nth_map_seq by exact Hrow.
    destruct (le_lt_dec (ws_col_count ws) c) as [Hcol|Hcol].
    + rewrite nth_overflow by (rewrite length_map, length_seq; exact Hcol).
      destruct (String.eqb_spec (acell_value ws (S r) (S c)) "") as [->|Hne];
        [reflexivity|]. apply shown_cell_in_bounds in Hne. lia.
    + rewrite nth_map_seq by exact Hcol. reflexivity.
Qed.

Lemma acell_value_update ws r c v r' c' :
  acell_value (sheet_update ws r c v) r' c'
  = if decide ((r, c) = (r', c')) then shown ws v else acell_value ws r' c'.
Proof.
  unfold acell_value, sheet_update; simpl. rewrite lookup_insert.
  destruct (decide ((r, c) = (r', c'))); reflexivity.
Qed.

(** ** Row resolver *)

Lemma find_existing_row_None values dc target rows :
  find_existing_row values dc target rows = Ok None
  <-> Forall (row_passed values dc target) rows.
Proof.
  induction rows as [|r rows IH]; simpl.
  - split; [constructor | reflexivity].
  - rewrite Forall_cons_iff. unfold row_passed at 1.
    destruct (normalize_date_value (cell_at values r dc)) as [[d|]|e|].
    + destruct (date_eqb d target); [|rewrite IH; tauto].
      split; [discriminate | intros [? _]; discriminate].
    + rewrite IH. tauto.
    + split; [discriminate | tauto].
    + split; [discriminate | tauto].
Qed.

Lemma find_existing_row_hit values dc target rows1 r rows2 parsed :
  Forall (row_passed values dc target) rows1 ->
  normalize_date_value (cell_at values r dc) = Ok (Some parsed) ->
  date_eqb parsed target = true ->
  find_existing_row values dc target (rows1 ++ r :: rows2) = Ok (Some r).
Proof.
  intros Hpass Hparse Heq. induction Hpass as [|k rows1 Hk _ IH]; simpl.
  - rewrite Hparse, Heq. reflexivity.
  - unfold row_passed in Hk.
    destruct (normalize_date_value (cell_at values k dc)) as [[d|]|e|]; try contradiction.
    + rewrite Hk. exact IH.
    + exact IH.
Qed.

Lemma first_empty_row_Some ws dc fuel : forall r r',
  first_empty_row ws dc r fuel = Some r' ->
  (r <= r')%nat /\ blank ws r' dc = true
  /\ forall k, (r <= k < r')%nat -> blank ws k dc = false.
Proof.
  induction fuel as [|fuel IH]; intros r r'; simpl; [discriminate|].
  fold (blank ws r dc). destruct (blank ws r dc) eqn:E.
  - intros H; inversion H; subst. repeat split; [lia | exact E | intros k Hk; lia].
  - intros H. apply IH in H as (Hle & Hb & Hbefore).
    repeat split; [lia | exact Hb |].
    intros k Hk. destruct (Nat.eq_dec k r) as [->|Hne]; [exact E | apply Hbefore; lia].
Qed.

Lemma not_blank_shown ws r c : blank ws r c = false -> acell_value ws r c <> "".
Proof. unfold blank. intros H E. rewrite E in H. discriminate. Qed.

(** The live scan comes back: the row after the last one showing text is
    empty, and the fuel reaches it. *)
Lemma first_empty_row_total ws dc fuel : forall r,
  (1 <= fuel)%nat -> (ws_row_count ws + 2 <= r + fuel)%nat ->
  exists r', first_empty_row ws dc r fuel = Some r'.
Proof.
  induction fuel as [|fuel IH]; intros r Hf Hreach; [lia|]. simpl.
  fold (blank ws r dc). destruct (blank ws r dc) eqn:E; [eauto|].
  apply not_blank_shown, shown_cell_in_bounds in E. apply IH; lia.
Qed.

(** Called with any snapshot on any sheet, the row resolver returns a row
    or raises what parsing a date cell raised. *)
Lemma find_or_create_date_row_returns values hr dc target text w :
  fst (find_or_create_date_row values hr dc target text w) <> Diverge.
Proof.
  unfold find_or_create_date_row, lift, ask, ws_update, mbind, M_bind, mret, M_ret.
  assert (forall rows, find_existing_row values dc target rows <> Diverge) as Hnd.
  { induction rows as [|r rows IH]; simpl; [discriminate|].
    destruct (normalize_date_value (cell_at values r dc)) as [[d|]|e|] eqn:E;
      try discriminate; try assumption.
    - destruct (date_eqb d target); [discriminate | assumption].
    - exfalso. revert E. unfold normalize_date_value.
      destruct (String.eqb _ _); [discriminate|].
      destruct (first_some _ _); [discriminate|].
      destruct (match_ymd _) as [[[y m] d]|]; [|discriminate].
      destruct (make_date y m d); discriminate. }
  destruct (find_existing_row values dc target _) as [[r|]|e|] eqn:E.
  - simpl. discriminate.
  - cbv beta iota. unfold id.
    destruct (first_empty_row_total (sheet w) dc (S (ws_row_count (sheet w))) (hr + 1))
      as [r' Hr']; [lia | lia |].
    rewrite Hr'. simpl. discriminate.
  - simpl. discriminate.
  - exfalso. exact (Hnd _ E).
Qed.

Lemma date_eqb_refl d : date_eqb d d = true.
Proof. unfold date_eqb. rewrite !Nat.eqb_refl. reflexivity. Qed.

Lemma py_range_split a r b :
  (a <= r < b)%nat -> py_range a b = py_range a r ++ r :: py_range (r + 1) b.
Proof.
  intros H. unfold py_range.
  replace (b - a)%nat with ((r - a) + S (b - (r + 1)))%nat by lia.
  rewrite seq_app. simpl. do 3 f_equal; lia.
Qed.

Lemma find_or_create_date_row_found values hr dc target text w r :
  find_existing_row values dc target (py_range (hr + 1) (List.length values + 1))
  = Ok (Some r) ->
  find_or_create_date_row values hr dc target text w = (Ok r, w).
Proof.
  intros H. unfold find_or_create_date_row.
  erewrite bind_Ok by (unfold lift; rewrite H; reflexivity). reflexivity.
Qed.

(** After the date has been written into the first empty row, a snapshot
    taken of the sheet shows it there and nowhere above. *)
Lemma refreshed_snapshot_finds ws hr dc target text fuel r :
  (1 <= dc)%nat ->
  normalize_date_value text = Ok (Some target) ->
  find_existing_row (get_all_values ws) dc target
    (py_range (hr + 1) (List.length (get_all_values ws) + 1)) = Ok None ->
  first_empty_row ws dc (hr + 1) fuel = Some r ->
  find_existing_row (get_all_values (sheet_update ws r dc (PStr text))) dc target
    (py_range (hr + 1)
       (List.length (get_all_values (sheet_update ws r dc (PStr text))) + 1))
  = Ok (Some r).
Proof.
  intros Hdc Htext Hnone Hlive.
  apply find_existing_row_None in Hnone. rewrite List.Forall_forall in Hnone.
  apply first_empty_row_Some in Hlive as (Hle & _ & Hbefore).
  set (ws1 := sheet_update ws r dc (PStr text)).
  assert (text <> "") as Hne.
  { intros ->. discriminate Htext. }
  assert (acell_value ws1 r dc = text) as Hcell.
  { unfold ws1. rewrite acell_value_update. rewrite decide_True by reflexivity. reflexivity. }
  assert (r <= ws_row_count ws1)%nat as Hrow.
  { apply (shown_cell_in_bounds ws1 r dc). rewrite Hcell. exact Hne. }
  rewrite length_get_all_values.
  rewrite (py_range_split (hr + 1) r (ws_row_count ws1 + 1)) by lia.
  apply find_existing_row_hit with (parsed := target).
  - apply List.Forall_forall. intros k Hk. apply in_py_range in Hk.
    assert (cell_at (get_all_values ws1) k dc = cell_at (get_all_values ws) k dc) as Hsame.
    { rewrite !get_all_values_cell by lia. unfold ws1. rewrite acell_value_update.
      rewrite decide_False; [reflexivity|]. intros E. inversion E. lia. }
    unfold row_passed. rewrite Hsame. apply Hnone.
    apply in_py_range. rewrite length_get_all_values.
    pose proof (Hbefore k Hk) as Hnb.
    apply not_blank_shown, shown_cell_in_bounds in Hnb. lia.
  - rewrite get_all_values_cell by lia. rewrite Hcell. exact Htext.
  - apply date_eqb_refl.
Qed.

(** C3, as the code has it: [find_or_create_date_row] is idempotent when each call
    gets a snapshot of the sheet as it then is.  If a call on a snapshot of
    the live sheet returns a row, a second call with the same target date,
    on a snapshot read again from the sheet, returns the same row and
    leaves the world as it was: no cell is written. *)
Theorem find_or_create_date_row_idempotent (w w1 : World) (hr dc : nat) (target : date)
    (text : string) (row : nat) :
  (1 <= dc)%nat ->
  normalize_date_value text = Ok (Some target) ->
  find_or_create_date_row (get_all_values (sheet w)) hr dc target text w = (Ok row, w1) ->
  find_or_create_date_row (get_all_values (sheet w1)) hr dc target text w1 = (Ok row, w1).
Proof.
  intros Hdc Htext Hfirst.
  destruct (find_existing_row (get_all_values (sheet w)) dc target
              (py_range (hr + 1) (List.length (get_all_values (sheet w)) + 1)))
    as [[r|]|e|] eqn:Escan.
  - rewrite (find_or_create_date_row_found _ hr dc target text w r Escan) in Hfirst.
    inversion Hfirst; subst. apply find_or_create_date_row_found. exact Escan.
  - revert Hfirst. unfold find_or_create_date_row at 1.
    erewrite bind_Ok by (unfold lift; rewrite Escan; reflexivity). cbv beta iota.
    erewrite bind_Ok by reflexivity. unfold id.
    destruct (first_empty_row (sheet w) dc (hr + 1) (S (ws_row_count (sheet w))))
      as [r|] eqn:Elive; [|discriminate].
    unfold ws_update, mbind, M_bind, mret, M_ret.
    intros Hfirst. inversion Hfirst; subst.
    apply find_or_create_date_row_found. simpl sheet.
    exact (refreshed_snapshot_finds _ hr dc target text _ row Hdc Htext Escan Elive).
  - revert Hfirst. unfold find_or_create_date_row.
    erewrite bind_Raise by (unfold lift; rewrite Escan; reflexivity). discriminate.
  - revert Hfirst. unfold find_or_create_date_row.
    erewrite bind_Diverge by (unfold lift; rewrite Escan; reflexivity). discriminate.
Qed.

(** ** Fetching *)

Lemma Qle_bool_false_lt (x y : Q) : Qle_bool x y = false -> (y < x)%Q.
Proof.
  intros H. apply Qnot_le_lt. intros Hle. apply Qle_bool_iff in Hle. congruence.
Qed.

(** C8, as the code has it: a trade that passes the filters yields a fill only with
    positive quantity and positive amount.  For a market-style buy
    ([ord_type = "price"]) the unit price is amount / quantity, and the
    amount is the reported total (the [price] field) when that is positive.
    For every other order, and for a market-style buy without a positive
    reported total, the amount is the executed funds when positive, else
    price times quantity. *)
Theorem fetch_row_amount (target_date : date) (market_filter market_asset_filter : string)
    (row : RawTrade) (f : UpbitFill) :
  fetch_row target_date market_filter market_asset_filter row = Some f ->
  let q := default 0%Q (executed_volume row) in
  let funds := default 0%Q (executed_funds row) in
  let total := default 0%Q (raw_price row) in
  (0 < q)%Q /\ (0 < amount f)%Q /\ qty f = q /\ side f = "bid"
  /\ (ord_type row = "price" ->
        price f = (amount f / q)%Q /\ ((0 < total)%Q -> amount f = total))
  /\ (ord_type row <> "price" \/ ~ (0 < total)%Q ->
        ((0 < funds)%Q -> amount f = funds)
        /\ (~ (0 < funds)%Q -> amount f = (total * q)%Q)).
Proof.
  intros H q funds total. unfold fetch_row in H.
  fold q funds total in H.
  assert (match done_at row, created_at row with None, None => False | _, _ => True end
          /\ exists trade_dt fid,
               raw_side row = "bid" /\ Qle_bool q 0 = false /\
               let amt := if String.eqb (raw_side row) "bid"
                             && String.eqb (ord_type row) "price" && Qlt_bool 0 total
                          then total
                          else if Qlt_bool 0 funds then funds
                               else if Qlt_bool 0 total then (total * q)%Q else 0%Q in
               Qle_bool amt 0 = false /\
               f = mkUpbitFill fid (raw_market row) trade_dt (raw_side row)
                     (if String.eqb (raw_side row) "bid" && String.eqb (ord_type row) "price"
                      then (amt / q)%Q
                      else if Qlt_bool 0 total then total else (amt / q)%Q)
                     q amt) as [_ (trade_dt & fid & Hside & Hq & Hamt & ->)].
  { destruct (done_at row) as [d|], (created_at row) as [c|]; try discriminate;
      (split; [exact I|]);
      (destruct (date_misses _ _ _); [discriminate|]);
      (destruct (negb (String.eqb (base_asset_of (raw_market row)) "BTC")); [discriminate|]);
      (destruct (_ && _ && _)%bool; [discriminate|]);
      (destruct (String.eqb_spec (raw_side row) "bid") as [Es|Es];
         [|discriminate]);
      cbn [negb] in H;
      (destruct (Qle_bool q 0) eqn:Eq; [discriminate|]);
      rewrite Es in H; rewrite Es;
      match type of H with
      | (if Qle_bool ?a 0 then _ else _) = _ =>
          destruct (Qle_bool a 0) eqn:Ea; [discriminate|]
      end;
      injection H as <-; eexists _, _; repeat split; try reflexivity; exact Ea. }
  clear H. rewrite Hside, String.eqb_refl in *. simpl andb in *. simpl.
  apply Qle_bool_false_lt in Hq.
  split; [exact Hq|]. split; [apply Qle_bool_false_lt; exact Hamt|].
  split; [reflexivity|]. split; [reflexivity|]. split.
  - intros Hord. rewrite Hord, String.eqb_refl in *. simpl. split; [reflexivity|].
    intros Ht. apply Qlt_bool_iff in Ht. rewrite Ht. reflexivity.
  - intros Hcase.
    assert ((String.eqb (ord_type row) "price" && Qlt_bool 0 total)%bool = false) as Hsel.
    { destruct Hcase as [Hord|Ht].
      - apply String.eqb_neq in Hord. rewrite Hord. reflexivity.
      - destruct (Qlt_bool 0 total) eqn:E; [|apply andb_false_r].
        apply Qlt_bool_iff in E. contradiction. }
    rewrite Hsel in *. split.
    + intros Hf. apply Qlt_bool_iff in Hf. rewrite Hf. reflexivity.
    + intros Hf. destruct (Qlt_bool 0 funds) eqn:Ef;
        [apply Qlt_bool_iff in Ef; contradiction|].
      destruct (Qlt_bool 0 total) eqn:Et; [reflexivity|].
      vm_compute in Hamt. discriminate Hamt.
Qed.

Lemma fetch_row_non_btc target_date market_filter market_asset_filter row :
  base_asset_of (raw_market row) <> "BTC" ->
  fetch_row target_date market_filter market_asset_filter row = None.
Proof.
  intros Hne. apply String.eqb_neq in Hne. unfold fetch_row. rewrite Hne. cbn [negb].
  destruct (done_at row), (created_at row); try reflexivity;
    destruct (date_misses _ _ _); reflexivity.
Qed.

Lemma fetch_pages_In api target_date market_filter market_asset_filter pages_left :
  forall page f,
    In f (fetch_pages api target_date market_filter market_asset_filter page pages_left) ->
    exists p row, In row (api p)
      /\ fetch_row target_date market_filter market_asset_filter row = Some f.
Proof.
  induction pages_left as [|n IH]; intros page f Hin; cbn [fetch_pages] in Hin;
    [contradiction|].
  destruct (api page) as [|row0 rows] eqn:Epage; [contradiction|].
  cbv beta iota in Hin.
  apply in_app_or in Hin as [Hin|Hin].
  - apply list_elem_of_In, list_elem_of_omap in Hin as (row & Hrow & Hf).
    exists page, row. rewrite Epage. split; [apply list_elem_of_In; exact Hrow | exact Hf].
  - exact (IH _ _ Hin).
Qed.

(** C10: a trade whose market has a base asset other than BTC never
    becomes a fill, whatever the market filter and the market-asset filter
    are: its row is dropped, and every fill of the fetched list comes from
    a row whose base asset is BTC. *)
Theorem fetch_excludes_non_btc :
  (forall (target_date : date) (market_filter market_asset_filter : string)
          (row : RawTrade),
      base_asset_of (raw_market row) <> "BTC" ->
      fetch_row target_date market_filter market_asset_filter row = None)
  /\ (forall (api : nat -> list RawTrade) (max_pages : nat) (target_date : date)
             (market_filter market_asset_filter : string) (f : UpbitFill),
      In f (fetch_upbit_fills_for_date api max_pages target_date
              market_filter market_asset_filter) ->
      base_asset_of (market f) = "BTC"
      /\ exists page row, In row (api page) /\ raw_market row = market f
           /\ fetch_row target_date market_filter market_asset_filter row = Some f).
Proof.
  split; [exact fetch_row_non_btc|].
  intros api max_pages target_date mf maf f Hin.
  apply fetch_pages_In in Hin as (p & row & Hrow & Hf).
  assert (raw_market row = market f) as Hm.
  { revert Hf. unfold fetch_row.
    repeat match goal with
           | |- context [match ?x with _ => _ end] => destruct x; try discriminate
           end; intros H; inversion H; reflexivity. }
  split.
  - rewrite <- Hm.
    destruct (String.eqb_spec (base_asset_of (raw_market row)) "BTC") as [E|E];
      [exact E|]. rewrite (fetch_row_non_btc _ _ _ _ E) in Hf. discriminate.
  - exists p, row. auto.
Qed.

(** ** Reconciliation *)

Lemma ratio_checks_app t1 t2 : ratio_checks (t1 ++ t2) = ratio_checks t1 ++ ratio_checks t2.
Proof.
  induction t1 as [|[r c v|tag i] t1 IH]; simpl; [reflexivity | exact IH |].
  destruct (String.eqb tag "upbit_ratio_check"); simpl; rewrite IH; reflexivity.
Qed.

Lemma quiet_bind {A B : Type} (m : M A) (k : A -> M B) :
  quiet m -> (forall a, quiet (k a)) -> quiet (m ≫= k).
Proof.
  intros Hm Hk w r w'. unfold mbind, M_bind.
  destruct (m w) as [[a|e|] w1] eqn:E; intros H.
  - rewrite (Hk a _ _ _ H). exact (Hm _ _ _ E).
  - inversion H; subst. exact (Hm _ _ _ E).
  - inversion H; subst. exact (Hm _ _ _ E).
Qed.

Lemma quiet_pure {A : Type} (m : M A) : (forall w, snd (m w) = w) -> quiet m.
Proof. intros H w r w' E. specialize (H w). rewrite E in H. simpl in H. subst. reflexivity. Qed.

Lemma quiet_ret {A : Type} (a : A) : quiet (mret a).
Proof. apply quiet_pure. reflexivity. Qed.

Lemma quiet_ws_update r c v : quiet (ws_update r c v).
Proof.
  intros w x w' H. inversion H; subst. simpl. rewrite ratio_checks_app. simpl.
  apply app_nil_r.
Qed.

Lemma quiet_log tag i : String.eqb tag "upbit_ratio_check" = false -> quiet (log tag i).
Proof.
  intros Htag w x w' H. inversion H; subst. simpl. rewrite ratio_checks_app. simpl.
  rewrite Htag. apply app_nil_r.
Qed.

Lemma quiet_find_or_create_date_row values hr dc target text :
  quiet (find_or_create_date_row values hr dc target text).
Proof.
  unfold find_or_create_date_row.
  apply quiet_bind; [apply quiet_pure; reflexivity|]. intros [r|]; [apply quiet_ret|].
  apply quiet_bind; [apply quiet_pure; reflexivity|]. intros ws.
  destruct (first_empty_row _ _ _ _); [|apply quiet_pure; reflexivity].
  apply quiet_bind; [apply quiet_ws_update | intros; apply quiet_ret].
Qed.

Lemma quiet_get_fill_result_for_row r c s : quiet (get_fill_result_for_row r c s).
Proof. apply quiet_pure. apply get_fill_result_for_row_reads. Qed.

(** Past its ratio check the exchange path logs no further one. *)
Lemma process_upbit_fill_to_sheet_check target_symbol fill w res w' :
  side fill = "bid" ->
  process_upbit_fill_to_sheet target_symbol fill w = (Ok res, w') ->
  ratio_checks (trace w') = ratio_checks (trace w) ++ [fill_id fill].
Proof.
  intros Hside Hrun.
  destruct (find_header_row_and_columns (get_all_values (sheet w))) as [anchor|e|] eqn:Ha;
    [| revert Hrun; unfold process_upbit_fill_to_sheet;
       rewrite Hside, String.eqb_refl; cbn [negb];
       erewrite bind_Ok by reflexivity;
       (erewrite bind_Raise by (unfold lift; rewrite Ha; reflexivity))
       || (erewrite bind_Diverge by (unfold lift; rewrite Ha; reflexivity));
       discriminate ..].
  destruct (get_numeric_cell_value (sheet w) 3 2) as [half|e|] eqn:Hh;
    [| revert Hrun; unfold process_upbit_fill_to_sheet;
       rewrite Hside, String.eqb_refl; cbn [negb];
       erewrite bind_Ok by reflexivity;
       erewrite bind_Ok by (unfold lift; rewrite Ha; reflexivity);
       (erewrite bind_Raise
          by (unfold read_numeric, B3; simpl; rewrite Hh; reflexivity))
       || (erewrite bind_Diverge
             by (unfold read_numeric, B3; simpl; rewrite Hh; reflexivity));
       discriminate ..].
  destruct (get_numeric_cell_value (sheet w) 6 18) as [avg|e|] eqn:Hv;
    [| revert Hrun; unfold process_upbit_fill_to_sheet;
       rewrite Hside, String.eqb_refl; cbn [negb];
       erewrite bind_Ok by reflexivity;
       erewrite bind_Ok by (unfold lift; rewrite Ha; reflexivity);
       erewrite bind_Ok by (unfold read_numeric, B3; simpl; rewrite Hh; reflexivity);
       (erewrite bind_Raise
          by (unfold read_numeric, R6; simpl; rewrite Hv; reflexivity))
       || (erewrite bind_Diverge
             by (unfold read_numeric, R6; simpl; rewrite Hv; reflexivity));
       discriminate ..].
  revert Hrun. upbit_prefix Hside Ha Hh Hv. intros Hrun.
  match type of Hrun with
  | ?rest _ = _ => assert (quiet rest) as Hq
  end.
  { apply quiet_bind.
    - destruct (in_band _); [|destruct (in_band _)].
      + apply quiet_bind; [apply quiet_find_or_create_date_row|]. intros r.
        repeat (apply quiet_bind;
                [first [apply quiet_ws_update | apply quiet_log; reflexivity]|]; intros _).
        apply quiet_ret.
      + apply quiet_bind; [apply quiet_find_or_create_date_row|]. intros r.
        repeat (apply quiet_bind;
                [first [apply quiet_ws_update | apply quiet_log; reflexivity]|]; intros _).
        apply quiet_ret.
      + apply quiet_bind; [apply quiet_log; reflexivity | intros _; apply quiet_ret].
    - intros [r|]; [|apply quiet_ret].
      apply quiet_bind; [apply quiet_get_fill_result_for_row | intros; apply quiet_ret]. }
  rewrite (Hq _ _ _ Hrun). simpl. apply ratio_checks_app.
Qed.

Lemma fetch_row_bid target_date market_filter market_asset_filter row f :
  fetch_row target_date market_filter market_asset_filter row = Some f -> side f = "bid".
Proof.
  unfold fetch_row.
  destruct (String.eqb_spec (raw_side row) "bid") as [Es|Es].
  - repeat match goal with
           | |- context [match ?x with _ => _ end] => destruct x; try discriminate
           end; intros H; inversion H; exact Es.
  - cbn [negb].
    repeat match goal with
           | |- context [match ?x with _ => _ end] => destruct x; try discriminate
           end.
Qed.

Lemma insert_sorted_Permutation {A : Type} (leb : A -> A -> bool) x l :
  Permutation (insert_sorted leb x l) (x :: l).
Proof.
  induction l as [|y l IH]; simpl; [reflexivity|].
  destruct (leb x y); [reflexivity|].
  rewrite IH. apply perm_swap.
Qed.

Lemma py_sorted_Permutation {A : Type} (leb : A -> A -> bool) l :
  Permutation (py_sorted leb l) l.
Proof.
  induction l as [|x l IH]; simpl; [reflexivity|].
  rewrite insert_sorted_Permutation. constructor. exact IH.
Qed.

Lemma insert_sorted_Sorted {A : Type} (leb : A -> A -> bool) x l :
  (forall a b, leb a b = true \/ leb b a = true) ->
  Sorted (fun a b => leb a b = true) l ->
  Sorted (fun a b => leb a b = true) (insert_sorted leb x l).
Proof.
  intros Htotal Hs. induction Hs as [|y l Hs IH Hhd]; simpl.
  - repeat constructor.
  - destruct (leb x y) eqn:E.
    + repeat constructor; assumption.
    + constructor; [exact IH|].
      assert (leb y x = true) as Hyx by (destruct (Htotal x y); congruence).
      destruct Hhd as [|z l Hyz]; simpl; [constructor; exact Hyx|].
      destruct (leb x z); constructor; assumption.
Qed.

Lemma py_sorted_Sorted {A : Type} (leb : A -> A -> bool) l :
  (forall a b, leb a b = true \/ leb b a = true) ->
  Sorted (fun a b => leb a b = true) (py_sorted leb l).
Proof.
  intros Htotal. induction l as [|x l IH]; simpl; [constructor|].
  apply insert_sorted_Sorted; assumption.
Qed.


(** What a completed pass of the loop leaves behind. *)
Lemma sync_loop_Ok upbit_sheet_symbol fills : forall st w st' w',
  (forall f, In f fills -> side f = "bid") ->
  sync_loop upbit_sheet_symbol fills st w = (Ok st', w') ->
  processed_ids st' = list_to_set (map fill_id fills) ∪ processed_ids st
  /\ processed_count st' = (processed_count st + List.length fills)%nat
  /\ ratio_checks (trace w') = ratio_checks (trace w) ++ map fill_id fills.
Proof.
  induction fills as [|fill fills IH]; intros st w st' w' Hbid Hrun.
  - inversion Hrun; subst. simpl. rewrite app_nil_r.
    repeat split; [|lia].
    apply set_eq. intros i. rewrite elem_of_union, elem_of_empty. tauto.
  - simpl in Hrun. unfold mbind at 1, M_bind at 1 in Hrun.
    destruct (process_upbit_fill_to_sheet upbit_sheet_symbol fill w)
      as [[res|e|] w1] eqn:Estep; try discriminate.
    apply IH in Hrun as (Hids & Hcount & Hchecks);
      [|intros f Hf; apply Hbid; right; exact Hf].
    apply process_upbit_fill_to_sheet_check in Estep; [|apply Hbid; left; reflexivity].
    simpl in Hids, Hcount. simpl.
    repeat split.
    + rewrite Hids. apply set_eq. intros i. rewrite !elem_of_union. tauto.
    + lia.
    + rewrite Hchecks, Estep, <- app_assoc. reflexivity.
Qed.

Lemma forwarded_fills_Permutation state_ids explicit_date (fills : list UpbitFill) :
  Permutation (forwarded_fills state_ids explicit_date fills)
    (if explicit_date then fills
     else List.filter (fun f => bool_decide (fill_id f ∉ (list_to_set state_ids : gset string)))
            fills).
Proof. unfold forwarded_fills. apply py_sorted_Permutation. Qed.

Lemma forwarded_fills_In state_ids explicit_date (fills : list UpbitFill) f :
  In f (forwarded_fills state_ids explicit_date fills) -> In f fills.
Proof.
  intros H. apply (Permutation_in _ (forwarded_fills_Permutation _ _ _)) in H.
  destruct explicit_date; [exact H|]. apply filter_In in H. tauto.
Qed.

Lemma fetched_fills_bid api max_pages target_date market_filter market_asset_filter f :
  In f (fetch_upbit_fills_for_date api max_pages target_date market_filter
          market_asset_filter) ->
  side f = "bid".
Proof.
  intros H. apply fetch_pages_In in H as (p & row & _ & Hf).
  exact (fetch_row_bid _ _ _ _ _ Hf).
Qed.

Lemma run_upbit_sync_once_Ok state_ids api max_pages target_date upbit_market
    upbit_market_asset upbit_sheet_symbol explicit_date w pc wc last ids' w' :
  run_upbit_sync_once state_ids api max_pages target_date upbit_market upbit_market_asset
    upbit_sheet_symbol explicit_date w = (Ok (pc, wc, last, ids'), w') ->
  let forwarded :=
    forwarded_fills state_ids explicit_date
      (fetch_upbit_fills_for_date api max_pages target_date upbit_market
         upbit_market_asset) in
  pc = List.length forwarded
  /\ ratio_checks (trace w') = ratio_checks (trace w) ++ map fill_id forwarded
  /\ ids' = last_n 1000
              (py_sorted String.leb
                 (elements (list_to_set (map fill_id forwarded) ∪ list_to_set state_ids
                            : gset string))).
Proof.
  intros Hrun forwarded. unfold run_upbit_sync_once in Hrun.
  fold forwarded in Hrun. unfold mbind, M_bind in Hrun.
  destruct (sync_loop upbit_sheet_symbol forwarded _ w) as [[st|e|] w1] eqn:Eloop;
    try discriminate.
  inversion Hrun; subst. clear Hrun.
  apply sync_loop_Ok in Eloop as (Hids & Hcount & Hchecks).
  - simpl in Hids, Hcount. rewrite Hids. repeat split; [lia | exact Hchecks].
  - intros f Hf. apply forwarded_fills_In in Hf. exact (fetched_fills_bid _ _ _ _ _ _ Hf).
Qed.




(** * Further facts

    Properties of the rest of the program, numbered X1 onwards. *)

(** ** Anchor resolver *)

Lemma cell_at_in_grid (values : Grid) r c :
  cell_at values r c <> "" ->
  (1 <= r <= List.length values /\ 1 <= c <= List.length (nth (r - 1) values []))%nat.
Proof.
  intros H. destruct r as [|r]; [exfalso; apply H; reflexivity|].
  destruct c as [|c]; [exfalso; apply H; reflexivity|].
  simpl in H. replace (S r - 1)%nat with r by lia.
  assert (c < List.length (nth r values []))%nat as Hc.
  { destruct (Nat.lt_ge_cases c (List.length (nth r values []))) as [?|Hge]; [assumption|].
    exfalso. apply H. apply nth_overflow. exact Hge. }
  assert (r < List.length values)%nat as Hr.
  { destruct (Nat.lt_ge_cases r (List.length values)) as [?|Hge]; [assumption|].
    rewrite (nth_overflow values [] Hge) in Hc. simpl in Hc. lia. }
  simpl. lia.
Qed.

Lemma label_in_grid (p : string -> bool) (values : Grid) r c :
  p "" = false -> p (cell_at values r c) = true ->
  (1 <= r <= List.length values /\ 1 <= c <= List.length (nth (r - 1) values []))%nat.
Proof.
  intros H0 H. apply cell_at_in_grid. intros E. rewrite E, H0 in H. discriminate.
Qed.

Lemma label_in_grid_cols (p : string -> bool) (values : Grid) r c :
  p "" = false -> p (cell_at values r c) = true ->
  (1 <= r <= List.length values /\ 1 <= c <= max_col values)%nat.
Proof.
  intros H0 H. destruct (label_in_grid p values r c H0 H) as [Hr Hc].
  split; [exact Hr|]. pose proof (row_length_le_max_col values r Hr). lia.
Qed.

(** What phase 2 returns: the first zone labels of the whole grid, a date
    label on some row, and the lowest of the three rows. *)
Lemma label_first_scan_located values anchor :
  label_first_scan values = Some anchor ->
  exists rd ra rb,
    _is_date_label (cell_at values rd (date_col anchor)) = true
    /\ find_label _is_loc_avg_label values
         (grid_cells values (py_range 1 (List.length values + 1))) = Some (ra, loc_avg_col anchor)
    /\ find_label _is_loc_high_label values
         (grid_cells values (py_range 1 (List.length values + 1))) = Some (rb, loc_high_col anchor)
    /\ header_row anchor = Nat.max rd (Nat.max ra rb)
    /\ (rd = ra \/ rd = ra - 1 \/ rd = ra + 1 \/ rd = rb \/ rd = rb - 1 \/ rd = rb + 1)%nat.
Proof.
  unfold label_first_scan. intros H.
  destruct (label_scan_rows_spec values (py_range 1 (List.length values + 1))
              (mkLabelState None None)) as [Ha Hh].
  simpl in Ha, Hh.
  destruct (avg_at _) as [[ra a]|]; [|discriminate].
  destruct (high_at _) as [[rb b]|]; [|discriminate].
  apply first_some_Some in H as (base & Hbase & H).
  apply first_some_Some in H as (rr & Hrr & H).
  destruct (_ || _)%bool; [discriminate|].
  apply first_some_Some in H as (c & _ & H).
  destruct (_is_date_label _) eqn:Hd; [|discriminate].
  injection H as <-. simpl. exists rr, ra, rb.
  repeat split; auto.
  simpl in Hbase, Hrr. intuition subst; auto 10.
Qed.

(** X1: an anchor the resolver returns is backed by the grid.  Its date
    column holds a date label, its zone-A column a zone-A label and its
    zone-B column a zone-B label, each on a row of the grid; the header row
    is the lowest of these three rows; and all four coordinates lie inside
    the grid (rows between 1 and the number of rows, columns between 1 and
    the width of the widest row). *)
Theorem anchor_labels_located (values : Grid) (anchor : Anchor) :
  find_header_row_and_columns values = Ok anchor ->
  exists rd ra rb,
    _is_date_label (cell_at values rd (date_col anchor)) = true
    /\ _is_loc_avg_label (cell_at values ra (loc_avg_col anchor)) = true
    /\ _is_loc_high_label (cell_at values rb (loc_high_col anchor)) = true
    /\ header_row anchor = Nat.max rd (Nat.max ra rb)
    /\ (1 <= rd <= List.length values /\ 1 <= ra <= List.length values
        /\ 1 <= rb <= List.length values)%nat
    /\ (1 <= date_col anchor <= max_col values
        /\ 1 <= loc_avg_col anchor <= max_col values
        /\ 1 <= loc_high_col anchor <= max_col values)%nat.
Proof.
  intros H.
  assert (exists rd ra rb,
    _is_date_label (cell_at values rd (date_col anchor)) = true
    /\ _is_loc_avg_label (cell_at values ra (loc_avg_col anchor)) = true
    /\ _is_loc_high_label (cell_at values rb (loc_high_col anchor)) = true
    /\ header_row anchor = Nat.max rd (Nat.max ra rb)) as (rd & ra & rb & Hd & Ha & Hb & Hh).
  { unfold find_header_row_and_columns in H.
    destruct values as [|row0 rest]; [discriminate|].
    destruct (date_first_scan (row0 :: rest)) as [a1|] eqn:H1.
    - injection H as ->.
      apply date_first_scan_Some in H1 as (r & _ & Hd & Hw).
      rewrite scan_window_spec in Hw. unfold window_answer in Hw.
      destruct (find_label _is_loc_avg_label _ _) as [[ra a]|] eqn:Ea; [|discriminate].
      destruct (find_label _is_loc_high_label _ _) as [[rb b]|] eqn:Eb; [|discriminate].
      injection Hw as <-. simpl in *.
      apply find_label_Some in Ea as [_ Ea]. apply find_label_Some in Eb as [_ Eb].
      exists r, ra, rb. auto.
    - destruct (label_first_scan (row0 :: rest)) as [a2|] eqn:H2; [|discriminate].
      injection H as ->.
      apply label_first_scan_located in H2 as (rd & ra & rb & Hd & Ea & Eb & Hh & _).
      apply find_label_Some in Ea as [_ Ea]. apply find_label_Some in Eb as [_ Eb].
      exists rd, ra, rb. auto. }
  exists rd, ra, rb.
  pose proof (label_in_grid_cols _ values _ _ eq_refl Hd).
  pose proof (label_in_grid_cols _ values _ _ eq_refl Ha).
  pose proof (label_in_grid_cols _ values _ _ eq_refl Hb).
  repeat split; try assumption; lia.
Qed.

Lemma first_some_None_inv {A B : Type} (f : A -> option B) (l : list A) :
  first_some f l = None -> forall x, In x l -> f x = None.
Proof.
  induction l as [|y l IH]; simpl; [tauto|].
  destruct (f y) eqn:E; [discriminate|].
  intros H x [<-|Hx]; auto.
Qed.

Lemma first_some_defined {A B : Type} (f : A -> option B) (l : list A) x b :
  In x l -> f x = Some b -> exists b', first_some f l = Some b'.
Proof.
  intros Hx Hf. destruct (first_some f l) as [b'|] eqn:E; [eauto|].
  rewrite (first_some_None_inv f l E x Hx) in Hf. discriminate.
Qed.

Lemma find_label_defined p values cells rc :
  In rc cells -> p (cell_at values (fst rc) (snd rc)) = true ->
  exists rc', find_label p values cells = Some rc'.
Proof.
  intros Hin Hp. unfold find_label.
  destruct (List.find _ cells) as [rc'|] eqn:E; [eauto|].
  pose proof (find_none _ _ E rc Hin) as Hn. simpl in Hn. rewrite Hp in Hn. discriminate.
Qed.

(** X2: the resolver succeeds whenever some date label has a zone-A label
    and a zone-B label inside its window: the date-first phase then
    returns an anchor, and [find_header_row_and_columns] returns that
    anchor without raising. *)
Theorem date_window_resolves (values : Grid) (r c ra a rb b : nat) :
  _is_date_label (cell_at values r c) = true ->
  In (ra, a) (window values r c) -> _is_loc_avg_label (cell_at values ra a) = true ->
  In (rb, b) (window values r c) -> _is_loc_high_label (cell_at values rb b) = true ->
  exists anchor,
    date_first_scan values = Some anchor
    /\ find_header_row_and_columns values = Ok anchor.
Proof.
  intros Hd Hina Ha Hinb Hb.
  destruct (label_in_grid _ values r c eq_refl Hd) as [Hr Hc].
  destruct (find_label_defined _is_loc_avg_label values _ (ra, a) Hina Ha) as [[ra' a'] Ea].
  destruct (find_label_defined _is_loc_high_label values _ (rb, b) Hinb Hb) as [[rb' b'] Eb].
  assert (exists anchor, date_first_scan values = Some anchor) as [anchor E].
  { edestruct (first_some_defined
                 (fun c0 => if _is_date_label (cell_at values r c0)
                            then scan_window values r c0 else None)
                 (py_range 1 (List.length (nth (r - 1) values []) + 1)) c) as [x Hx].
    - apply in_py_range. lia.
    - rewrite Hd, scan_window_spec, Ea, Eb. reflexivity.
    - unfold date_first_scan.
      apply (first_some_defined _ _ r x); [apply in_py_range; lia | exact Hx]. }
  exists anchor. split; [exact E|].
  unfold find_header_row_and_columns. rewrite E.
  destruct values; [simpl in Hr; lia | reflexivity].
Qed.

(** In a [for ... in range(a, b)] loop with a [return], the iteration that
    returns is the first one that could. *)
Lemma first_some_range_least {B : Type} (f : nat -> option B) a b0 (b : B) :
  first_some f (py_range a b0) = Some b ->
  forall y, In y (py_range a b0) -> f y <> None ->
  exists x, (x <= y)%nat /\ f x = Some b.
Proof.
  unfold py_range. generalize (b0 - a)%nat as n. intros n. revert a.
  induction n as [|n IH]; intros a H y Hy Hf; [destruct Hy|].
  simpl in H, Hy. destruct (f a) as [b'|] eqn:E.
  - injection H as <-. exists a. split; [|exact E].
    destruct Hy as [<-|Hy]; [lia|]. apply in_seq in Hy. lia.
  - destruct Hy as [<-|Hy]; [congruence|]. apply (IH (S a) H y Hy Hf).
Qed.

(** X3: the total-quantity column is either a column that holds a
    total-quantity label on the header row or on a row next to it, or the
    fallback [loc_high_col + 4], and the fallback is taken only when none
    of these three rows holds such a label in any column.  A label on the
    header row itself wins, and of several the leftmost. *)
Theorem find_total_qty_column_located (values : Grid) (hr b : nat) :
  ((exists rr, beside_header hr rr
      /\ _is_total_qty_label (cell_at values rr (find_total_qty_column values hr b)) = true)
   \/ (find_total_qty_column values hr b = (b + 4)%nat
       /\ forall rr cc, beside_header hr rr ->
                        _is_total_qty_label (cell_at values rr cc) = false))
  /\ (forall cc, _is_total_qty_label (cell_at values hr cc) = true ->
        _is_total_qty_label (cell_at values hr (find_total_qty_column values hr b)) = true
        /\ (find_total_qty_column values hr b <= cc)%nat).
Proof.
  set (near := beside_header hr).
  unfold find_total_qty_column.
  set (inner := fun rr : nat =>
         if ((rr <? 1) || (List.length values <? rr))%nat then None
         else first_some
                (fun c => if _is_total_qty_label (cell_at values rr c) then Some c else None)
                (py_range 1 (List.length (nth (rr - 1) values []) + 1))).
  assert (Hsome : forall rr c, inner rr = Some c ->
            _is_total_qty_label (cell_at values rr c) = true
            /\ forall cc, _is_total_qty_label (cell_at values rr cc) = true -> (c <= cc)%nat).
  { intros rr c Hi. unfold inner in Hi.
    destruct (_ || _)%bool; [discriminate|].
    split.
    - apply first_some_Some in Hi as (c' & _ & Hc').
      destruct (_is_total_qty_label (cell_at values rr c')) eqn:El; [|discriminate].
      injection Hc' as <-. exact El.
    - intros cc Hcc.
      destruct (label_in_grid _ values rr cc eq_refl Hcc) as [_ Hb].
      destruct (first_some_range_least _ _ _ _ Hi cc) as (x & Hle & Hx).
      + apply in_py_range. lia.
      + rewrite Hcc. discriminate.
      + destruct (_is_total_qty_label (cell_at values rr x)); [|discriminate].
        injection Hx as <-. exact Hle. }
  assert (Hnone : forall rr, inner rr = None ->
            forall cc, _is_total_qty_label (cell_at values rr cc) = false).
  { intros rr Hi cc. destruct (_is_total_qty_label (cell_at values rr cc)) eqn:El; [|reflexivity].
    destruct (label_in_grid _ values rr cc eq_refl El) as [Hr Hc].
    unfold inner in Hi.
    replace ((rr <? 1) || (List.length values <? rr))%nat with false in Hi.
    2:{ symmetry. apply orb_false_iff. split; apply Nat.ltb_ge; lia. }
    pose proof (first_some_None_inv _ _ Hi cc) as Hn. cbv beta in Hn.
    rewrite El in Hn. discriminate Hn. apply in_py_range. lia. }
  split.
  - destruct (first_some inner _) as [c|] eqn:E.
    + left. apply first_some_Some in E as (rr & Hin & Hi).
      exists rr. split.
      * simpl in Hin. unfold near, beside_header. intuition.
      * apply Hsome. exact Hi.
    + right. split; [reflexivity|].
      intros rr cc Hnear. apply Hnone.
      apply (first_some_None_inv _ _ E). simpl. unfold near, beside_header in Hnear. intuition.
  - intros cc Hcc. simpl.
    destruct (inner hr) as [c|] eqn:Ei.
    + destruct (Hsome hr c Ei) as [H1 H2]. split; [exact H1 | apply H2, Hcc].
    + rewrite (Hnone hr Ei cc) in Hcc. discriminate.
Qed.

(** ** Label matcher *)

Lemma remove_spaces_lstrip s : Text.remove_spaces (Text.lstrip s) = Text.remove_spaces s.
Proof.
  induction s as [|a s IH]; simpl; [reflexivity|].
  destruct (Text.is_space a) eqn:E; [exact IH|]. simpl. rewrite E. reflexivity.
Qed.

Lemma remove_spaces_rstrip s : Text.remove_spaces (Text.rstrip s) = Text.remove_spaces s.
Proof.
  induction s as [|a s IH]; simpl; [reflexivity|].
  destruct (Text.rstrip s) as [|b r] eqn:Er.
  - simpl in IH. rewrite <- IH.
    destruct (Text.is_space a) eqn:E; simpl; rewrite ?E; reflexivity.
  - rewrite <- IH. cbn [Text.remove_spaces]. reflexivity.
Qed.

Lemma is_space_lower_ascii a : Text.is_space (Text.lower_ascii a) = Text.is_space a.
Proof. destruct a as [[] [] [] [] [] [] [] []]; vm_compute; reflexivity. Qed.

Lemma remove_spaces_lower s :
  Text.remove_spaces (Text.lower s) = Text.lower (Text.remove_spaces s).
Proof.
  unfold Text.lower. induction s as [|a s IH]; simpl; [reflexivity|].
  rewrite is_space_lower_ascii. destruct (Text.is_space a); simpl; rewrite IH; reflexivity.
Qed.

(** The normal form of a label: lower case, no white space anywhere. *)
Lemma _norm_label_flat text :
  _norm_label text = Text.remove_spaces (Text.lower text).
Proof.
  unfold _norm_label, Text.strip.
  rewrite !remove_spaces_lower, remove_spaces_rstrip, remove_spaces_lstrip. reflexivity.
Qed.

(** X4: label matching ignores ASCII letter case and white space, leading,
    trailing or inside the text: two cell texts that agree once lower-cased
    and freed of white space are classified alike by all four label
    tests. *)
Theorem label_matching_ignores_case_and_space (s t : string) :
  Text.remove_spaces (Text.lower s) = Text.remove_spaces (Text.lower t) ->
  _is_date_label s = _is_date_label t
  /\ _is_loc_avg_label s = _is_loc_avg_label t
  /\ _is_loc_high_label s = _is_loc_high_label t
  /\ _is_total_qty_label s = _is_total_qty_label t.
Proof.
  intros H. rewrite <- !_norm_label_flat in H.
  unfold _is_date_label, _is_loc_avg_label, _is_loc_high_label, _is_total_qty_label.
  rewrite H. auto.
Qed.

Lemma prefix_app_l a b s : String.prefix (a ++ b) s = true -> String.prefix a s = true.
Proof.
  revert s. induction a as [|x a IH]; intros s H; [destruct s; reflexivity|].
  destruct s as [|y s]; [discriminate|]. simpl in *.
  destruct (Ascii.ascii_dec x y); [|discriminate]. apply IH, H.
Qed.

Lemma contains_cons sub a s : Text.contains sub s = true -> Text.contains sub (String a s) = true.
Proof. intros H. cbn [Text.contains]. rewrite H. apply orb_true_r. Qed.

Lemma prefix_contains sub s : String.prefix sub s = true -> Text.contains sub s = true.
Proof. intros H. destruct s; cbn [Text.contains]; rewrite H; reflexivity. Qed.

Lemma prefix_app_r a b s : String.prefix (a ++ b) s = true -> Text.contains b s = true.
Proof.
  revert s. induction a as [|x a IH]; intros s H; [apply prefix_contains, H|].
  destruct s as [|y s]; [discriminate|]. simpl in H.
  destruct (Ascii.ascii_dec x y); [|discriminate]. apply contains_cons, IH, H.
Qed.

Lemma contains_app a b s :
  Text.contains (a ++ b) s = true -> Text.contains a s = true /\ Text.contains b s = true.
Proof.
  induction s as [|y s IH]; cbn [Text.contains]; intros H.
  - rewrite orb_false_r in H. split.
    + rewrite (prefix_app_l _ _ _ H). reflexivity.
    + apply (prefix_app_r a b "") in H. cbn [Text.contains] in H. exact H.
  - apply orb_true_iff in H as [H|H].
    + split; [rewrite (prefix_app_l _ _ _ H); reflexivity|].
      apply (prefix_app_r a b (String y s)) in H. cbn [Text.contains] in H. exact H.
    + destruct (IH H) as [Ha Hb]. rewrite Ha, Hb, !orb_true_r. auto.
Qed.

(** X5: a cell is a zone-A label exactly when its normal form contains
    both "loc" and the word for the average, in any order and with
    anything between them; likewise zone B with the word for the high
    price.  (The test for the two words written together adds nothing.) *)
Theorem zone_label_words_in_any_order (text : string) :
  let n := _norm_label text in
  (_is_loc_avg_label text = true
   <-> Text.contains "loc" n = true /\ Text.contains "평단" n = true)
  /\ (_is_loc_high_label text = true
      <-> Text.contains "loc" n = true /\ Text.contains "고가" n = true).
Proof.
  intros n. unfold _is_loc_avg_label, _is_loc_high_label. fold n.
  split; (split; [intros H | intros [H1 H2]; rewrite H1, H2; apply orb_true_r]).
  - apply orb_true_iff in H as [H|H]; [|apply andb_true_iff, H].
    apply (contains_app "loc" "평단"), H.
  - apply orb_true_iff in H as [H|H]; [|apply andb_true_iff, H].
    apply (contains_app "loc" "고가"), H.
Qed.

(** ** Numbers *)





(** ** Summary cells *)





(** ** Row resolver *)

Lemma normalize_date_value_returns value : normalize_date_value value <> Diverge.
Proof.
  unfold normalize_date_value.
  destruct (String.eqb _ ""); [discriminate|].
  destruct (first_some _ _); [discriminate|].
  destruct (match_ymd _) as [[[y m] d]|]; [|discriminate].
  destruct (make_date y m d); discriminate.
Qed.

(** What the snapshot scan over rows [a .. a+n-1] answers, case by case. *)
Lemma find_existing_row_scan values dc target n : forall a,
  match find_existing_row values dc target (seq a n) with
  | Ok (Some r) =>
      (a <= r < a + n)%nat /\ row_hit values dc target r
      /\ forall k, (a <= k < r)%nat -> row_passed values dc target k
  | Ok None => forall k, (a <= k < a + n)%nat -> row_passed values dc target k
  | Raise e =>
      exists r, (a <= r < a + n)%nat
        /\ normalize_date_value (cell_at values r dc) = Raise e
        /\ forall k, (a <= k < r)%nat -> row_passed values dc target k
  | Diverge => False
  end.
Proof.
  induction n as [|n IH]; intros a; cbn [seq find_existing_row].
  - intros k Hk. lia.
  - specialize (IH (S a)).
    assert (Hstep : row_passed values dc target a ->
      match find_existing_row values dc target (seq (S a) n) with
      | Ok (Some r) =>
          (a <= r < a + S n)%nat /\ row_hit values dc target r
          /\ forall k, (a <= k < r)%nat -> row_passed values dc target k
      | Ok None => forall k, (a <= k < a + S n)%nat -> row_passed values dc target k
      | Raise e =>
          exists r, (a <= r < a + S n)%nat
            /\ normalize_date_value (cell_at values r dc) = Raise e
            /\ forall k, (a <= k < r)%nat -> row_passed values dc target k
      | Diverge => False
      end).
    { intros Ha.
      assert (Hk : forall r, (forall k, (S a <= k < r)%nat -> row_passed values dc target k) ->
                   forall k, (a <= k < r)%nat -> row_passed values dc target k).
      { intros r H k Hk. destruct (Nat.eq_dec k a) as [->|]; [exact Ha | apply H; lia]. }
      destruct (find_existing_row values dc target (seq (S a) n)) as [[r|]|e|].
      - destruct IH as (Hr & Hhit & Hp). split; [lia|]. split; [exact Hhit | apply Hk, Hp].
      - apply Hk. intros k Hk'. apply IH. lia.
      - destruct IH as (r & Hr & He & Hp). exists r. split; [lia|]. split; [exact He | apply Hk, Hp].
      - exact IH. }
    unfold row_passed in Hstep at 1.
    destruct (normalize_date_value (cell_at values a dc)) as [[parsed|]|e|] eqn:En.
    + destruct (date_eqb parsed target) eqn:Ed.
      * split; [lia|]. split; [exists parsed; auto | intros k Hk; lia].
      * apply Hstep. reflexivity.
    + apply Hstep. exact I.
    + exists a. split; [lia|]. split; [exact En | intros k Hk; lia].
    + exact (normalize_date_value_returns _ En).
Qed.

Lemma row_passed_not_hit values dc target r :
  row_passed values dc target r -> row_hit values dc target r -> False.
Proof.
  unfold row_passed. intros Hp (parsed & Hn & Hd). rewrite Hn in Hp. congruence.
Qed.

Lemma row_passed_not_raise values dc target r e :
  row_passed values dc target r -> normalize_date_value (cell_at values r dc) = Raise e -> False.
Proof. unfold row_passed. intros Hp Hn. rewrite Hn in Hp. exact Hp. Qed.

(** The scan raises exactly at the first row it cannot pass, when that row
    raises. *)
Lemma find_existing_row_raise values dc target a b e :
  find_existing_row values dc target (py_range a b) = Raise e
  <-> exists r, (a <= r < b)%nat
        /\ normalize_date_value (cell_at values r dc) = Raise e
        /\ forall k, (a <= k < r)%nat -> row_passed values dc target k.
Proof.
  unfold py_range. pose proof (find_existing_row_scan values dc target (b - a) a) as H.
  split.
  - intros E. rewrite E in H. destruct H as (r & Hr & He & Hp). exists r. split; [lia | auto].
  - intros (r & Hr & He & Hp).
    destruct (find_existing_row values dc target (seq a (b - a))) as [[r'|]|e'|].
    + destruct H as (Hr' & Hhit & Hp'). exfalso.
      destruct (Nat.lt_trichotomy r r') as [Hlt|[->|Hgt]].
      * apply (row_passed_not_raise _ _ _ _ _ (Hp' r ltac:(lia)) He).
      * destruct Hhit as (p & Hn & _). congruence.
      * apply (row_passed_not_hit _ _ _ _ (Hp r' ltac:(lia)) Hhit).
    + exfalso. apply (row_passed_not_raise _ _ _ _ _ (H r ltac:(lia)) He).
    + destruct H as (r' & Hr' & He' & Hp').
      destruct (Nat.lt_trichotomy r r') as [Hlt|[->|Hgt]].
      * exfalso. apply (row_passed_not_raise _ _ _ _ _ (Hp' r ltac:(lia)) He).
      * congruence.
      * exfalso. apply (row_passed_not_raise _ _ _ _ _ (Hp r' ltac:(lia)) He').
    + destruct H.
Qed.

(** Unless it returns a row the resolver leaves the world as it was. *)
Lemma find_or_create_date_row_fail values hr dc target text w :
  (forall r w1, find_or_create_date_row values hr dc target text w <> (Ok r, w1)) ->
  snd (find_or_create_date_row values hr dc target text w) = w.
Proof.
  intros H.
  destruct (find_or_create_date_row values hr dc target text w) as [o w1] eqn:E.
  destruct o as [r|e|]; [exfalso; apply (H r w1); reflexivity | |];
    simpl; unfold find_or_create_date_row in E;
    unfold mbind at 1, M_bind at 1, lift at 1 in E;
    (destruct (find_existing_row _ _ _ _) as [[r|]|e'|]; [discriminate E | | congruence ..]);
    unfold mbind at 1, M_bind at 1, ask at 1 in E; cbv beta iota in E;
    (destruct (first_empty_row _ _ _ _) as [r|]; [discriminate E | unfold lift in E; congruence]).
Qed.

Lemma find_or_create_date_row_below values hr dc target text w r w1 :
  find_or_create_date_row values hr dc target text w = (Ok r, w1) -> (hr + 1 <= r)%nat.
Proof.
  unfold find_or_create_date_row.
  unfold mbind at 1, M_bind at 1, lift at 1.
  pose proof (find_existing_row_scan values dc target (List.length values + 1 - (hr + 1))
                (hr + 1)) as Hs.
  fold (py_range (hr + 1) (List.length values + 1)) in Hs.
  destruct (find_existing_row _ _ _ _) as [[r0|]|e|]; try discriminate.
  - intros E. injection E as <- <-. lia.
  - unfold mbind at 1, M_bind at 1, ask at 1. cbv beta iota.
    destruct (first_empty_row _ _ _ _) as [r0|] eqn:Ef; [|discriminate].
    intros E. injection E as <- <-.
    apply first_empty_row_Some in Ef. lia.
Qed.

(** X7: when no row of the snapshot below the header carries the target
    date (and none fails to parse), the row resolver returns the first row
    below the header whose live date cell is blank, writes the date text
    into that cell and nothing else, and that row is at most one past the
    last row of the live sheet that shows anything (or the row right below
    the header).  In particular the unbounded live scan always ends. *)
Theorem find_or_create_date_row_appends (values : Grid) (hr dc : nat) (target : date)
    (text : string) (w : World) :
  find_existing_row values dc target (py_range (hr + 1) (List.length values + 1)) = Ok None ->
  exists r,
    find_or_create_date_row values hr dc target text w
    = (Ok r, mkWorld (sheet_update (sheet w) r dc (PStr text))
                     (trace w ++ [EvUpdate r dc (PStr text)]))
    /\ (hr + 1 <= r <= Nat.max (hr + 1) (ws_row_count (sheet w) + 1))%nat
    /\ blank (sheet w) r dc = true
    /\ forall k, (hr + 1 <= k < r)%nat -> blank (sheet w) k dc = false.
Proof.
  intros Hnone.
  destruct (first_empty_row_total (sheet w) dc (S (ws_row_count (sheet w))) (hr + 1))
    as [r Hr]; [lia | lia |].
  exists r. split.
  - unfold find_or_create_date_row.
    erewrite bind_Ok by (unfold lift; rewrite Hnone; reflexivity).
    cbv beta iota. erewrite bind_Ok by reflexivity. unfold id. rewrite Hr. reflexivity.
  - apply first_empty_row_Some in Hr as (Hle & Hb & Hprev).
    split; [|auto]. split; [exact Hle|].
    destruct (Nat.le_gt_cases r (Nat.max (hr + 1) (ws_row_count (sheet w) + 1)))
      as [?|Hgt]; [assumption|exfalso].
    assert (Hk : blank (sheet w) (r - 1) dc = false) by (apply Hprev; lia).
    apply not_blank_shown, shown_cell_in_bounds in Hk. lia.
Qed.

(** X8: when the snapshot scan finds the target date, the resolver returns
    that row and leaves the world untouched; the row lies below the header
    and inside the snapshot, its date cell parses to the target date, and
    every row between the header and it was passed over. *)
Theorem find_or_create_date_row_reuses (values : Grid) (hr dc : nat) (target : date)
    (text : string) (w : World) (r : nat) :
  find_existing_row values dc target (py_range (hr + 1) (List.length values + 1))
  = Ok (Some r) ->
  find_or_create_date_row values hr dc target text w = (Ok r, w)
  /\ (hr + 1 <= r <= List.length values)%nat
  /\ (exists parsed,
        normalize_date_value (cell_at values r dc) = Ok (Some parsed)
        /\ date_eqb parsed target = true)
  /\ forall k, (hr + 1 <= k < r)%nat -> row_passed values dc target k.
Proof.
  intros H. split; [apply find_or_create_date_row_found, H|].
  pose proof (find_existing_row_scan values dc target (List.length values + 1 - (hr + 1))
                (hr + 1)) as Hs.
  fold (py_range (hr + 1) (List.length values + 1)) in Hs. rewrite H in Hs.
  destruct Hs as (Hr & Hhit & Hp). split; [lia|]. split; [exact Hhit | exact Hp].
Qed.

(** X9: the row resolver raises exactly when the snapshot scan reaches,
    below the header, a date cell on which [normalize_date_value] raises
    (a text of the shape YYYY-M-D naming an impossible date), every
    earlier row having been passed over; and then nothing has been
    written. *)
Theorem find_or_create_date_row_raises (values : Grid) (hr dc : nat) (target : date)
    (text : string) (w : World) (e : exn) :
  (fst (find_or_create_date_row values hr dc target text w) = Raise e
   <-> exists r, (hr + 1 <= r <= List.length values)%nat
         /\ normalize_date_value (cell_at values r dc) = Raise e
         /\ forall k, (hr + 1 <= k < r)%nat -> row_passed values dc target k)
  /\ (fst (find_or_create_date_row values hr dc target text w) = Raise e ->
      snd (find_or_create_date_row values hr dc target text w) = w).
Proof.
  assert (Hfst : fst (find_or_create_date_row values hr dc target text w) = Raise e
                 <-> find_existing_row values dc target
                       (py_range (hr + 1) (List.length values + 1)) = Raise e).
  { unfold find_or_create_date_row.
    unfold mbind at 1, M_bind at 1, lift at 1.
    destruct (find_existing_row _ _ _ _) as [[r|]|e'|]; cbv beta iota.
    - unfold mret, M_ret. cbn [fst]. split; discriminate.
    - unfold mbind at 1, M_bind at 1, ask at 1, id. cbv beta iota.
      destruct (first_empty_row (sheet w) dc (hr + 1) (S (ws_row_count (sheet w)))) as [r|];
        unfold mbind, M_bind, ws_update, mret, M_ret, lift; cbv beta iota; cbn [fst];
        split; discriminate.
    - cbn [fst]. split; intros H; injection H as ->; reflexivity.
    - cbn [fst]. split; discriminate. }
  split.
  - rewrite Hfst, find_existing_row_raise.
    split; intros (r & Hr & H); exists r; (split; [lia | exact H]).
  - intros H. apply find_or_create_date_row_fail. intros r w1 E. rewrite E in H. discriminate.
Qed.

(** ** What the ledger writers can write *)

(** What the row resolver leaves in the list of writes. *)
Lemma find_or_create_date_row_trace values hr dc target text w o w1 :
  find_or_create_date_row values hr dc target text w = (o, w1) ->
  writes (trace w1) = writes (trace w)
  \/ exists row, o = Ok row /\ (hr + 1 <= row)%nat
       /\ writes (trace w1) = writes (trace w) ++ [(row, dc, PStr text)].
Proof.
  intros E. destruct o as [row|e|].
  - pose proof (find_or_create_date_row_below _ _ _ _ _ _ _ _ E) as Hb.
    apply find_or_create_date_row_writes in E as [->| ->]; [left; reflexivity|].
    right. exists row. split; [reflexivity|]. split; [exact Hb|].
    simpl. rewrite writes_app. reflexivity.
  - left. f_equal. f_equal.
    rewrite <- (find_or_create_date_row_fail values hr dc target text w).
    + rewrite E. reflexivity.
    + intros r w2. rewrite E. discriminate.
  - left. f_equal. f_equal.
    rewrite <- (find_or_create_date_row_fail values hr dc target text w).
    + rewrite E. reflexivity.
    + intros r w2. rewrite E. discriminate.
Qed.

(** X10: what the brokerage path can write for one message.  A message
    that is not a buy, or has a negative quantity, is ignored without a
    read or a write.  Otherwise the cell writes are none, or lie all on one
    row below the header row of the anchor: possibly the date text in the
    date column, possibly followed by the price and the quantity in
    adjacent columns starting at one of the two zone columns.  (The date
    alone is written when the reference price cannot be read after the
    row was created.) *)
Theorem process_fill_to_sheet_writes (msg : FillMessage) (year_now : nat) (w : World) :
  let text :=
    (int_str 0 year_now ++ "-" ++ int_str 2 (fill_month msg) ++ "-"
       ++ int_str 2 (fill_day msg))%string in
  let after := snd (process_fill_to_sheet msg year_now w) in
  (trade_side msg <> "매수" \/ (fill_qty msg < 0)%Q ->
   process_fill_to_sheet msg year_now w = (Ok None, w))
  /\ (writes (trace after) = writes (trace w)
  \/ exists anchor row date_part fill_part,
       find_header_row_and_columns (get_all_values (sheet w)) = Ok anchor
       /\ (header_row anchor < row)%nat
       /\ writes (trace after) = writes (trace w) ++ date_part ++ fill_part
       /\ (date_part = [] \/ date_part = [(row, date_col anchor, PStr text)])
       /\ (fill_part = []
           \/ exists zone_col,
                (zone_col = loc_avg_col anchor \/ zone_col = loc_high_col anchor)
                /\ fill_part = [(row, zone_col, PNum (fill_price msg));
                                (row, (zone_col + 1)%nat, PNum (fill_qty msg))])).
Proof.
  intros text after. subst after. split.
  { intros Hskip. unfold process_fill_to_sheet.
    destruct (String.eqb_spec (trade_side msg) "매수") as [Es|Es]; [|reflexivity].
    destruct Hskip as [Hne|Hneg]; [contradiction|].
    apply Qlt_bool_iff in Hneg. cbn [negb]. rewrite Hneg. reflexivity. }
  destruct (String.eqb (trade_side msg) "매수") eqn:Eside.
  2:{ left. unfold process_fill_to_sheet. rewrite Eside. reflexivity. }
  apply String.eqb_eq in Eside.
  destruct (Qlt_bool (fill_qty msg) 0) eqn:Eq.
  { left. unfold process_fill_to_sheet. rewrite Eside, String.eqb_refl, Eq. reflexivity. }
  destruct (find_header_row_and_columns (get_all_values (sheet w))) as [anchor|e|] eqn:Ea.
  2:{ left. unfold process_fill_to_sheet. rewrite Eside, String.eqb_refl, Eq. cbn [negb].
      erewrite bind_Ok by reflexivity.
      erewrite bind_Raise by (unfold lift; rewrite Ea; reflexivity). reflexivity. }
  2:{ left. unfold process_fill_to_sheet. rewrite Eside, String.eqb_refl, Eq. cbn [negb].
      erewrite bind_Ok by reflexivity.
      erewrite bind_Diverge by (unfold lift; rewrite Ea; reflexivity). reflexivity. }
  destruct (make_date year_now (fill_month msg) (fill_day msg)) as [target|] eqn:Ed.
  2:{ left. unfold process_fill_to_sheet. rewrite Eside, String.eqb_refl, Eq. cbn [negb].
      erewrite bind_Ok by reflexivity.
      erewrite bind_Ok by (unfold lift; rewrite Ea; reflexivity).
      erewrite bind_Raise by (unfold lift; rewrite Ed; reflexivity). reflexivity. }
  destruct (find_or_create_date_row (get_all_values (sheet w)) (header_row anchor)
              (date_col anchor) target text w) as [o w1] eqn:Er.
  pose proof (find_or_create_date_row_trace _ _ _ _ _ _ _ _ Er) as Htrace.
  destruct o as [row|e|].
  - pose proof (find_or_create_date_row_below _ _ _ _ _ _ _ _ Er) as Hb.
    right. exists anchor, row.
    assert (exists date_part,
              writes (trace w1) = writes (trace w) ++ date_part
              /\ (date_part = [] \/ date_part = [(row, date_col anchor, PStr text)]))
      as (date_part & Hdp & Hshape).
    { destruct Htrace as [->|(row' & Hrow' & _ & Hw)].
      - exists []. rewrite app_nil_r. auto.
      - injection Hrow' as <-. eauto. }
    exists date_part.
    destruct (get_numeric_cell_value (sheet w1) 6 18) as [avg|e|] eqn:Eavg.
    + pose proof (brokerage_write msg year_now w anchor target row w1 avg
                    Eside Eq Ea Ed Er Eavg) as Hw. cbv zeta in Hw.
      eexists. split; [reflexivity|]. split; [lia|].
      split; [rewrite Hw, Hdp; rewrite <- app_assoc; reflexivity|].
      split; [exact Hshape|].
      right. eexists. split; [|reflexivity].
      destruct (Qle_bool _ _); auto.
    + exists []. split; [reflexivity|]. split; [lia|].
      split.
      * unfold process_fill_to_sheet. rewrite Eside, String.eqb_refl, Eq. cbn [negb].
        erewrite bind_Ok by reflexivity.
        erewrite bind_Ok by (unfold lift; rewrite Ea; reflexivity).
        erewrite bind_Ok by (unfold lift; rewrite Ed; reflexivity).
        erewrite bind_Ok by exact Er.
        erewrite bind_Raise by (unfold read_numeric, R6; simpl; rewrite Eavg; reflexivity).
        cbn [snd]. rewrite app_nil_r. exact Hdp.
      * split; [exact Hshape | auto].
    + exists []. split; [reflexivity|]. split; [lia|].
      split.
      * unfold process_fill_to_sheet. rewrite Eside, String.eqb_refl, Eq. cbn [negb].
        erewrite bind_Ok by reflexivity.
        erewrite bind_Ok by (unfold lift; rewrite Ea; reflexivity).
        erewrite bind_Ok by (unfold lift; rewrite Ed; reflexivity).
        erewrite bind_Ok by exact Er.
        erewrite bind_Diverge by (unfold read_numeric, R6; simpl; rewrite Eavg; reflexivity).
        cbn [snd]. rewrite app_nil_r. exact Hdp.
      * split; [exact Hshape | auto].
  - left. destruct Htrace as [Ht|(row & Hrow & _)]; [|discriminate].
    rewrite <- Ht.
    unfold process_fill_to_sheet. rewrite Eside, String.eqb_refl, Eq. cbn [negb].
    erewrite bind_Ok by reflexivity.
    erewrite bind_Ok by (unfold lift; rewrite Ea; reflexivity).
    erewrite bind_Ok by (unfold lift; rewrite Ed; reflexivity).
    erewrite bind_Raise by exact Er. reflexivity.
  - left. destruct Htrace as [Ht|(row & Hrow & _)]; [|discriminate].
    rewrite <- Ht.
    unfold process_fill_to_sheet. rewrite Eside, String.eqb_refl, Eq. cbn [negb].
    erewrite bind_Ok by reflexivity.
    erewrite bind_Ok by (unfold lift; rewrite Ea; reflexivity).
    erewrite bind_Ok by (unfold lift; rewrite Ed; reflexivity).
    erewrite bind_Diverge by exact Er. reflexivity.
Qed.

(** X11: what the exchange path can write for one fill.  A fill that is not
    a bid is ignored.  Otherwise the cell writes are none, or lie all on
    one row below the header row of the anchor: possibly the date text in
    the date column, then either the four cells of a split write or the
    two cells of a single write at one of the two zone columns.  A date is
    never written alone. *)
Theorem process_upbit_fill_to_sheet_writes (target_symbol : string) (fill : UpbitFill)
    (w : World) :
  let text := strftime (dt_date (trade_time fill)) "%Y-%m-%d" in
  let after := snd (process_upbit_fill_to_sheet target_symbol fill w) in
  (side fill <> "bid" -> process_upbit_fill_to_sheet target_symbol fill w = (Ok None, w))
  /\ (writes (trace after) = writes (trace w)
  \/ exists anchor row date_part,
       find_header_row_and_columns (get_all_values (sheet w)) = Ok anchor
       /\ (header_row anchor < row)%nat
       /\ (date_part = [] \/ date_part = [(row, date_col anchor, PStr text)])
       /\ (writes (trace after)
           = writes (trace w) ++ date_part
             ++ [(row, loc_avg_col anchor, PNum (price fill));
                 (row, (loc_avg_col anchor + 1)%nat, PNum (qty fill / 2)%Q);
                 (row, loc_high_col anchor, PNum (price fill));
                 (row, (loc_high_col anchor + 1)%nat, PNum (qty fill / 2)%Q)]
           \/ exists zone_col,
                (zone_col = loc_avg_col anchor \/ zone_col = loc_high_col anchor)
                /\ writes (trace after)
                   = writes (trace w) ++ date_part
                     ++ [(row, zone_col, PNum (price fill));
                         (row, (zone_col + 1)%nat, PNum (qty fill))])).
Proof.
  intros text after. subst after. split.
  { intros Hne. unfold process_upbit_fill_to_sheet.
    apply String.eqb_neq in Hne. rewrite Hne. reflexivity. }
  destruct (String.eqb (side fill) "bid") eqn:Eside.
  2:{ left. unfold process_upbit_fill_to_sheet. rewrite Eside. reflexivity. }
  apply String.eqb_eq in Eside.
  destruct (find_header_row_and_columns (get_all_values (sheet w))) as [anchor|e|] eqn:Ea.
  2:{ left. unfold process_upbit_fill_to_sheet. rewrite Eside, String.eqb_refl. cbn [negb].
      erewrite bind_Ok by reflexivity.
      erewrite bind_Raise by (unfold lift; rewrite Ea; reflexivity). reflexivity. }
  2:{ left. unfold process_upbit_fill_to_sheet. rewrite Eside, String.eqb_refl. cbn [negb].
      erewrite bind_Ok by reflexivity.
      erewrite bind_Diverge by (unfold lift; rewrite Ea; reflexivity). reflexivity. }
  destruct (get_numeric_cell_value (sheet w) 3 2) as [half|e|] eqn:Ehalf.
  2:{ left. unfold process_upbit_fill_to_sheet. rewrite Eside, String.eqb_refl. cbn [negb].
      erewrite bind_Ok by reflexivity.
      erewrite bind_Ok by (unfold lift; rewrite Ea; reflexivity).
      erewrite bind_Raise by (unfold read_numeric, B3; simpl; rewrite Ehalf; reflexivity).
      reflexivity. }
  2:{ left. unfold process_upbit_fill_to_sheet. rewrite Eside, String.eqb_refl. cbn [negb].
      erewrite bind_Ok by reflexivity.
      erewrite bind_Ok by (unfold lift; rewrite Ea; reflexivity).
      erewrite bind_Diverge by (unfold read_numeric, B3; simpl; rewrite Ehalf; reflexivity).
      reflexivity. }
  destruct (get_numeric_cell_value (sheet w) 6 18) as [avg|e|] eqn:Eavg.
  2:{ left. unfold process_upbit_fill_to_sheet. rewrite Eside, String.eqb_refl. cbn [negb].
      erewrite bind_Ok by reflexivity.
      erewrite bind_Ok by (unfold lift; rewrite Ea; reflexivity).
      erewrite bind_Ok by (unfold read_numeric, B3; simpl; rewrite Ehalf; reflexivity).
      erewrite bind_Raise by (unfold read_numeric, R6; simpl; rewrite Eavg; reflexivity).
      reflexivity. }
  2:{ left. unfold process_upbit_fill_to_sheet. rewrite Eside, String.eqb_refl. cbn [negb].
      erewrite bind_Ok by reflexivity.
      erewrite bind_Ok by (unfold lift; rewrite Ea; reflexivity).
      erewrite bind_Ok by (unfold read_numeric, B3; simpl; rewrite Ehalf; reflexivity).
      erewrite bind_Diverge by (unfold read_numeric, R6; simpl; rewrite Eavg; reflexivity).
      reflexivity. }
  destruct (find_or_create_date_row (get_all_values (sheet w)) (header_row anchor)
              (date_col anchor) (dt_date (trade_time fill)) text (upbit_entry w fill))
    as [o w1] eqn:Er.
  pose proof (find_or_create_date_row_trace _ _ _ _ _ _ _ _ Er) as Htrace.
  assert (Hentry : writes (trace (upbit_entry w fill)) = writes (trace w)).
  { unfold upbit_entry. simpl. rewrite writes_app. simpl. apply app_nil_r. }
  rewrite Hentry in Htrace.
  assert (Hdate : forall row, o = Ok row ->
            (header_row anchor < row)%nat
            /\ exists date_part,
                 writes (trace w1) = writes (trace w) ++ date_part
                 /\ (date_part = [] \/ date_part = [(row, date_col anchor, PStr text)])).
  { intros row ->. split.
    - pose proof (find_or_create_date_row_below _ _ _ _ _ _ _ _ Er). lia.
    - destruct Htrace as [->|(row' & Hrow' & _ & Hw)].
      + exists []. rewrite app_nil_r. auto.
      + injection Hrow' as <-. eauto. }
  assert (Hstop : (forall row, o <> Ok row) -> writes (trace w1) = writes (trace w)).
  { intros Hne. destruct Htrace as [Ht|(row & Hrow & _)]; [exact Ht|].
    exfalso. exact (Hne row Hrow). }
  destruct (in_band (ratio_full_of fill half)) eqn:Efull;
    [|destruct (in_band (ratio_half_of fill half)) eqn:Eband].
  - destruct o as [row|e|].
    + right. destruct (Hdate row eq_refl) as (Hlt & date_part & Hdp & Hshape).
      exists anchor, row, date_part. split; [reflexivity|]. split; [exact Hlt|].
      split; [exact Hshape|]. left.
      rewrite (upbit_both target_symbol fill w anchor half avg row w1
                 Eside Ea Ehalf Eavg Efull Er), Hdp, <- app_assoc. reflexivity.
    + left. rewrite <- Hstop by (intros row; discriminate).
      upbit_prefix Eside Ea Ehalf Eavg.
      fold (ratio_full_of fill half). rewrite Efull.
      erewrite bind_Raise by (erewrite bind_Raise by exact Er; reflexivity). reflexivity.
    + left. rewrite <- Hstop by (intros row; discriminate).
      upbit_prefix Eside Ea Ehalf Eavg.
      fold (ratio_full_of fill half). rewrite Efull.
      erewrite bind_Diverge by (erewrite bind_Diverge by exact Er; reflexivity). reflexivity.
  - destruct o as [row|e|].
    + right. destruct (Hdate row eq_refl) as (Hlt & date_part & Hdp & Hshape).
      exists anchor, row, date_part. split; [reflexivity|]. split; [exact Hlt|].
      split; [exact Hshape|]. right.
      pose proof (upbit_single target_symbol fill w anchor half avg row w1
                    Eside Ea Ehalf Eavg Efull Eband Er) as Hw. cbv zeta in Hw.
      eexists. split; [|rewrite Hw, Hdp, <- app_assoc; reflexivity].
      destruct (Qlt_bool _ _); auto.
    + left. rewrite <- Hstop by (intros row; discriminate).
      upbit_prefix Eside Ea Ehalf Eavg.
      fold (ratio_full_of fill half) (ratio_half_of fill half). rewrite Efull, Eband.
      erewrite bind_Raise by (erewrite bind_Raise by exact Er; reflexivity). reflexivity.
    + left. rewrite <- Hstop by (intros row; discriminate).
      upbit_prefix Eside Ea Ehalf Eavg.
      fold (ratio_full_of fill half) (ratio_half_of fill half). rewrite Efull, Eband.
      erewrite bind_Diverge by (erewrite bind_Diverge by exact Er; reflexivity). reflexivity.
  - left. rewrite (upbit_skip target_symbol fill w anchor half avg
                     Eside Ea Ehalf Eavg Efull Eband).
    simpl. rewrite writes_app. simpl. apply app_nil_r.
Qed.

(** ** Fetching *)

Lemma date_eqb_eq a b : date_eqb a b = true -> a = b.
Proof.
  destruct a as [y m d], b as [y' m' d']. unfold date_eqb. simpl.
  rewrite !andb_true_iff, !Nat.eqb_eq. intros [[-> ->] ->]. reflexivity.
Qed.

(** What a row that becomes a fill went through. *)
Lemma fetch_row_inv target_date market_filter market_asset_filter row f :
  fetch_row target_date market_filter market_asset_filter row = Some f ->
  date_misses target_date (done_at row) (created_at row) = false
  /\ String.eqb (base_asset_of (raw_market row)) "BTC" = true
  /\ (negb (String.eqb market_filter "") && negb (String.eqb (raw_market row) market_filter)
      && (if negb (String.eqb market_asset_filter "")
          then negb (String.eqb (base_asset_of (raw_market row))
                       (Text.upper market_asset_filter))
          else true))%bool = false
  /\ raw_side row = "bid"
  /\ Qle_bool (qty f) 0 = false
  /\ Qle_bool (amount f) 0 = false
  /\ qty f = default 0%Q (executed_volume row)
  /\ price f
     = (if String.eqb (ord_type row) "price" then (amount f / qty f)%Q
        else if Qlt_bool 0 (default 0%Q (raw_price row)) then default 0%Q (raw_price row)
             else (amount f / qty f)%Q)
  /\ market f = raw_market row
  /\ trade_dt_of row = Some (trade_time f).
Proof.
  unfold fetch_row, trade_dt_of. intros H.
  assert (Hd : match done_at row, created_at row with None, None => False | _, _ => True end).
  { destruct (done_at row), (created_at row); try exact I. discriminate. }
  assert (H' :
    (if date_misses target_date (done_at row) (created_at row) then None
     else if negb (String.eqb (base_asset_of (raw_market row)) "BTC") then None
     else if (negb (String.eqb market_filter "")
              && negb (String.eqb (raw_market row) market_filter)
              && (if negb (String.eqb market_asset_filter "")
                  then negb (String.eqb (base_asset_of (raw_market row))
                               (Text.upper market_asset_filter))
                  else true))%bool
     then None
     else if negb (String.eqb (raw_side row) "bid") then None
     else
       let qty := default 0%Q (executed_volume row) in
       let executed_funds := default 0%Q (executed_funds row) in
       let raw_price := default 0%Q (raw_price row) in
       if Qle_bool qty 0 then None
       else
         let amount :=
           if String.eqb (raw_side row) "bid" && String.eqb (ord_type row) "price"
              && Qlt_bool 0 raw_price
           then raw_price
           else if Qlt_bool 0 executed_funds then executed_funds
                else if Qlt_bool 0 raw_price then (raw_price * qty)%Q else 0%Q in
         if Qle_bool amount 0 then None
         else
           let price :=
             if String.eqb (raw_side row) "bid" && String.eqb (ord_type row) "price"
             then (amount / qty)%Q
             else if Qlt_bool 0 raw_price then raw_price else (amount / qty)%Q in
           match (match done_at row with Some d => Some d | None => created_at row end) with
           | None => None
           | Some trade_dt =>
               let fallback :=
                 (raw_market row ++ ":" ++ isoformat trade_dt ++ ":" ++ float_str qty
                    ++ ":" ++ float_str price)%string in
               let fill_id :=
                 match uuid row with
                 | Some u => if String.eqb u "" then fallback else u
                 | None => fallback
                 end in
               Some (mkUpbitFill fill_id (raw_market row) trade_dt (raw_side row) price qty
                       amount)
           end) = Some f).
  { destruct (done_at row), (created_at row); first [exact H | destruct Hd]. }
  clear H Hd. cbv zeta in H'.
  destruct (date_misses _ _ _); [discriminate|].
  destruct (String.eqb (base_asset_of (raw_market row)) "BTC"); [|discriminate].
  cbn [negb] in H'.
  destruct (_ && _ && _)%bool; [discriminate|].
  destruct (String.eqb_spec (raw_side row) "bid") as [Es|Es]; [|discriminate].
  cbn [negb andb] in H'.
  destruct (Qle_bool (default 0%Q (executed_volume row)) 0) eqn:Eq; [discriminate|].
  match type of H' with
  | (if Qle_bool ?a 0 then _ else _) = _ => destruct (Qle_bool a 0) eqn:Ea; [discriminate|]
  end.
  destruct (match done_at row with Some d => Some d | None => created_at row end)
    as [trade_dt|]; [|discriminate].
  injection H' as <-. cbn. repeat split; try reflexivity; assumption.
Qed.

Lemma Qdiv_pos (a q : Q) : (0 < a)%Q -> (0 < q)%Q -> (0 < a / q)%Q.
Proof.
  intros Ha Hq. apply Qlt_shift_div_l; [exact Hq|]. rewrite Qmult_0_l. exact Ha.
Qed.

(** The page a fetched fill came from. *)
Lemma fetch_pages_In_page api target_date market_filter market_asset_filter pages_left :
  forall page f,
    In f (fetch_pages api target_date market_filter market_asset_filter page pages_left) ->
    exists p row, (page <= p < page + pages_left)%nat
      /\ (forall q, (page <= q <= p)%nat -> api q <> [])
      /\ In row (api p)
      /\ fetch_row target_date market_filter market_asset_filter row = Some f.
Proof.
  induction pages_left as [|n IH]; intros page f Hin; cbn [fetch_pages] in Hin;
    [contradiction|].
  destruct (api page) as [|row0 rows] eqn:Epage; [contradiction|].
  cbv beta iota in Hin.
  apply in_app_or in Hin as [Hin|Hin].
  - apply list_elem_of_In, list_elem_of_omap in Hin as (row & Hrow & Hf).
    exists page, row. split; [lia|]. split.
    + intros q Hq. replace q with page by lia. rewrite Epage. discriminate.
    + rewrite Epage. split; [apply list_elem_of_In; exact Hrow | exact Hf].
  - destruct (IH _ _ Hin) as (p & row & Hp & Hne & Hrow & Hf).
    exists p, row. split; [lia|]. split; [|auto].
    intros q Hq. destruct (Nat.eq_dec q page) as [->|Hq'].
    + rewrite Epage. discriminate.
    + apply Hne. lia.
Qed.

(** X12: every fetched fill has a positive unit price and comes from a row
    of a page between 1 and [max_pages], all pages up to that one being
    non-empty; it carries the market of that row, its trade time is the
    completion time of the order when there is one and the creation time
    otherwise, and the completion date or the creation date of the order is
    the target date. *)
Theorem fetched_fill_time_and_price (api : nat -> list RawTrade) (max_pages : nat)
    (target_date : date) (market_filter market_asset_filter : string) (f : UpbitFill) :
  In f (fetch_upbit_fills_for_date api max_pages target_date market_filter
          market_asset_filter) ->
  (0 < price f)%Q
  /\ exists page row,
       (1 <= page <= max_pages)%nat
       /\ (forall q, (1 <= q <= page)%nat -> api q <> [])
       /\ In row (api page)
       /\ market f = raw_market row
       /\ trade_dt_of row = Some (trade_time f)
       /\ ((exists d, done_at row = Some d /\ dt_date d = target_date)
           \/ (exists c, created_at row = Some c /\ dt_date c = target_date)).
Proof.
  unfold fetch_upbit_fills_for_date. intros Hin.
  apply fetch_pages_In_page in Hin as (p & row & Hp & Hne & Hrow & Hf).
  apply fetch_row_inv in Hf
    as (Hdate & _ & _ & _ & Hq & Ha & _ & Hprice & Hm & Ht).
  apply Qle_bool_false_lt in Hq, Ha.
  split.
  - rewrite Hprice. destruct (String.eqb _ "price"); [apply Qdiv_pos; assumption|].
    destruct (Qlt_bool 0 _) eqn:E; [apply Qlt_bool_iff, E | apply Qdiv_pos; assumption].
  - exists p, row. split; [lia|]. split; [exact Hne|]. split; [exact Hrow|].
    split; [exact Hm|]. split; [exact Ht|].
    unfold date_misses in Hdate. apply negb_false_iff, orb_true_iff in Hdate.
    destruct Hdate as [Hd|Hd]; [left | right].
    + destruct (done_at row) as [d|]; [|discriminate]. simpl in Hd.
      exists d. split; [reflexivity|]. symmetry. apply date_eqb_eq, Hd.
    + destruct (created_at row) as [c|]; [|discriminate]. simpl in Hd.
      exists c. split; [reflexivity|]. symmetry. apply date_eqb_eq, Hd.
Qed.

Lemma fetch_pages_agree api api' target_date market_filter market_asset_filter pages_left :
  forall page,
    (forall p, (page <= p < page + pages_left)%nat ->
               (forall q, (page <= q < p)%nat -> api q <> []) -> api p = api' p) ->
    fetch_pages api target_date market_filter market_asset_filter page pages_left
    = fetch_pages api' target_date market_filter market_asset_filter page pages_left.
Proof.
  induction pages_left as [|n IH]; intros page H; cbn [fetch_pages]; [reflexivity|].
  rewrite <- (H page) by lia.
  destruct (api page) as [|row0 rows] eqn:Epage; [reflexivity|].
  cbv beta iota. f_equal. apply IH. intros p Hp Hq. apply H; [lia|].
  intros q Hq'. destruct (Nat.eq_dec q page) as [->|Hne].
  - rewrite Epage. discriminate.
  - apply Hq. lia.
Qed.

(** X13: the fetch reads the pages in order, stops at the first empty page
    and never reads past [max_pages]: two order histories that agree on
    every page up to the first empty one, within [max_pages], give the same
    fills. *)
Theorem fetch_stops_at_first_empty_page (api api' : nat -> list RawTrade) (max_pages : nat)
    (target_date : date) (market_filter market_asset_filter : string) :
  (forall p, (1 <= p <= max_pages)%nat ->
             (forall q, (1 <= q < p)%nat -> api q <> []) -> api p = api' p) ->
  fetch_upbit_fills_for_date api max_pages target_date market_filter market_asset_filter
  = fetch_upbit_fills_for_date api' max_pages target_date market_filter market_asset_filter.
Proof.
  intros H. unfold fetch_upbit_fills_for_date. apply fetch_pages_agree.
  intros p Hp Hq. apply H; [lia | exact Hq].
Qed.

(** X14: when the asset filter is BTC in any letter case, the market filter
    has no effect: a row is treated as if no filter were set.  When the
    asset filter is anything else and a market filter is set, every fill
    is on exactly that market. *)
Theorem market_filter_yields_to_asset_filter (target_date : date)
    (market_filter market_asset_filter : string) (row : RawTrade) :
  (Text.upper market_asset_filter = "BTC" ->
   fetch_row target_date market_filter market_asset_filter row
   = fetch_row target_date "" "" row)
  /\ (Text.upper market_asset_filter <> "BTC" -> market_filter <> "" ->
      forall f, fetch_row target_date market_filter market_asset_filter row = Some f ->
                market f = market_filter).
Proof.
  split.
  - intros Hbtc.
    assert (Hne : String.eqb market_asset_filter "" = false).
    { destruct market_asset_filter; [discriminate Hbtc | reflexivity]. }
    unfold fetch_row. rewrite Hbtc, Hne. cbn [negb String.eqb andb].
    destruct (String.eqb (base_asset_of (raw_market row)) "BTC") eqn:Eb; cbn [negb].
    + rewrite !andb_false_r. reflexivity.
    + destruct (done_at row), (created_at row); try reflexivity;
        destruct (date_misses _ _ _); reflexivity.
  - intros Hbtc Hmf f Hf.
    apply fetch_row_inv in Hf as (_ & Hb & Hfilter & _ & _ & _ & _ & _ & Hm & _).
    rewrite Hm. apply String.eqb_eq in Hb. rewrite Hb in Hfilter.
    apply String.eqb_neq in Hmf. rewrite Hmf in Hfilter. cbn [negb andb] in Hfilter.
    assert (Hinner : (if negb (String.eqb market_asset_filter "")
                      then negb (String.eqb "BTC" (Text.upper market_asset_filter))
                      else true) = true).
    { destruct (String.eqb market_asset_filter ""); [reflexivity|]. cbn [negb].
      apply negb_true_iff, String.eqb_neq. congruence. }
    rewrite Hinner, andb_true_r in Hfilter. apply negb_false_iff, String.eqb_eq in Hfilter.
    exact Hfilter.
Qed.

(** ** Reconciliation *)

Lemma sync_loop_counts upbit_sheet_symbol fills : forall st w st' w',
  sync_loop upbit_sheet_symbol fills st w = (Ok st', w') ->
  (written_count st <= written_count st' <= written_count st + List.length fills)%nat
  /\ (written_count st' = written_count st -> last_result st' = last_result st)
  /\ ((written_count st < written_count st')%nat -> last_result st' <> None).
Proof.
  induction fills as [|fill fills IH]; intros st w st' w' Hrun.
  - inversion Hrun; subst. simpl. split; [lia|]. split; [reflexivity | lia].
  - simpl in Hrun. unfold mbind at 1, M_bind at 1 in Hrun.
    destruct (process_upbit_fill_to_sheet upbit_sheet_symbol fill w)
      as [[res|e|] w1] eqn:Estep; try discriminate.
    apply IH in Hrun as (Hle & Heq & Hlt). simpl in Hle, Heq, Hlt. simpl.
    destruct res as [r|].
    + split; [lia|]. split; [lia|]. intros _.
      destruct (Nat.eq_dec (written_count st') (written_count st + 1)) as [E|E].
      * rewrite (Heq E). discriminate.
      * apply Hlt. lia.
    + split; [lia|]. split; [exact Heq | exact Hlt].
Qed.

(** X15: after a completed reconciliation the number of written fills is at
    most the number of processed fills, and the last result is absent
    exactly when nothing was written. *)
Theorem written_count_and_last_result (state_ids : list string)
    (api : nat -> list RawTrade) (max_pages : nat) (target_date : date)
    (upbit_market upbit_market_asset upbit_sheet_symbol : string) (explicit_date : bool)
    (w w' : World) (pc wc : nat) (last : option FillResult) (ids' : list string) :
  run_upbit_sync_once state_ids api max_pages target_date upbit_market upbit_market_asset
    upbit_sheet_symbol explicit_date w = (Ok (pc, wc, last, ids'), w') ->
  (wc <= pc)%nat /\ (wc = 0%nat <-> last = None).
Proof.
  intros Hrun.
  destruct (run_upbit_sync_once_Ok _ _ _ _ _ _ _ _ _ _ _ _ _ _ Hrun) as (Hpc & _ & _).
  unfold run_upbit_sync_once in Hrun. unfold mbind, M_bind in Hrun.
  destruct (sync_loop upbit_sheet_symbol _ _ w) as [[st|e|] w1] eqn:Eloop; try discriminate.
  inversion Hrun; subst. clear Hrun.
  apply sync_loop_counts in Eloop as (Hle & Heq & Hlt). simpl in Hle, Heq, Hlt.
  split; [lia|]. split.
  - intros E. apply Heq. exact E.
  - intros E. destruct (Nat.eq_dec (written_count st) 0) as [?|Hne]; [assumption|].
    exfalso. apply Hlt; [lia | exact E].
Qed.

Lemma last_n_all {A : Type} (n : nat) (l : list A) :
  (List.length l <= n)%nat -> last_n n l = l.
Proof.
  intros H. unfold last_n. replace (List.length l - n)%nat with 0%nat by lia. reflexivity.
Qed.

(** X16: while at most 1000 distinct identifiers are known, the stored
    seen-set loses nothing: it holds exactly the previous identifiers and
    those of the fills processed in this call, so a later call without an
    explicit date forwards none of them again. *)
Theorem seen_set_complete_below_bound (state_ids : list string)
    (api : nat -> list RawTrade) (max_pages : nat) (target_date : date)
    (upbit_market upbit_market_asset upbit_sheet_symbol : string) (explicit_date : bool)
    (w w' : World) (pc wc : nat) (last : option FillResult) (ids' : list string) :
  run_upbit_sync_once state_ids api max_pages target_date upbit_market upbit_market_asset
    upbit_sheet_symbol explicit_date w = (Ok (pc, wc, last, ids'), w') ->
  let forwarded :=
    forwarded_fills state_ids explicit_date
      (fetch_upbit_fills_for_date api max_pages target_date upbit_market
         upbit_market_asset) in
  (size (list_to_set (map fill_id forwarded) ∪ list_to_set state_ids : gset string)
   <= 1000)%nat ->
  (forall i, In i ids' <-> In i state_ids \/ In i (map fill_id forwarded))
  /\ (forall (later : list UpbitFill) (f : UpbitFill),
        In f (forwarded_fills ids' false later) ->
        ~ In (fill_id f) state_ids /\ ~ In f forwarded).
Proof.
  intros Hrun forwarded Hsize.
  destruct (run_upbit_sync_once_Ok _ _ _ _ _ _ _ _ _ _ _ _ _ _ Hrun) as (_ & _ & Hids).
  fold forwarded in Hids.
  assert (Permutation ids'
            (elements (list_to_set (map fill_id forwarded) ∪ list_to_set state_ids
                       : gset string))) as Hperm.
  { rewrite Hids, last_n_all; [apply py_sorted_Permutation|].
    rewrite (Permutation_length (py_sorted_Permutation _ _)). exact Hsize. }
  assert (Hall : forall i, In i ids' <-> In i state_ids \/ In i (map fill_id forwarded)).
  { intros i. split.
    - intros Hin. apply (Permutation_in _ Hperm) in Hin.
      apply list_elem_of_In, elem_of_elements, elem_of_union in Hin as [Hin|Hin];
        apply elem_of_list_to_set, list_elem_of_In in Hin; tauto.
    - intros Hin. apply (Permutation_in _ (Permutation_sym Hperm)).
      apply list_elem_of_In, elem_of_elements, elem_of_union.
      destruct Hin as [Hin|Hin]; [right | left];
        apply elem_of_list_to_set, list_elem_of_In; exact Hin. }
  split; [exact Hall|].
  intros later f Hin.
  apply (Permutation_in _ (forwarded_fills_Permutation ids' false later)) in Hin.
  apply filter_In in Hin as [_ Hdec]. apply bool_decide_eq_true in Hdec.
  rewrite elem_of_list_to_set, list_elem_of_In, Hall in Hdec.
  split; [tauto|]. intros Hf. apply Hdec. right. apply in_map. exact Hf.
Qed.





Lemma ascii_compare_trans_le a b c :
  Ascii.compare a b <> Gt -> Ascii.compare b c <> Gt -> Ascii.compare a c <> Gt.
Proof.
  unfold Ascii.compare. rewrite !N.compare_le_iff. lia.
Qed.

Lemma string_leb_trans s1 s2 s3 :
  String.leb s1 s2 = true -> String.leb s2 s3 = true -> String.leb s1 s3 = true.
Proof.
  assert (Hle : forall a b, String.leb a b = true <-> String.compare a b <> Gt).
  { intros a b. unfold String.leb. destruct (String.compare a b); split;
      congruence. }
  rewrite !Hle. revert s2 s3.
  induction s1 as [|a s1 IH]; intros [|b s2] [|c s3]; simpl; try congruence.
  unfold Ascii.compare.
  destruct (N.compare_spec (N_of_ascii a) (N_of_ascii b)) as [Eab|Lab|Gab];
    destruct (N.compare_spec (N_of_ascii b) (N_of_ascii c)) as [Ebc|Lbc|Gbc];
    destruct (N.compare_spec (N_of_ascii a) (N_of_ascii c)) as [Eac|Lac|Gac];
    try congruence; try lia; try (intros; discriminate).
  apply IH.
Qed.

(** X18: the identifiers a completed reconciliation drops from the seen-set
    are the smallest in byte order: the known identifiers split into the
    evicted ones and the stored ones, every evicted identifier is below
    every stored one, and something is evicted only when 1000 identifiers
    are stored. *)
Theorem seen_set_evicts_smallest (state_ids : list string)
    (api : nat -> list RawTrade) (max_pages : nat) (target_date : date)
    (upbit_market upbit_market_asset upbit_sheet_symbol : string) (explicit_date : bool)
    (w w' : World) (pc wc : nat) (last : option FillResult) (ids' : list string) :
  run_upbit_sync_once state_ids api max_pages target_date upbit_market upbit_market_asset
    upbit_sheet_symbol explicit_date w = (Ok (pc, wc, last, ids'), w') ->
  let forwarded :=
    forwarded_fills state_ids explicit_date
      (fetch_upbit_fills_for_date api max_pages target_date upbit_market
         upbit_market_asset) in
  exists evicted,
    (forall i, In i evicted \/ In i ids' <-> In i state_ids \/ In i (map fill_id forwarded))
    /\ (forall i j, In i evicted -> In j ids' -> String.leb i j = true /\ i <> j)
    /\ (evicted <> [] -> List.length ids' = 1000%nat).
Proof.
  intros Hrun forwarded.
  destruct (run_upbit_sync_once_Ok _ _ _ _ _ _ _ _ _ _ _ _ _ _ Hrun) as (_ & _ & Hids).
  fold forwarded in Hids.
  set (all := py_sorted String.leb
                (elements (list_to_set (map fill_id forwarded) ∪ list_to_set state_ids
                           : gset string))) in *.
  assert (Permutation all
            (elements (list_to_set (map fill_id forwarded) ∪ list_to_set state_ids
                       : gset string))) as Hperm
    by apply py_sorted_Permutation.
  assert (Hs : StronglySorted (fun a b => String.leb a b = true) all).
  { apply Sorted_StronglySorted.
    - intros a b c. apply string_leb_trans.
    - apply py_sorted_Sorted, String.leb_total. }
  assert (Hnd : NoDup all) by (rewrite Hperm; apply NoDup_elements).
  unfold last_n in Hids.
  exists (take (List.length all - 1000) all).
  rewrite <- (take_drop (List.length all - 1000) all) in Hs, Hnd.
  rewrite <- Hids in Hs, Hnd.
  split; [|split].
  - intros i. rewrite <- in_app_iff, Hids, take_drop.
    split.
    + intros Hin. apply (Permutation_in _ Hperm) in Hin.
      apply list_elem_of_In, elem_of_elements, elem_of_union in Hin as [Hin|Hin];
        apply elem_of_list_to_set, list_elem_of_In in Hin; tauto.
    + intros Hin. apply (Permutation_in _ (Permutation_sym Hperm)).
      apply list_elem_of_In, elem_of_elements, elem_of_union.
      destruct Hin as [Hin|Hin]; [right | left];
        apply elem_of_list_to_set, list_elem_of_In; exact Hin.
  - intros i j Hi Hj. split.
    + apply (StronglySorted_app_1_elem_of _ _ _ i j Hs); apply list_elem_of_In; assumption.
    + intros ->. apply NoDup_app in Hnd as (_ & Hdisj & _).
      apply (Hdisj j); apply list_elem_of_In; assumption.
  - intros Hne. rewrite Hids, length_drop.
    assert (List.length (take (List.length all - 1000) all) <> 0)%nat as Hlen.
    { destruct (take _ all); [contradiction | discriminate]. }
    rewrite length_take in Hlen. lia.
Qed.

Lemma sync_loop_app upbit_sheet_symbol fills1 fills2 : forall st w,
  sync_loop upbit_sheet_symbol (fills1 ++ fills2) st w
  = (sync_loop upbit_sheet_symbol fills1 st ≫= sync_loop upbit_sheet_symbol fills2) w.
Proof.
  induction fills1 as [|f fills1 IH]; intros st w; [reflexivity|].
  cbn [app sync_loop]. unfold mbind, M_bind.
  destruct (process_upbit_fill_to_sheet upbit_sheet_symbol f w) as [[res|e|] w1];
    [|reflexivity..].
  rewrite IH. reflexivity.
Qed.

Lemma grows_bind {A B : Type} (m : M A) (k : A -> M B) :
  grows m -> (forall a, grows (k a)) -> grows (m ≫= k).
Proof.
  intros Hm Hk w r w'. unfold mbind, M_bind.
  destruct (m w) as [[a|e|] w1] eqn:E; intros H.
  - destruct (Hm _ _ _ E) as [t1 H1]. destruct (Hk a _ _ _ H) as [t2 H2].
    exists (t1 ++ t2). rewrite H2, H1, app_assoc. reflexivity.
  - inversion H; subst. exact (Hm _ _ _ E).
  - inversion H; subst. exact (Hm _ _ _ E).
Qed.

Lemma grows_pure {A : Type} (m : M A) : (forall w, snd (m w) = w) -> grows m.
Proof.
  intros H w r w' E. specialize (H w). rewrite E in H. simpl in H. subst.
  exists []. rewrite app_nil_r. reflexivity.
Qed.

Lemma grows_ret {A : Type} (a : A) : grows (mret a).
Proof. apply grows_pure. reflexivity. Qed.

Lemma grows_ws_update r c v : grows (ws_update r c v).
Proof. intros w x w' H. inversion H; subst. simpl. eauto. Qed.

Lemma grows_log tag i : grows (log tag i).
Proof. intros w x w' H. inversion H; subst. simpl. eauto. Qed.

Lemma grows_find_or_create_date_row values hr dc target text :
  grows (find_or_create_date_row values hr dc target text).
Proof.
  unfold find_or_create_date_row.
  apply grows_bind; [apply grows_pure; reflexivity|]. intros [r|]; [apply grows_ret|].
  apply grows_bind; [apply grows_pure; reflexivity|]. intros ws.
  destruct (first_empty_row _ _ _ _); [|apply grows_pure; reflexivity].
  apply grows_bind; [apply grows_ws_update | intros; apply grows_ret].
Qed.

Lemma grows_process_upbit_fill_to_sheet target_symbol fill :
  grows (process_upbit_fill_to_sheet target_symbol fill).
Proof.
  unfold process_upbit_fill_to_sheet.
  destruct (negb _); [apply grows_ret|].
  apply grows_bind; [apply grows_pure; reflexivity|]. intros values.
  apply grows_bind; [apply grows_pure; reflexivity|]. intros anchor.
  apply grows_bind; [apply grows_pure; reflexivity|]. intros half.
  apply grows_bind; [apply grows_pure; reflexivity|]. intros avg.
  apply grows_bind; [apply grows_log|]. intros _.
  apply grows_bind.
  - destruct (in_band _); [|destruct (in_band _)].
    + apply grows_bind; [apply grows_find_or_create_date_row|]. intros r.
      repeat (apply grows_bind; [first [apply grows_ws_update | apply grows_log]|];
              intros _).
      apply grows_ret.
    + apply grows_bind; [apply grows_find_or_create_date_row|]. intros r.
      repeat (apply grows_bind; [first [apply grows_ws_update | apply grows_log]|];
              intros _).
      apply grows_ret.
    + apply grows_bind; [apply grows_log | intros _; apply grows_ret].
  - intros [r|]; [|apply grows_ret].
    apply grows_bind; [|intros; apply grows_ret].
    apply grows_pure. apply get_fill_result_for_row_reads.
Qed.

Lemma grows_sync_loop upbit_sheet_symbol fills : forall st,
  grows (sync_loop upbit_sheet_symbol fills st).
Proof.
  induction fills as [|f fills IH]; intros st; cbn [sync_loop]; [apply grows_ret|].
  apply grows_bind; [apply grows_process_upbit_fill_to_sheet|]. intros res. apply IH.
Qed.

(** X19: a fill on which the ledger writer raises aborts the
    reconciliation with that error.  The fills after it are not processed,
    no seen-set is produced, and whatever the earlier fills and the failing
    one left in the trace stays there. *)
Theorem sync_aborts_on_first_failure (state_ids : list string)
    (api : nat -> list RawTrade) (max_pages : nat) (target_date : date)
    (upbit_market upbit_market_asset upbit_sheet_symbol : string) (explicit_date : bool)
    (w w1 w2 : World) (done rest : list UpbitFill) (f : UpbitFill) (st1 : SyncState)
    (e : exn) :
  forwarded_fills state_ids explicit_date
    (fetch_upbit_fills_for_date api max_pages target_date upbit_market upbit_market_asset)
  = done ++ f :: rest ->
  sync_loop upbit_sheet_symbol done (mkSyncState 0 0 None (list_to_set state_ids)) w
  = (Ok st1, w1) ->
  process_upbit_fill_to_sheet upbit_sheet_symbol f w1 = (Raise e, w2) ->
  run_upbit_sync_once state_ids api max_pages target_date upbit_market upbit_market_asset
    upbit_sheet_symbol explicit_date w = (Raise e, w2)
  /\ exists t1 t2, trace w1 = trace w ++ t1 /\ trace w2 = trace w ++ t1 ++ t2.
Proof.
  intros Hsplit Hdone Hfail. split.
  - unfold run_upbit_sync_once. rewrite Hsplit.
    apply bind_Raise. rewrite sync_loop_app.
    erewrite bind_Ok by exact Hdone.
    cbn [sync_loop]. apply bind_Raise. exact Hfail.
  - destruct (grows_sync_loop _ _ _ _ _ _ Hdone) as [t1 H1].
    destruct (grows_process_upbit_fill_to_sheet _ _ _ _ _ Hfail) as [t2 H2].
    exists t1, t2. split; [exact H1|]. rewrite H2, H1, app_assoc. reflexivity.
Qed.

(** ** The answer to the command *)

Context {fmt : MoneyFormat}.

Lemma append_assoc (a b c : string) : ((a ++ b) ++ c = a ++ (b ++ c))%string.
Proof.
  induction a as [|x a IH]; [reflexivity|].
  change (String x ((a ++ b) ++ c) = String x (a ++ (b ++ c)))%string.
  rewrite IH. reflexivity.
Qed.

(** X27: the answer to the reconciliation command carries the ledger
    summary exactly when a fill was written: after a completed
    reconciliation with nothing written the text is the three lines of
    counts, and otherwise there is a last result and the text is these
    three lines, an empty line and the summary built from that result. *)
Theorem command_reply_carries_summary (state_ids : list string)
    (api : nat -> list RawTrade) (max_pages : nat) (target_date : date)
    (upbit_market upbit_market_asset upbit_sheet_symbol : string) (explicit_date : bool)
    (w w' : World) (pc wc : nat) (last : option FillResult) (ids' : list string) :
  run_upbit_sync_once state_ids api max_pages target_date upbit_market upbit_market_asset
    upbit_sheet_symbol explicit_date w = (Ok (pc, wc, last, ids'), w') ->
  (wc = 0%nat -> build_upbit_command_result_text pc wc last = counts_text pc wc)
  /\ (wc <> 0%nat ->
      exists result,
        last = Some result
        /\ build_upbit_command_result_text pc wc last
           = (counts_text pc wc ++ nl ++ nl ++ build_reply_text result)%string).
Proof.
  intros Hrun.
  unfold run_upbit_sync_once in Hrun. unfold mbind, M_bind in Hrun.
  destruct (sync_loop upbit_sheet_symbol _ _ w) as [[st|e|] w1] eqn:Eloop; try discriminate.
  inversion Hrun; subst. clear Hrun.
  apply sync_loop_counts in Eloop as (_ & _ & Hlt). simpl in Hlt.
  unfold build_upbit_command_result_text, counts_text. split.
  - intros ->. destruct (last_result st); reflexivity.
  - intros Hne. destruct (last_result st) as [result|] eqn:El.
    + exists result. split; [reflexivity|].
      apply Nat.eqb_neq in Hne. rewrite Hne.
      rewrite !append_assoc. reflexivity.
    + exfalso. apply Hlt; [lia | reflexivity].
Qed.

(** ** Column letters *)

Lemma col_to_a1_loop_app fuel : forall n chars,
  col_to_a1_loop fuel n chars = chars ++ col_to_a1_loop fuel n [].
Proof.
  induction fuel as [|fuel IH]; intros n chars; cbn [col_to_a1_loop];
    [rewrite app_nil_r; reflexivity|].
  destruct (0 <? n)%nat; [|rewrite app_nil_r; reflexivity].
  cbv zeta. rewrite IH, (IH _ ([] ++ _)). rewrite app_assoc. reflexivity.
Qed.

Lemma col_to_a1_loop_fuel fuel : forall fuel' n,
  (n <= fuel)%nat -> (n <= fuel')%nat ->
  col_to_a1_loop fuel n [] = col_to_a1_loop fuel' n [].
Proof.
  induction fuel as [|fuel IH]; intros fuel' n H H'.
  - replace n with 0%nat by lia. destruct fuel'; reflexivity.
  - destruct fuel' as [|fuel'].
    + replace n with 0%nat by lia. reflexivity.
    + cbn [col_to_a1_loop]. destruct (Nat.ltb_spec 0 n) as [Hn|Hn]; [|reflexivity].
      cbv zeta. rewrite col_to_a1_loop_app, (col_to_a1_loop_app fuel').
      f_equal.
      assert ((n - 1) / 26 <= n - 1)%nat by (apply Nat.Div0.div_le_upper_bound; lia).
      apply IH; lia.
Qed.

Lemma letter_value rem : (rem < 26)%nat -> (nat_of_ascii (letter rem) - 64 = rem + 1)%nat.
Proof.
  intros H. unfold letter. rewrite nat_ascii_embedding by lia. lia.
Qed.

Lemma letter_upper rem : (rem < 26)%nat -> Text.is_upper (letter rem) = true.
Proof.
  intros H. unfold Text.is_upper, letter. rewrite nat_ascii_embedding by lia.
  apply andb_true_iff. split; apply Nat.leb_le; lia.
Qed.

Lemma col_to_a1_loop_value : forall n fuel,
  (n <= fuel)%nat ->
  letters_value (col_to_a1_loop fuel n []) = n
  /\ Forall (fun ch => Text.is_upper ch = true) (col_to_a1_loop fuel n []).
Proof.
  induction n as [n IH] using lt_wf_ind. intros fuel Hfuel.
  destruct fuel as [|fuel].
  - replace n with 0%nat by lia. split; [reflexivity | constructor].
  - cbn [col_to_a1_loop]. destruct (Nat.ltb_spec 0 n) as [Hn|Hn].
    + cbv zeta. rewrite col_to_a1_loop_app. cbn [app].
      assert ((n - 1) / 26 <= n - 1)%nat by (apply Nat.Div0.div_le_upper_bound; lia).
      destruct (IH ((n - 1) / 26)%nat ltac:(lia) fuel ltac:(lia)) as [Hv Hu].
      assert ((n - 1) mod 26 < 26)%nat as Hrem by (apply Nat.mod_upper_bound; lia).
      split.
      * cbn [letters_value fold_right]. fold (letters_value (col_to_a1_loop fuel ((n - 1) / 26) [])).
        rewrite Hv, letter_value by exact Hrem.
        pose proof (Nat.div_mod_eq (n - 1) 26). lia.
      * constructor; [apply letter_upper, Hrem | exact Hu].
    + replace n with 0%nat by lia. split; [reflexivity | constructor].
Qed.

Lemma a1_column_rev l :
  a1_column (string_of_list_ascii (rev l)) = letters_value l.
Proof.
  unfold a1_column, letters_value. rewrite list_ascii_of_string_of_list_ascii.
  rewrite <- fold_left_rev_right, rev_involutive. reflexivity.
Qed.

(** X20: [col_to_a1] writes a column number in the letters of A1 notation:
    reading the letters back gives the number, all letters are upper-case
    ASCII, the text is empty exactly for column 0, the loop never needs
    more than [n] turns, and different columns get different letters. *)
Theorem col_to_a1_round_trip (n : nat) :
  a1_column (col_to_a1 n) = n
  /\ Forall (fun ch => Text.is_upper ch = true) (list_ascii_of_string (col_to_a1 n))
  /\ (col_to_a1 n = "" <-> n = 0%nat)
  /\ (forall fuel, (n <= fuel)%nat ->
        string_of_list_ascii (rev (col_to_a1_loop fuel n [])) = col_to_a1 n)
  /\ (forall m, col_to_a1 m = col_to_a1 n -> m = n).
Proof.
  assert (Hrt : forall k, a1_column (col_to_a1 k) = k).
  { intros k. unfold col_to_a1. rewrite a1_column_rev.
    apply col_to_a1_loop_value. lia. }
  split; [apply Hrt|]. split; [|split; [|split]].
  - unfold col_to_a1. rewrite list_ascii_of_string_of_list_ascii.
    apply Forall_rev. apply col_to_a1_loop_value. lia.
  - split.
    + intros E. rewrite <- (Hrt n), E. reflexivity.
    + intros ->. reflexivity.
  - intros fuel Hfuel. unfold col_to_a1.
    rewrite (col_to_a1_loop_fuel fuel n n); [reflexivity | lia | lia].
  - intros m E. rewrite <- (Hrt m), E. apply Hrt.
Qed.

(** ** The spreadsheet of a symbol *)

Lemma lstrip_head_ok s : head_ok (Text.lstrip s).
Proof.
  induction s as [|a s IH]; simpl; [exact I|].
  destruct (Text.is_space a) eqn:E; [exact IH | exact E].
Qed.

Lemma lstrip_fixed s : head_ok s -> Text.lstrip s = s.
Proof. destruct s as [|a s]; simpl; [reflexivity|]. intros ->. reflexivity. Qed.

Lemma rstrip_head_ok s : head_ok s -> head_ok (Text.rstrip s).
Proof.
  destruct s as [|a s]; simpl; [auto|]. intros E.
  destruct (Text.rstrip s); [rewrite E|]; exact E.
Qed.

Lemma rstrip_idem s : Text.rstrip (Text.rstrip s) = Text.rstrip s.
Proof.
  induction s as [|a s IH]; [reflexivity|]. cbn [Text.rstrip].
  destruct (Text.rstrip s) as [|b r] eqn:Er.
  - destruct (Text.is_space a) eqn:E; [reflexivity|]. cbn [Text.rstrip]. rewrite E. reflexivity.
  - cbn [Text.rstrip] in IH |- *. rewrite IH. reflexivity.
Qed.

Lemma strip_idem s : Text.strip (Text.strip s) = Text.strip s.
Proof.
  unfold Text.strip.
  rewrite (lstrip_fixed (Text.rstrip (Text.lstrip s)))
    by apply rstrip_head_ok, lstrip_head_ok.
  apply rstrip_idem.
Qed.

Lemma is_space_upper_ascii a : Text.is_space (Text.upper_ascii a) = Text.is_space a.
Proof. destruct a as [[] [] [] [] [] [] [] []]; vm_compute; reflexivity. Qed.

Lemma upper_ascii_idem a : Text.upper_ascii (Text.upper_ascii a) = Text.upper_ascii a.
Proof. destruct a as [[] [] [] [] [] [] [] []]; vm_compute; reflexivity. Qed.

Lemma upper_idem s : Text.upper (Text.upper s) = Text.upper s.
Proof.
  unfold Text.upper. induction s as [|a s IH]; simpl; [reflexivity|].
  rewrite upper_ascii_idem, IH. reflexivity.
Qed.

Lemma lstrip_upper s : Text.lstrip (Text.upper s) = Text.upper (Text.lstrip s).
Proof.
  unfold Text.upper. induction s as [|a s IH]; simpl; [reflexivity|].
  rewrite is_space_upper_ascii. destruct (Text.is_space a); [exact IH | reflexivity].
Qed.

Lemma rstrip_upper s : Text.rstrip (Text.upper s) = Text.upper (Text.rstrip s).
Proof.
  unfold Text.upper. induction s as [|a s IH]; [reflexivity|].
  cbn [Text.map_chars Text.rstrip]. rewrite IH, is_space_upper_ascii.
  destruct (Text.rstrip s); [destruct (Text.is_space a)|]; reflexivity.
Qed.

Lemma strip_upper s : Text.strip (Text.upper s) = Text.upper (Text.strip s).
Proof. unfold Text.strip. rewrite lstrip_upper, rstrip_upper. reflexivity. Qed.

Lemma id_map_item_clean out item :
  (forall k v, out !! k = Some v -> clean_entry k v) ->
  forall k v, id_map_item out item !! k = Some v -> clean_entry k v.
Proof.
  intros Hout k v. unfold id_map_item.
  destruct (_ || _)%bool; [apply Hout|].
  destruct (split_once ":" (Text.strip item)) as [[symbol sheet_id]|]; [|apply Hout].
  cbv zeta.
  destruct (String.eqb_spec (Text.upper (Text.strip symbol)) "") as [E1|E1];
    [apply Hout|].
  destruct (String.eqb_spec (Text.strip sheet_id) "") as [E2|E2]; [apply Hout|].
  cbn [negb andb]. rewrite lookup_insert_Some.
  intros [[<- <-]|[_ H]]; [|exact (Hout _ _ H)].
  unfold clean_entry.
  split; [exact E1|]. split; [exact E2|]. split; [apply upper_idem|].
  split; [rewrite strip_upper, strip_idem; reflexivity | apply strip_idem].
Qed.

Lemma fold_id_map_clean items : forall out,
  (forall k v, out !! k = Some v -> clean_entry k v) ->
  forall k v, fold_left id_map_item items out !! k = Some v -> clean_entry k v.
Proof.
  induction items as [|item items IH]; intros out Hout; [exact Hout|].
  cbn [fold_left]. apply IH. apply id_map_item_clean. exact Hout.
Qed.

(** X21: every entry of the parsed symbol map has a non-empty, stripped,
    upper-case symbol and a non-empty, stripped spreadsheet id.  Hence
    [resolve_spreadsheet] opens by key exactly when the symbol is in the
    map, opens by title when it is not and the fallback flag is set, and
    raises otherwise. *)
Theorem id_map_entries_are_clean (raw : string) :
  (forall k v, parse_spreadsheet_id_map raw !! k = Some v ->
     k <> "" /\ v <> "" /\ Text.upper k = k /\ Text.strip k = k /\ Text.strip v = v)
  /\ (forall env_fallback symbol,
        let found := parse_spreadsheet_id_map (Text.strip raw) !! symbol in
        match resolve_spreadsheet raw env_fallback symbol with
        | Ok (ByKey sheet_id) => found = Some sheet_id
        | Ok (ByTitle title) =>
            found = None /\ env_flag env_fallback = true
            /\ title = (symbol ++ " 무한매수")%string
        | Raise _ => found = None /\ env_flag env_fallback = false
        | Diverge => False
        end).
Proof.
  assert (Hclean : forall r k v, parse_spreadsheet_id_map r !! k = Some v -> clean_entry k v).
  { intros r. unfold parse_spreadsheet_id_map. apply fold_id_map_clean.
    intros k v H. rewrite lookup_empty in H. discriminate. }
  split; [apply Hclean|].
  intros env_fallback symbol found. subst found. unfold resolve_spreadsheet.
  destruct (parse_spreadsheet_id_map (Text.strip raw) !! symbol) as [[|a s]|] eqn:E.
  - apply Hclean in E. destruct E as (_ & Hv & _). contradiction.
  - reflexivity.
  - destruct (env_flag env_fallback); auto.
Qed.

(** ** The reconciliation command *)

Lemma strip_prefix_empty p s : strip_prefix p s = Some "" <-> s = p.
Proof.
  revert s. induction p as [|a p IH]; intros s; simpl.
  - split; [intros [= ->]; reflexivity | intros ->; reflexivity].
  - destruct s as [|b s]; [split; discriminate|].
    destruct (Ascii.eqb_spec a b) as [->|Hne].
    + rewrite IH. split; [intros ->; reflexivity | intros [= ->]; reflexivity].
    + split; [discriminate | intros [= -> ->]; contradiction].
Qed.

Lemma rstrip_fixed_tail a s : Text.rstrip (String a s) = String a s -> Text.rstrip s = s.
Proof.
  cbn [Text.rstrip]. destruct (Text.rstrip s) as [|b r] eqn:E.
  - destruct (Text.is_space a); [discriminate|]. intros [= <-]. reflexivity.
  - intros [= <-]. reflexivity.
Qed.

Lemma strip_prefix_rstrip_fixed p : forall s rest,
  Text.rstrip s = s -> strip_prefix p s = Some rest -> Text.rstrip rest = rest.
Proof.
  induction p as [|a p IH]; intros s rest Hs; simpl.
  - intros [= <-]. exact Hs.
  - destruct s as [|b s]; [discriminate|].
    destruct (Ascii.eqb a b); [|discriminate].
    apply IH. exact (rstrip_fixed_tail _ _ Hs).
Qed.

Lemma only_space_rstrip s : only_space s = true -> Text.rstrip s = "".
Proof.
  unfold only_space. induction s as [|a s IH]; [reflexivity|].
  cbn [Text.lstrip Text.rstrip]. destruct (Text.is_space a) eqn:E; [|discriminate].
  intros H. rewrite (IH H). reflexivity.
Qed.

(** After the command a stripped text has either nothing or something to
    show. *)
Lemma only_space_rest text command_text rest :
  strip_prefix command_text (Text.strip text) = Some rest ->
  only_space rest = true -> rest = "".
Proof.
  intros Hp Hs. apply only_space_rstrip in Hs. rewrite <- Hs. symmetry.
  apply (strip_prefix_rstrip_fixed command_text (Text.strip text)); [|exact Hp].
  unfold Text.strip. apply rstrip_idem.
Qed.

(** X22: the reconciliation command is read as "today, not explicit" exactly
    when the text, stripped, is the command itself; an explicit result
    always carries the date [strptime] reads from the text after the colon,
    with "20" put before a two-digit year. *)
Theorem command_date_explicit_flag (text command_text : string) (today d : date) :
  (parse_upbit_command_date text command_text today = Ok (Some (d, false))
   <-> Text.strip text = command_text /\ d = today)
  /\ (parse_upbit_command_date text command_text today = Ok (Some (d, true)) ->
      exists rest shown year_digits,
        strip_prefix command_text (Text.strip text) = Some rest
        /\ command_date_group rest = Some (shown, year_digits)
        /\ strptime (if (year_digits =? 2)%nat then ("20" ++ shown)%string else shown)
             "%Y-%m-%d" = Some d).
Proof.
  unfold parse_upbit_command_date. split.
  - split.
    + destruct (strip_prefix command_text (Text.strip text)) as [rest|] eqn:Ep;
        [|discriminate].
      destruct (command_date_group rest) as [[shown n]|].
      * destruct (strptime _ _); discriminate.
      * destruct (only_space rest) eqn:Es; [|discriminate].
        intros [= <-]. apply (only_space_rest _ _ _ Ep) in Es. subst rest.
        apply strip_prefix_empty in Ep. auto.
    + intros [Hs ->]. apply strip_prefix_empty in Hs. rewrite Hs. reflexivity.
  - destruct (strip_prefix command_text (Text.strip text)) as [rest|] eqn:Ep;
      [|discriminate].
    destruct (command_date_group rest) as [[shown n]|] eqn:Eg.
    + destruct (strptime _ _) as [parsed|] eqn:Es; [|discriminate].
      intros [= <-]. exists rest, shown, n. auto.
    + destruct (only_space rest); discriminate.
Qed.

(** ** The brokerage notice *)

Lemma contains_char c s : Text.contains (String c "") s = negb (lacks c s).
Proof.
  induction s as [|a s IH]; [reflexivity|].
  cbn [Text.contains lacks String.prefix]. rewrite IH.
  destruct (Ascii.ascii_dec c a) as [->|Hne].
  - rewrite Ascii.eqb_refl. destruct s; reflexivity.
  - apply not_eq_sym, Ascii.eqb_neq in Hne. rewrite Hne. reflexivity.
Qed.

Lemma lacks_lstrip c s : lacks c s = true -> lacks c (Text.lstrip s) = true.
Proof.
  induction s as [|a s IH]; [reflexivity|]. cbn [Text.lstrip lacks].
  intros H. apply andb_true_iff in H as [Ha Hs].
  destruct (Text.is_space a); [exact (IH Hs)|]. cbn [lacks]. rewrite Ha, Hs. reflexivity.
Qed.

Lemma lacks_rstrip c s : lacks c s = true -> lacks c (Text.rstrip s) = true.
Proof.
  induction s as [|a s IH]; [reflexivity|]. cbn [Text.rstrip lacks].
  intros H. apply andb_true_iff in H as [Ha Hs]. specialize (IH Hs).
  destruct (Text.rstrip s) as [|b r].
  - destruct (Text.is_space a); [reflexivity|]. cbn [lacks]. rewrite Ha. reflexivity.
  - cbn [lacks] in IH |- *. rewrite Ha, IH. reflexivity.
Qed.

Lemma lacks_strip c s : lacks c s = true -> lacks c (Text.strip s) = true.
Proof. intros H. unfold Text.strip. apply lacks_rstrip, lacks_lstrip, H. Qed.

Lemma split_once_lacks sep s l r : split_once sep s = Some (l, r) -> lacks sep l = true.
Proof.
  revert l r. induction s as [|a s IH]; intros l r; cbn [split_once]; [discriminate|].
  destruct (Ascii.eqb a sep) eqn:E.
  - intros [= <- <-]. reflexivity.
  - destruct (split_once sep s) as [[l' r']|]; [|discriminate].
    intros [= <- <-]. cbn [lacks]. rewrite E, (IH l' r' eq_refl). reflexivity.
Qed.

Lemma split_once_app sep s l r :
  split_once sep s = Some (l, r) -> s = (l ++ String sep r)%string.
Proof.
  revert l r. induction s as [|a s IH]; intros l r; cbn [split_once]; [discriminate|].
  destruct (Ascii.eqb_spec a sep) as [->|Hne].
  - intros [= <- <-]. reflexivity.
  - destruct (split_once sep s) as [[l' r']|]; [|discriminate].
    intros [= <- <-]. cbn. rewrite (IH l' r' eq_refl). reflexivity.
Qed.

Lemma fold_kv_source text lines : forall out,
  (forall line, In line lines -> In line (splitlines text)) ->
  (forall k v, out !! k = Some v -> kv_source text k v) ->
  forall k v, fold_left kv_line lines out !! k = Some v -> kv_source text k v.
Proof.
  induction lines as [|line lines IH]; intros out Hin Hout; [exact Hout|].
  cbn [fold_left]. apply IH; [intros l Hl; apply Hin; right; exact Hl|].
  intros k v. unfold kv_line.
  destruct (_ || _)%bool; [apply Hout|].
  destruct (split_once ":" (Text.strip line)) as [[k0 v0]|] eqn:Es; [|apply Hout].
  rewrite lookup_insert_Some. intros [[<- <-]|[_ H]]; [|exact (Hout _ _ H)].
  exists line, k0, v0. split; [apply Hin; left; reflexivity|].
  split; [exact (split_once_app _ _ _ _ Es)|].
  split; [exact (split_once_lacks _ _ _ _ Es) | auto].
Qed.

(** X23: every entry of the key-value reading of a message comes from one
    of its lines, split at the first colon of the stripped line: key and
    value are stripped, and no key contains a colon. *)
Theorem kv_entries_come_from_lines (text k v : string) :
  parse_kv_message text !! k = Some v ->
  Text.strip k = k /\ Text.strip v = v /\ Text.contains ":" k = false
  /\ exists line k0 v0,
       In line (splitlines text)
       /\ Text.strip line = (k0 ++ String ":" v0)%string
       /\ lacks ":" k0 = true
       /\ k = Text.strip k0 /\ v = Text.strip v0.
Proof.
  intros H.
  assert (Hsrc : kv_source text k v).
  { unfold parse_kv_message in H. revert H. apply fold_kv_source; [auto|].
    intros k' v' H'. rewrite lookup_empty in H'. discriminate. }
  destruct Hsrc as (line & k0 & v0 & Hin & Hline & Hk0 & -> & ->).
  split; [apply strip_idem|]. split; [apply strip_idem|].
  split; [rewrite contains_char, lacks_strip by exact Hk0; reflexivity|].
  exists line, k0, v0. auto.
Qed.





Lemma one_or_two_digits_bound s ds r :
  one_or_two_digits s = Some (ds, r) -> (nat_of_digits ds <= 99)%nat.
Proof.
  assert (Hd : forall a, Text.is_digit a = true -> (nat_of_ascii a - 48 <= 9)%nat).
  { intros a H. unfold Text.is_digit in H. apply andb_true_iff in H as [_ H].
    apply Nat.leb_le in H. lia. }
  unfold one_or_two_digits. destruct s as [|a s]; [discriminate|].
  destruct (Text.is_digit a) eqn:Ea; [|discriminate]. apply Hd in Ea.
  destruct s as [|b s].
  - intros [= <- <-]. unfold nat_of_digits. simpl. lia.
  - destruct (Text.is_digit b) eqn:Eb.
    + apply Hd in Eb. intros [= <- <-]. unfold nat_of_digits. simpl. lia.
    + intros [= <- <-]. unfold nat_of_digits. simpl. lia.
Qed.

Lemma fill_date_at_bound s m d :
  fill_date_at s = Some (m, d) -> (m <= 99 /\ d <= 99)%nat.
Proof.
  unfold fill_date_at.
  destruct (one_or_two_digits s) as [[ms r]|] eqn:E1; [|discriminate].
  destruct (Text.lstrip r) as [|c r']; [discriminate|].
  destruct (Ascii.eqb c "/"); [|discriminate].
  destruct (one_or_two_digits (Text.lstrip r')) as [[ds r2]|] eqn:E2; [|discriminate].
  intros [= <- <-]. split; eapply one_or_two_digits_bound; eassumption.
Qed.

Lemma fill_date_at_slash s : lacks "/" s = true -> fill_date_at s = None.
Proof.
  intros H. unfold fill_date_at.
  destruct (one_or_two_digits s) as [[ms r]|] eqn:E1; [|reflexivity].
  assert (lacks "/" r = true) as Hr.
  { unfold one_or_two_digits in E1. destruct s as [|a s]; [discriminate|].
    cbn [lacks] in H. apply andb_true_iff in H as [_ H].
    destruct (Text.is_digit a); [|discriminate].
    destruct s as [|b s]; [injection E1 as <- <-; reflexivity|].
    destruct (Text.is_digit b); injection E1 as <- <-; [|exact H].
    cbn [lacks] in H. apply andb_true_iff in H as [_ H]. exact H. }
  apply (lacks_lstrip "/") in Hr.
  destruct (Text.lstrip r) as [|c r']; [reflexivity|].
  cbn [lacks] in Hr. apply andb_true_iff in Hr as [Hc _].
  apply negb_true_iff in Hc. rewrite Hc. reflexivity.
Qed.

Lemma search_fill_date_bound s m d :
  search_fill_date s = Some (m, d) -> (m <= 99 /\ d <= 99)%nat.
Proof.
  induction s as [|a s IH]; cbn [search_fill_date].
  - destruct (fill_date_at "") as [[m' d']|] eqn:E; [|discriminate].
    intros [= <- <-]. exact (fill_date_at_bound _ _ _ E).
  - destruct (fill_date_at (String a s)) as [[m' d']|] eqn:E; [|exact IH].
    intros [= <- <-]. exact (fill_date_at_bound _ _ _ E).
Qed.

Lemma search_fill_date_slash s : lacks "/" s = true -> search_fill_date s = None.
Proof.
  induction s as [|a s IH]; intros H; cbn [search_fill_date];
    rewrite (fill_date_at_slash _ H); [reflexivity|].
  cbn [lacks] in H. apply andb_true_iff in H as [_ H]. exact (IH H).
Qed.

Lemma parse_fill_date_Ok mmdd year_now y m d :
  parse_fill_date mmdd year_now = Ok (y, m, d) ->
  y = year_now /\ (m <= 99)%nat /\ (d <= 99)%nat.
Proof.
  unfold parse_fill_date.
  destruct (search_fill_date mmdd) as [[m' d']|] eqn:E; [|discriminate].
  intros [= <- <- <-]. split; [reflexivity|]. exact (search_fill_date_bound _ _ _ E).
Qed.

(** X25: [parse_fill_date] returns the year of the clock and a month and a
    day of at most two digits each, with no calendar check; a text without
    a slash always raises. *)
Theorem parse_fill_date_reads_two_digits (mmdd : string) (year_now : nat) :
  (forall y m d, parse_fill_date mmdd year_now = Ok (y, m, d) ->
     y = year_now /\ (m <= 99)%nat /\ (d <= 99)%nat)
  /\ (Text.contains "/" mmdd = false ->
      parse_fill_date mmdd year_now = Raise (ValueError ("invalid 체결일자: " ++ mmdd)%string)).
Proof.
  split; [intros y m d; apply parse_fill_date_Ok|].
  unfold parse_fill_date.
  - rewrite contains_char. intros H. apply negb_false_iff in H.
    rewrite (search_fill_date_slash _ H). reflexivity.
Qed.

(** X26: a text without the line of the brokerage notice is no fill
    message, and neither is one in which any of the five fields is missing
    or empty: both give [None] without raising.  A message that is
    returned carries the text itself, the symbol, the two numbers and the
    date as the field parsers read them, a non-empty trade side, and a
    month and day below 100. *)
Theorem parse_fill_message_gate (text : string) (year_now : nat) :
  let kv := parse_kv_message text in
  let field key := default "" (kv !! key) in
  (Text.contains fill_marker text = false -> parse_fill_message text year_now = Ok None)
  /\ (forall key,
        In key ["종목명"; "매매구분"; "체결단가"; "체결수량"; "체결일자"] ->
        field key = "" -> parse_fill_message text year_now = Ok None)
  /\ (forall msg,
        parse_fill_message text year_now = Ok (Some msg) ->
        Text.contains fill_marker text = true
        /\ raw_text msg = text
        /\ parse_symbol (field "종목명") = Ok (symbol msg)
        /\ trade_side msg = field "매매구분" /\ trade_side msg <> ""
        /\ parse_float (field "체결단가") = Ok (fill_price msg)
        /\ parse_float (field "체결수량") = Ok (fill_qty msg)
        /\ parse_fill_date (field "체결일자") year_now
           = Ok (year_now, fill_month msg, fill_day msg)
        /\ (fill_month msg <= 99)%nat /\ (fill_day msg <= 99)%nat).
Proof.
  intros kv field. unfold parse_fill_message. fold kv.
  change (default "" (kv !! "종목명")) with (field "종목명").
  change (default "" (kv !! "매매구분")) with (field "매매구분").
  change (default "" (kv !! "체결단가")) with (field "체결단가").
  change (default "" (kv !! "체결수량")) with (field "체결수량").
  change (default "" (kv !! "체결일자")) with (field "체결일자").
  split; [intros ->; reflexivity|]. split.
  - intros key Hkey Hempty.
    destruct (Text.contains fill_marker text); [|reflexivity]. cbn [negb].
    assert (existsb (fun s => String.eqb s "")
              [field "종목명"; field "매매구분"; field "체결단가"; field "체결수량";
               field "체결일자"] = true) as ->; [|reflexivity].
    apply existsb_exists. exists (field key). split; [|rewrite Hempty; reflexivity].
    cbn [In] in Hkey |- *. intuition (subst; auto).
  - intros msg. destruct (Text.contains fill_marker text); [|discriminate]. cbn [negb].
    destruct (existsb _ _) eqn:Eall; [discriminate|].
    assert (Hside : field "매매구분" <> "").
    { intros E. rewrite E in Eall. cbn in Eall. rewrite !orb_true_r in Eall.
      discriminate. }
    destruct (parse_symbol (field "종목명")) as [sym|e|]; try discriminate.
    destruct (parse_float (field "체결단가")) as [p|e|]; try discriminate.
    destruct (parse_float (field "체결수량")) as [q|e|]; try discriminate.
    destruct (parse_fill_date (field "체결일자") year_now) as [[[y m] d]|e|] eqn:Ed;
      try discriminate.
    intros [= <-]. cbn.
    destruct (parse_fill_date_Ok _ _ _ _ _ Ed) as (-> & Hm & Hd).
    repeat split; auto.
Qed.
End Facts.

(** * The facts on concrete ledgers *)

Section Instances.

Import Example.

Local Open Scope list_scope.

#[local] Existing Instance Example.lib.

Ltac q_lt := reflexivity.
Ltac q_le := vm_compute; discriminate.

Lemma ledger_anchor :
  find_header_row_and_columns (get_all_values (sheet world0)) = Ok (mkAnchor 13 1 4 6).
Proof. vm_compute. reflexivity. Qed.

Lemma ledger_half_unit : get_numeric_cell_value (sheet world0) 3 2 = Ok 100%Q.
Proof. vm_compute. reflexivity. Qed.

Lemma ledger_average : get_numeric_cell_value (sheet world0) 6 18 = Ok 50%Q.
Proof. vm_compute. reflexivity. Qed.



(** C2, counterexample: for the grid with the date label at (5,2), the
    zone-A label at (5,4) and the zone-B label at (6,4) the resolver
    returns the anchor with both zone columns equal to 4. *)
Lemma resolver_equal_columns_counterexample :
  find_header_row_and_columns grid_same_column = Ok (mkAnchor 6 2 4 4)
  /\ loc_avg_col (mkAnchor 6 2 4 4) = loc_high_col (mkAnchor 6 2 4 4).
Proof. split; [vm_compute; reflexivity | reflexivity]. Qed.

(** With the zone-B label at (6,8) no column holds both labels, and the
    columns of the anchor differ. *)
Lemma resolver_zone_columns_distinct_witness :
  find_header_row_and_columns grid_distinct_columns = Ok (mkAnchor 6 2 4 8)
  /\ zone_labels_share_column grid_distinct_columns = false
  /\ column_has _is_loc_avg_label grid_distinct_columns 4 = true
  /\ column_has _is_loc_high_label grid_distinct_columns 8 = true
  /\ 4%nat <> 8%nat.
Proof.
  assert (find_header_row_and_columns grid_distinct_columns = Ok (mkAnchor 6 2 4 8)) as Ha
    by (vm_compute; reflexivity).
  assert (zone_labels_share_column grid_distinct_columns = false) as Hs
    by (vm_compute; reflexivity).
  split; [exact Ha|]. split; [exact Hs|].
  exact (resolver_zone_columns_distinct grid_distinct_columns (mkAnchor 6 2 4 8) Ha Hs).
Defined.

(** C4, counterexample: with the date label at (1,1), phase 1 accepts a
    zone-A label at (1,15), fourteen columns after the date column, and a
    zone-B label at (3,2), two rows below the date row. *)
Lemma date_first_window_counterexample :
  date_first_scan grid_wide_window = Some (mkAnchor 3 1 15 2)
  /\ _is_date_label (cell_at grid_wide_window 1 1) = true
  /\ _is_loc_avg_label (cell_at grid_wide_window 1 (1 + 14)) = true
  /\ _is_loc_high_label (cell_at grid_wide_window (1 + 2) 2) = true
  /\ find_label _is_loc_avg_label grid_wide_window
       (List.filter (fun rc => (fst rc <=? 1 + 1)%nat && (snd rc <=? 1 + 13)%nat)
          (window grid_wide_window 1 1)) = None.
Proof. repeat split; vm_compute; reflexivity. Qed.

Lemma date_first_scan_window_witness :
  date_first_scan grid_wide_window = Some (mkAnchor 3 1 15 2)
  /\ exists r ra rb,
       _is_date_label (cell_at grid_wide_window r 1) = true
       /\ find_label _is_loc_avg_label grid_wide_window (window grid_wide_window r 1)
          = Some (ra, 15%nat)
       /\ find_label _is_loc_high_label grid_wide_window (window grid_wide_window r 1)
          = Some (rb, 2%nat)
       /\ 3%nat = Nat.max r (Nat.max ra rb)
       /\ (r <= ra <= r + 2 /\ r <= rb <= r + 2)%nat
       /\ (1 + 1 <= 15 <= 1 + 14 /\ 1 + 1 <= 2 <= 1 + 14)%nat.
Proof.
  assert (date_first_scan grid_wide_window = Some (mkAnchor 3 1 15 2)) as Hs
    by (vm_compute; reflexivity).
  split; [exact Hs|].
  exact (proj2 (proj2 (date_first_scan_window grid_wide_window)) (mkAnchor 3 1 15 2) Hs).
Defined.

(** C3, counterexample: the date is absent from the snapshot; the first
    call creates row 15; a second call with the same snapshot and the same
    target date returns row 16 and writes the date again. *)
Lemma stale_snapshot_counterexample :
  find_or_create_date_row (get_all_values ledger) 13 1 jan5 "2024-01-05" world0
  = (Ok 15%nat, world1)
  /\ fst (find_or_create_date_row (get_all_values ledger) 13 1 jan5 "2024-01-05" world1)
     = Ok 16%nat
  /\ writes (trace (snd (find_or_create_date_row (get_all_values ledger) 13 1 jan5
                           "2024-01-05" world1)))
     = [(15, 1, PStr "2024-01-05"); (16, 1, PStr "2024-01-05")]%nat.
Proof. repeat split; vm_compute; reflexivity. Qed.

(** On a snapshot read again after the row was created, the second call
    finds row 15 and writes nothing. *)
Lemma find_or_create_date_row_idempotent_witness :
  find_or_create_date_row (get_all_values (sheet world1)) 13 1 jan5 "2024-01-05" world1
  = (Ok 15%nat, world1).
Proof.
  apply (find_or_create_date_row_idempotent world0 world1 13 1 jan5 "2024-01-05" 15).
  - lia.
  - vm_compute. reflexivity.
  - vm_compute. reflexivity.
Defined.


(** A brokerage buy at the average price itself goes to zone A (column 4);
    an exchange fill of one unit priced above the average goes to zone B
    (column 6). *)
Lemma zone_selected_by_price_witness :
  (exists zone_col,
      writes (trace (snd (process_fill_to_sheet msg_tie 2024 world0)))
      = writes (trace world1) ++ [(15%nat, zone_col, PNum 50); (15%nat, (zone_col + 1)%nat, PNum 2)]
      /\ zone_col = 4%nat)
  /\ (exists zone_col,
      writes (trace (snd (process_upbit_fill_to_sheet "BTC" fill_one_unit world0)))
      = [(15, 1, PStr "2024-01-05")]%nat
        ++ [(15%nat, zone_col, PNum 60); (15%nat, (zone_col + 1)%nat, PNum 3)]
      /\ zone_col = 6%nat).
Proof.
  destruct zone_selected_by_price as [Hbrokerage Hexchange].
  split.
  - destruct (Hbrokerage msg_tie 2024%nat world0 (mkAnchor 13 1 4 6) jan5 15%nat world1 50%Q)
      as (zone_col & Hw & Hle & _).
    + reflexivity.
    + reflexivity.
    + exact ledger_anchor.
    + reflexivity.
    + vm_compute. reflexivity.
    + vm_compute. reflexivity.
    + exists zone_col. split; [exact Hw|]. apply Hle. q_le.
  - destruct (Hexchange "BTC" fill_one_unit world0 (mkAnchor 13 1 4 6) 100%Q 50%Q 15%nat
                (snd (find_or_create_date_row (get_all_values (sheet world0)) 13 1 jan5
                        "2024-01-05" (upbit_entry world0 fill_one_unit))))
      as (zone_col & Hw & _ & Hgt).
    + reflexivity.
    + exact ledger_anchor.
    + exact ledger_half_unit.
    + exact ledger_average.
    + vm_compute. reflexivity.
    + vm_compute. reflexivity.
    + vm_compute. reflexivity.
    + exists zone_col. split; [|apply Hgt; q_lt].
      rewrite Hw. f_equal.
Defined.

(** C9, counterexample: [ledger] has no total-quantity label anywhere, yet
    processing a buy succeeds and writes the date, the price and the
    quantity; the total-quantity column is taken to be column 10. *)
Lemma missing_total_qty_label_counterexample :
  forallb (forallb (fun cell => negb (_is_total_qty_label cell))) (get_all_values ledger) = true
  /\ find_total_qty_column (get_all_values ledger) 13 6 = 10%nat
  /\ fst (process_fill_to_sheet msg_tie 2024 world0)
     = Ok (Some (mkFillResult "BTC 무한매수" "USD" 50 52 49 55 60 0))
  /\ writes (trace (snd (process_fill_to_sheet msg_tie 2024 world0)))
     = [(15, 1, PStr "2024-01-05"); (15, 4, PNum 50); (15, 5, PNum 2)]%nat.
Proof. repeat split; vm_compute; reflexivity. Qed.

(** Without a header both paths raise the resolver's error and leave the
    world as it was. *)
Lemma layout_error_leaves_ledger_untouched_witness :
  process_fill_to_sheet msg_tie 2024 (mkWorld ledger_no_header [])
  = (Raise (ValueError "헤더 행(날짜/LOC평단/LOC고가)을 찾을 수 없습니다"),
     mkWorld ledger_no_header [])
  /\ process_upbit_fill_to_sheet "BTC" fill_two_units (mkWorld ledger_no_header [])
     = (Raise (ValueError "헤더 행(날짜/LOC평단/LOC고가)을 찾을 수 없습니다"),
        mkWorld ledger_no_header []).
Proof.
  destruct layout_error_leaves_ledger_untouched as (Hbrokerage & Hexchange & _).
  split.
  - apply Hbrokerage; [reflexivity | reflexivity | vm_compute; reflexivity].
  - apply Hexchange; [reflexivity | vm_compute; reflexivity].
Defined.

(** C8, counterexample: a market-style buy whose [price] field is empty
    and whose executed funds are 500 is not discarded; it becomes a fill of
    amount 500, the executed funds. *)
Lemma market_buy_without_total_counterexample :
  ord_type order_market_no_total = "price"
  /\ raw_price order_market_no_total = None
  /\ executed_funds order_market_no_total = Some 500%Q
  /\ fetch_row jan5 "KRW-BTC" "BTC" order_market_no_total = Some fill_of_order_market_no_total
  /\ amount fill_of_order_market_no_total = 500%Q.
Proof. repeat split; vm_compute; reflexivity. Qed.

(** A market-style buy reporting a total of 180 for 0.002 units. *)
Lemma fetch_row_amount_witness :
  fetch_row jan5 "KRW-BTC" "BTC" order_market = Some fill_of_order_market
  /\ (0 < 2 # 1000)%Q /\ (0 < amount fill_of_order_market)%Q
  /\ qty fill_of_order_market = (2 # 1000)%Q
  /\ price fill_of_order_market = (amount fill_of_order_market / (2 # 1000))%Q
  /\ amount fill_of_order_market = 180%Q.
Proof.
  assert (fetch_row jan5 "KRW-BTC" "BTC" order_market = Some fill_of_order_market) as Hf
    by (vm_compute; reflexivity).
  pose proof (fetch_row_amount jan5 "KRW-BTC" "BTC" order_market fill_of_order_market Hf)
    as H.
  cbv zeta in H. destruct H as (Hq & Ha & Hqty & _ & Hmarket & _).
  destruct (Hmarket eq_refl) as [Hprice Htotal].
  split; [exact Hf|]. split; [exact Hq|]. split; [exact Ha|]. split; [exact Hqty|].
  split; [exact Hprice|]. apply Htotal. q_lt.
Defined.

(** An order on KRW-ETH is dropped even when the filters ask for ETH, and
    the fills fetched from [orders] are on BTC. *)
Lemma fetch_excludes_non_btc_witness :
  fetch_row jan5 "KRW-ETH" "ETH" order_eth = None
  /\ Forall (fun f => base_asset_of (market f) = "BTC")
       (fetch_upbit_fills_for_date orders 30 jan5 "KRW-ETH" "ETH").
Proof.
  destruct fetch_excludes_non_btc as [Hrow Hlist].
  split.
  - apply Hrow. intros H. vm_compute in H. discriminate H.
  - apply List.Forall_forall. intros f Hin. exact (proj1 (Hlist _ _ _ _ _ _ Hin)).
Defined.


Lemma ledger_sync :
  run_upbit_sync_once ["a"] orders 30 jan5 "KRW-BTC" "BTC" "BTC" false world0
  = (Ok (1%nat, 1%nat, Some ledger_summary, ["a"; "b"]),
     snd (run_upbit_sync_once ["a"] orders 30 jan5 "KRW-BTC" "BTC" "BTC" false world0)).
Proof. vm_compute. reflexivity. Qed.




(** ** Further facts *)

#[local] Existing Instance Example.money.

(** The layout with the zone-B label at (6,8). *)
Lemma anchor_labels_located_witness :
  exists rd ra rb,
    _is_date_label (cell_at grid_distinct_columns rd 2) = true
    /\ _is_loc_avg_label (cell_at grid_distinct_columns ra 4) = true
    /\ _is_loc_high_label (cell_at grid_distinct_columns rb 8) = true
    /\ 6%nat = Nat.max rd (Nat.max ra rb)
    /\ (1 <= rd <= List.length grid_distinct_columns
        /\ 1 <= ra <= List.length grid_distinct_columns
        /\ 1 <= rb <= List.length grid_distinct_columns)%nat
    /\ (1 <= 2 <= max_col grid_distinct_columns
        /\ 1 <= 4 <= max_col grid_distinct_columns
        /\ 1 <= 8 <= max_col grid_distinct_columns)%nat.
Proof.
  apply (anchor_labels_located grid_distinct_columns (mkAnchor 6 2 4 8)).
  vm_compute. reflexivity.
Defined.

(** The date label at (5,2) has the zone-A label at (5,4) and the zone-B
    label at (6,8) in its window. *)
Lemma date_window_resolves_witness :
  exists anchor,
    date_first_scan grid_distinct_columns = Some anchor
    /\ find_header_row_and_columns grid_distinct_columns = Ok anchor.
Proof.
  apply (date_window_resolves grid_distinct_columns 5 2 5 4 6 8).
  - vm_compute. reflexivity.
  - apply in_window. vm_compute. lia.
  - vm_compute. reflexivity.
  - apply in_window. vm_compute. lia.
  - vm_compute. reflexivity.
Defined.

Lemma label_matching_ignores_case_and_space_witness :
  _is_date_label "LOC 평단" = _is_date_label " loc평단"
  /\ _is_loc_avg_label "LOC 평단" = _is_loc_avg_label " loc평단"
  /\ _is_loc_high_label "LOC 평단" = _is_loc_high_label " loc평단"
  /\ _is_total_qty_label "LOC 평단" = _is_total_qty_label " loc평단".
Proof.
  apply (label_matching_ignores_case_and_space "LOC 평단" " loc평단").
  vm_compute. reflexivity.
Defined.

(** On [ledger] the date of 5 January is absent: a row is created. *)
Lemma find_or_create_date_row_appends_witness :
  exists r,
    find_or_create_date_row (get_all_values ledger) 13 1 jan5 "2024-01-05" world0
    = (Ok r, mkWorld (sheet_update (sheet world0) r 1 (PStr "2024-01-05"))
                     (trace world0 ++ [EvUpdate r 1 (PStr "2024-01-05")]))
    /\ (13 + 1 <= r <= Nat.max (13 + 1) (ws_row_count (sheet world0) + 1))%nat
    /\ blank (sheet world0) r 1 = true
    /\ forall k, (13 + 1 <= k < r)%nat -> blank (sheet world0) k 1 = false.
Proof.
  apply (find_or_create_date_row_appends (get_all_values ledger) 13 1 jan5 "2024-01-05" world0).
  vm_compute. reflexivity.
Defined.

(** Once created, the row is found in a fresh snapshot. *)
Lemma find_or_create_date_row_reuses_witness :
  find_or_create_date_row (get_all_values (sheet world1)) 13 1 jan5 "2024-01-05" world1
  = (Ok 15%nat, world1)
  /\ (13 + 1 <= 15 <= List.length (get_all_values (sheet world1)))%nat
  /\ (exists parsed,
        normalize_date_value (cell_at (get_all_values (sheet world1)) 15 1) = Ok (Some parsed)
        /\ date_eqb parsed jan5 = true)
  /\ forall k, (13 + 1 <= k < 15)%nat ->
               row_passed (get_all_values (sheet world1)) 1 jan5 k.
Proof.
  apply (find_or_create_date_row_reuses (get_all_values (sheet world1)) 13 1 jan5
           "2024-01-05" world1 15).
  vm_compute. reflexivity.
Defined.

(** A date cell reading 2024-02-30 makes the resolver raise. *)
Lemma find_or_create_date_row_raises_witness :
  fst (find_or_create_date_row (get_all_values ledger_bad_date) 13 1 jan5 "2024-01-05"
         (mkWorld ledger_bad_date []))
  = Raise (ValueError "datetime: value out of range")
  /\ snd (find_or_create_date_row (get_all_values ledger_bad_date) 13 1 jan5 "2024-01-05"
            (mkWorld ledger_bad_date []))
     = mkWorld ledger_bad_date [].
Proof.
  destruct (find_or_create_date_row_raises (get_all_values ledger_bad_date) 13 1 jan5
              "2024-01-05" (mkWorld ledger_bad_date [])
              (ValueError "datetime: value out of range")) as [Hiff Hsame].
  assert (fst (find_or_create_date_row (get_all_values ledger_bad_date) 13 1 jan5
                 "2024-01-05" (mkWorld ledger_bad_date []))
          = Raise (ValueError "datetime: value out of range")) as Hraise.
  { apply Hiff. exists 14%nat. split; [vm_compute; lia|].
    split; [vm_compute; reflexivity | intros k Hk; lia]. }
  split; [exact Hraise | exact (Hsame Hraise)].
Defined.

Lemma fetched_fill_time_and_price_witness :
  (0 < price fill_of_order_market)%Q
  /\ exists page row,
       (1 <= page <= 30)%nat
       /\ (forall q, (1 <= q <= page)%nat -> orders q <> [])
       /\ In row (orders page)
       /\ market fill_of_order_market = raw_market row
       /\ trade_dt_of row = Some (trade_time fill_of_order_market)
       /\ ((exists d, done_at row = Some d /\ dt_date d = jan5)
           \/ (exists c, created_at row = Some c /\ dt_date c = jan5)).
Proof.
  apply (fetched_fill_time_and_price orders 30 jan5 "KRW-BTC" "BTC" fill_of_order_market).
  vm_compute. left. reflexivity.
Defined.

(** What follows the empty page 2 is never read. *)
Lemma fetch_stops_at_first_empty_page_witness :
  fetch_upbit_fills_for_date orders 30 jan5 "KRW-BTC" "BTC"
  = fetch_upbit_fills_for_date orders_then_noise 30 jan5 "KRW-BTC" "BTC".
Proof.
  apply (fetch_stops_at_first_empty_page orders orders_then_noise 30 jan5 "KRW-BTC" "BTC").
  intros p Hp Hq.
  destruct p as [|[|[|p]]]; [lia | reflexivity | reflexivity |].
  exfalso. apply (Hq 2%nat); [lia | reflexivity].
Defined.

Lemma written_count_and_last_result_witness :
  (1 <= 1)%nat /\ (1%nat = 0%nat <-> Some ledger_summary = None).
Proof.
  exact (written_count_and_last_result _ _ _ _ _ _ _ _ _ _ _ _ _ _ ledger_sync).
Defined.

Lemma seen_set_complete_below_bound_witness :
  (forall i, In i ["a"; "b"]
             <-> In i ["a"]
                 \/ In i (map fill_id
                            (forwarded_fills ["a"] false
                               (fetch_upbit_fills_for_date orders 30 jan5 "KRW-BTC" "BTC"))))
  /\ (forall (later : list UpbitFill) (f : UpbitFill),
        In f (forwarded_fills ["a"; "b"] false later) ->
        ~ In (fill_id f) ["a"]
        /\ ~ In f (forwarded_fills ["a"] false
                     (fetch_upbit_fills_for_date orders 30 jan5 "KRW-BTC" "BTC"))).
Proof.
  apply (seen_set_complete_below_bound _ _ _ _ _ _ _ _ _ _ _ _ _ _ ledger_sync).
  vm_compute. lia.
Defined.

Lemma seen_set_evicts_smallest_witness :
  exists evicted,
    (forall i, In i evicted \/ In i ["a"; "b"]
               <-> In i ["a"]
                   \/ In i (map fill_id
                              (forwarded_fills ["a"] false
                                 (fetch_upbit_fills_for_date orders 30 jan5 "KRW-BTC"
                                    "BTC"))))
    /\ (forall i j, In i evicted -> In j ["a"; "b"] -> String.leb i j = true /\ i <> j)
    /\ (evicted <> [] -> List.length ["a"; "b"] = 1000%nat).
Proof.
  exact (seen_set_evicts_smallest _ _ _ _ _ _ _ _ _ _ _ _ _ _ ledger_sync).
Defined.

(** On a sheet without a header the first fill raises and the second is
    never processed. *)
Lemma sync_aborts_on_first_failure_witness :
  run_upbit_sync_once [] orders 30 jan5 "KRW-BTC" "BTC" "BTC" false
    (mkWorld ledger_no_header [])
  = (Raise (ValueError "헤더 행(날짜/LOC평단/LOC고가)을 찾을 수 없습니다"),
     mkWorld ledger_no_header [])
  /\ exists t1 t2,
       trace (mkWorld ledger_no_header []) = trace (mkWorld ledger_no_header []) ++ t1
       /\ trace (mkWorld ledger_no_header [])
          = trace (mkWorld ledger_no_header []) ++ t1 ++ t2.
Proof.
  apply (sync_aborts_on_first_failure [] orders 30 jan5 "KRW-BTC" "BTC" "BTC" false
           (mkWorld ledger_no_header []) (mkWorld ledger_no_header [])
           (mkWorld ledger_no_header []) [] [fill_of_order_limit] fill_of_order_market
           (mkSyncState 0 0 None (list_to_set []))).
  - vm_compute. reflexivity.
  - reflexivity.
  - vm_compute. reflexivity.
Defined.

Lemma kv_entries_come_from_lines_witness :
  Text.strip "매매구분" = "매매구분" /\ Text.strip "매수" = "매수"
  /\ Text.contains ":" "매매구분" = false
  /\ exists line k0 v0,
       In line (splitlines fill_notice)
       /\ Text.strip line = (k0 ++ String ":" v0)%string
       /\ lacks ":" k0 = true
       /\ "매매구분" = Text.strip k0 /\ "매수" = Text.strip v0.
Proof.
  apply (kv_entries_come_from_lines fill_notice "매매구분" "매수").
  vm_compute. reflexivity.
Defined.


(** One fill was written: the answer carries the summary. *)
Lemma command_reply_carries_summary_witness :
  (1%nat = 0%nat ->
   build_upbit_command_result_text 1 1 (Some ledger_summary) = counts_text 1 1)
  /\ (1%nat <> 0%nat ->
      exists result,
        Some ledger_summary = Some result
        /\ build_upbit_command_result_text 1 1 (Some ledger_summary)
           = (counts_text 1 1 ++ nl ++ nl ++ build_reply_text result)%string).
Proof.
  exact (command_reply_carries_summary _ _ _ _ _ _ _ _ _ _ _ _ _ _ ledger_sync).
Defined.

(** The notice parses to a buy of 3 units of TQQQ at 50.25 on 5 January. *)
Lemma fill_notice_parses :
  parse_fill_message fill_notice 2024
  = Ok (Some (mkFillMessage fill_notice "TQQQ" "매수" (201 # 4) 3 1 5)).
Proof. vm_compute. reflexivity. Qed.

End Instances.
